(** * Valtric analysis pipeline: sanitizer, evidence rule, baseline, classifier

    A shallow embedding of the deterministic core of the Valtric backend
    ([app/services/validation.py], [enforce.py], [analyzer.py] and
    [consultant.py]) together with the properties of it that the
    specification states, and of the code around it: the orchestration of
    the two backends in [consultant.py], the triage parser ([triage.py]),
    the deal payload of [analyzer.py], retrieval and reranking
    ([retrieve.py], [rerank.py]), the validator of [schemas.py] and the
    cache ([cache.py]).

    The Python functions work on untyped, JSON-like values and signal
    failure with exceptions.  The embedding therefore has three layers:

    - [Py]: the fragment of the Python runtime the code relies on (values,
      exceptions, [float()], [str()], truthiness, dictionaries, strings);
    - one module per source file, each function translated statement by
      statement into the error monad [result]; what a backend, a service
      or a library parser does on a call is a variable of the section;
    - the properties: those of the specification, general ones first and
      concrete calls last, then the further properties of the code, in the
      same order.

    Floating point numbers are kept behind the interface [PyFloat]; the laws
    the proofs need are collected in [PyFloatLaws], and [Exact] gives an
    executable instance that satisfies them, on which the concrete calls of
    [Scenarios] and [Cases] are evaluated. *)

From Stdlib Require Import ZArith QArith Qround List String Ascii Bool Lia Lqa.
From Stdlib Require Import DecimalString.
From Stdlib Require Import DecimalZ DecimalPos.
Import ListNotations.

Set Warnings "-register-all".

Open Scope string_scope.
Open Scope Z_scope.

(** ** Exceptions and the error monad *)

(** The exception classes that the modelled code can raise.  [ValueError]
    carries its message, [KeyError] the missing key. *)
Inductive exn : Type :=
| ValueError (msg : string)
| TypeError
| OverflowError
| AttributeError
| KeyError (key : string)
| ZeroDivisionError.

Inductive result (A : Type) : Type :=
| Ok (a : A)
| Raise (e : exn).

Arguments Ok {A} a.
Arguments Raise {A} e.

Definition bind {A B : Type} (m : result A) (k : A -> result B) : result B :=
  match m with
  | Ok a => k a
  | Raise e => Raise e
  end.

Notation "x <- m ;; k" := (bind m (fun x => k))
  (at level 61, m at next level, right associativity).
Notation "' pat <- m ;; k" := (bind m (fun x => match x with pat => k end))
  (at level 61, pat pattern, m at next level, right associativity).

Definition raises {A : Type} (m : result A) : Prop :=
  exists e, m = Raise e.

(** ** The float interface *)

(** What the code uses of Python's [float]: conversion from [int] and
    [str], decimal literals, arithmetic, comparison, [round(x, n)] and
    [repr].  Comparisons follow IEEE 754: every comparison with a NaN is
    false. *)
Class PyFloat (F : Type) : Type := {
  (** [float(n)] for an [int]; [None] is [OverflowError]. *)
  f_of_Z : Z -> option F;
  (** [float(s)] for a [str]; [None] is [ValueError]. *)
  f_of_string : string -> option F;
  (** the literal [m * 10^e] as written in the source. *)
  f_lit : Z -> Z -> F;
  f_add : F -> F -> F;
  f_sub : F -> F -> F;
  (** [x / y] for [y <> 0]. *)
  f_div : F -> F -> F;
  f_ltb : F -> F -> bool;
  f_leb : F -> F -> bool;
  f_eqb : F -> F -> bool;
  (** [round(x, n)]; for a float and an explicit [n] it never raises. *)
  f_round : F -> nat -> F;
  f_repr : F -> string
}.

(** ** String helpers *)

Definition char_code (c : ascii) : N := N_of_ascii c.

(** [str.lower()] on code points below 256. *)
Definition lower_char (c : ascii) : ascii :=
  let n := char_code c in
  if ((65 <=? n) && (n <=? 90))%N
     || ((192 <=? n) && (n <=? 222) && negb (n =? 215))%N
  then ascii_of_N (n + 32)
  else c.

Fixpoint lower (s : string) : string :=
  match s with
  | EmptyString => EmptyString
  | String c s' => String (lower_char c) (lower s')
  end.

(** [needle in hay] for strings. *)
Fixpoint contains (needle hay : string) : bool :=
  prefix needle hay
  || match hay with
     | EmptyString => false
     | String _ hay' => contains needle hay'
     end.

(** [needle] is a contiguous part of [hay]. *)
Definition occurs_in (needle hay : string) : Prop :=
  exists before after : string, hay = before ++ needle ++ after.

(** [s.count(c)] for a one-character pattern. *)
Fixpoint count_char (c : ascii) (s : string) : nat :=
  match s with
  | EmptyString => O
  | String d s' => (if Ascii.eqb c d then 1 else 0) + count_char c s'
  end.

(** The characters [str.split()] treats as separators (code points below
    256 for which [str.isspace()] holds). *)
Definition is_space (c : ascii) : bool :=
  let n := char_code c in
  (((9 <=? n) && (n <=? 13)) || ((28 <=? n) && (n <=? 32))
   || (n =? 133) || (n =? 160))%N.

(** [s.split()]: the maximal runs of non-space characters. *)
Fixpoint split_from (cur : string) (s : string) : list string :=
  match s with
  | EmptyString =>
      match cur with EmptyString => [] | _ => [cur] end
  | String c s' =>
      if is_space c
      then match cur with
           | EmptyString => split_from EmptyString s'
           | _ => cur :: split_from EmptyString s'
           end
      else split_from (cur ++ String c EmptyString) s'
  end.

Definition split (s : string) : list string := split_from EmptyString s.

Fixpoint join (sep : string) (l : list string) : string :=
  match l with
  | [] => EmptyString
  | [x] => x
  | x :: l' => x ++ sep ++ join sep l'
  end.

Definition string_of_Z (z : Z) : string :=
  NilZero.string_of_int (Z.to_int z).

Definition quote1 : ascii := ascii_of_nat 39.
Definition quote2 : ascii := ascii_of_nat 34.
Definition backslash : ascii := ascii_of_nat 92.

Definition hex_digit (n : N) : ascii :=
  ascii_of_N (if (n <? 10)%N then 48 + n else 87 + n).

(** One character of [repr(s)] when [q] is the enclosing quote. *)
Definition repr_char (q c : ascii) : string :=
  let n := char_code c in
  if Ascii.eqb c backslash then String backslash (String backslash EmptyString)
  else if Ascii.eqb c q then String backslash (String q EmptyString)
  else if (n =? 9)%N then String backslash "t"
  else if (n =? 10)%N then String backslash "n"
  else if (n =? 13)%N then String backslash "r"
  else if ((n <? 32) || ((127 <=? n) && (n <=? 160)) || (n =? 173))%N
  then String backslash
         (String "x" (String (hex_digit (n / 16)) (String (hex_digit (n mod 16)) EmptyString)))
  else String c EmptyString.

Fixpoint repr_chars (q : ascii) (s : string) : string :=
  match s with
  | EmptyString => EmptyString
  | String c s' => repr_char q c ++ repr_chars q s'
  end.

(** [repr(s)] for a string: single quotes unless the string holds a single
    and no double quote. *)
Definition repr_string (s : string) : string :=
  let q :=
    if (0 <? count_char quote1 s)%nat && (count_char quote2 s =? 0)%nat
    then quote2 else quote1 in
  String q (repr_chars q s ++ String q EmptyString).

(** ** Python values *)

Module Py.
Section Values.

Context {F : Type} {fops : PyFloat F}.

(** JSON-like values: what [json.loads] produces, plus tuples (the
    baseline's [range] is one).  A dictionary keeps its insertion order. *)
Inductive value : Type :=
| VNone
| VBool (b : bool)
| VInt (z : Z)
| VFloat (f : F)
| VStr (s : string)
| VList (items : list value)
| VTuple (items : list value)
| VDict (entries : list (string * value)).

Definition dict : Type := list (string * value).

Fixpoint lookup (d : dict) (k : string) : option value :=
  match d with
  | [] => None
  | (k', v) :: d' => if String.eqb k k' then Some v else lookup d' k
  end.

(** [d.get(k)] *)
Definition get (d : dict) (k : string) : value :=
  match lookup d k with Some v => v | None => VNone end.

(** [d.get(k, default)] *)
Definition get_or (d : dict) (k : string) (default : value) : value :=
  match lookup d k with Some v => v | None => default end.

(** [d[k]] *)
Definition index (d : dict) (k : string) : result value :=
  match lookup d k with Some v => Ok v | None => Raise (KeyError k) end.

(** [d[k] = v]: an existing key keeps its place, a new one goes last. *)
Fixpoint set (d : dict) (k : string) (v : value) : dict :=
  match d with
  | [] => [(k, v)]
  | (k', v') :: d' =>
      if String.eqb k k' then (k, v) :: d' else (k', v') :: set d' k v
  end.

Definition f_zero : F := f_lit 0 0.
Definition f_one : F := f_lit 1 0.

(** [bool(v)] *)
Definition truthy (v : value) : bool :=
  match v with
  | VNone => false
  | VBool b => b
  | VInt z => negb (z =? 0)
  | VFloat f => negb (f_eqb f f_zero)
  | VStr s => negb (String.eqb s EmptyString)
  | VList l | VTuple l => match l with [] => false | _ => true end
  | VDict d => match d with [] => false | _ => true end
  end.

(** [a or b] *)
Definition or_else (a b : value) : value := if truthy a then a else b.

(** [float(v)] *)
Definition to_float (v : value) : result F :=
  match v with
  | VNone => Raise TypeError
  | VBool b => Ok (if b then f_one else f_zero)
  | VInt z =>
      match f_of_Z z with Some f => Ok f | None => Raise OverflowError end
  | VFloat f => Ok f
  | VStr s =>
      match f_of_string s with
      | Some f => Ok f
      | None => Raise (ValueError "could not convert string to float")
      end
  | VList _ | VTuple _ | VDict _ => Raise TypeError
  end.

(** [repr(v)] *)
Fixpoint repr (v : value) : string :=
  match v with
  | VNone => "None"
  | VBool true => "True"
  | VBool false => "False"
  | VInt z => string_of_Z z
  | VFloat f => f_repr f
  | VStr s => repr_string s
  | VList l => "[" ++ join ", " (map repr l) ++ "]"
  | VTuple l =>
      match l with
      | [x] => "(" ++ repr x ++ ",)"
      | _ => "(" ++ join ", " (map repr l) ++ ")"
      end
  | VDict d =>
      "{" ++ join ", " (map (fun kv => repr_string (fst kv) ++ ": " ++ repr (snd kv)) d) ++ "}"
  end.

(** [str(v)].  The interpreter's limit on the number of digits of an
    [int] that it prints (Python 3.11 and later) is not modelled. *)
Definition str (v : value) : string :=
  match v with
  | VStr s => s
  | _ => repr v
  end.

(** [max(a, b)] and [min(a, b)] on floats: the first argument is kept
    unless the second is strictly greater (smaller). *)
Definition max (a b : F) : F := if f_ltb a b then b else a.
Definition min (a b : F) : F := if f_ltb b a then b else a.

(** [a > b] *)
Definition f_gtb (a b : F) : bool := f_ltb b a.

(** [math.isnan(x)]: a NaN is the one float that differs from itself. *)
Definition is_nan (x : F) : bool := negb (f_eqb x x).

(** [x / y] *)
Definition div (x y : F) : result F :=
  if f_eqb y f_zero then Raise ZeroDivisionError else Ok (f_div x y).

Definition chars (s : string) : list value :=
  map (fun c => VStr (String c EmptyString)) (list_ascii_of_string s).

(** [list(v)]: the items an iteration over [v] yields. *)
Definition to_list (v : value) : result (list value) :=
  match v with
  | VList l | VTuple l => Ok l
  | VStr s => Ok (chars s)
  | VDict d => Ok (map (fun kv => VStr (fst kv)) d)
  | VNone | VBool _ | VInt _ | VFloat _ => Raise TypeError
  end.

(** [a, b = v] *)
Definition unpack2 (v : value) : result (value * value) :=
  items <- to_list v ;;
  match items with
  | [a; b] => Ok (a, b)
  | _ => Raise (ValueError "wrong number of values to unpack")
  end.

(** [v > c] for a float [c] with [0 < c < 1], as the code compares a
    confidence with [0.6]: an [int] compares exactly, so it is greater
    exactly when it is at least one. *)
Definition gt_fraction (v : value) (c : F) : result bool :=
  match v with
  | VBool b => Ok b
  | VInt z => Ok (1 <=? z)
  | VFloat f => Ok (f_gtb f c)
  | VNone | VStr _ | VList _ | VTuple _ | VDict _ => Raise TypeError
  end.

(** [VStr s in l] for a list [l] *)
Definition mem_str (s : string) (l : list value) : bool :=
  existsb (fun v => match v with VStr t => String.eqb s t | _ => false end) l.

End Values.

Arguments value F : clear implicits.
Arguments dict F : clear implicits.

End Py.

(** ** [app/services/validation.py] *)

Module Validation.
Section Sanitizer.

Context {F : Type} {fops : PyFloat F}.

Local Abbreviation value := (Py.value F).
Local Abbreviation dict := (Py.dict F).

Definition half : F := f_lit 5 (-1).
Definition default_confidence : F := f_lit 45 (-2).

Definition no_citable_evidence : string := "no_citable_evidence".

(** [_as_float(value, default)]: [float(value)], with [TypeError] and
    [ValueError] replaced by the default.  Any other exception of
    [float()] is not caught. *)
Definition _as_float (v : value) (default : F) : result F :=
  match Py.to_float v with
  | Ok f => Ok f
  | Raise TypeError => Ok default
  | Raise (ValueError _) => Ok default
  | Raise e => Raise e
  end.

(** [_round(value)] with the default [places=6].  The argument is always a
    float here, so [float(value)] is the identity and [round] cannot
    raise. *)
Definition _round (x : F) : F := f_round x 6.

(** The body of the loop over [raw_comps]: [None] is [continue]. *)
Definition clean_citation (item : value) : option dict :=
  match item with
  | Py.VDict d =>
      match Py.get d "source_id" with
      | Py.VStr source_id =>
          if prefix "chunk:" source_id then
            let cleaned := [("source_id", Py.VStr source_id)] in
            let cleaned :=
              if Py.truthy (Py.get d "name")
              then Py.set cleaned "name" (Py.VStr (Py.str (Py.get d "name")))
              else cleaned in
            let cleaned :=
              if Py.truthy (Py.get d "ticker")
              then Py.set cleaned "ticker" (Py.VStr (Py.str (Py.get d "ticker")))
              else cleaned in
            Some cleaned
          else None
      | _ => None
      end
  | _ => None
  end.

Fixpoint clean_citations (items : list value) : list dict :=
  match items with
  | [] => []
  | item :: rest =>
      match clean_citation item with
      | Some cleaned => cleaned :: clean_citations rest
      | None => clean_citations rest
      end
  end.

(** [comps_used] after the citation filter. *)
Definition surviving_comps (payload : dict) : list dict :=
  match Py.or_else (Py.get payload "comps_used") (Py.VList []) with
  | Py.VList items => clean_citations items
  | _ => []
  end.

Fixpoint risk_entries (entries : list value) : list string :=
  match entries with
  | [] => []
  | Py.VNone :: rest => risk_entries rest
  | entry :: rest => Py.str entry :: risk_entries rest
  end.

(** [risks] before the guardrail. *)
Definition collect_risks (payload : dict) : list string :=
  let raw_risks := Py.or_else (Py.get payload "risk_flags") (Py.VList []) in
  match raw_risks with
  | Py.VList entries => risk_entries entries
  | _ => if Py.truthy raw_risks then [Py.str raw_risks] else []
  end.

(** [list(dict.fromkeys(l))]: every string once, at its first place. *)
Fixpoint fromkeys_from (seen : list string) (l : list string) : list string :=
  match l with
  | [] => []
  | x :: l' =>
      if existsb (String.eqb x) seen
      then fromkeys_from seen l'
      else x :: fromkeys_from (x :: seen) l'
  end.

Definition fromkeys (l : list string) : list string := fromkeys_from [] l.

Definition mem (x : string) (l : list string) : bool := existsb (String.eqb x) l.

(** [lo] and [hi] as parsed from the payload. *)
Definition parse_range (raw_range : value) (implied : F) : result (F * F) :=
  match raw_range with
  | Py.VList [a; b] | Py.VTuple [a; b] =>
      lo <- _as_float a (f_sub implied half) ;;
      hi <- _as_float b (f_add implied half) ;;
      Ok (lo, hi)
  | _ => Ok (f_sub implied half, f_add implied half)
  end.

(** The guard of the one deliberate [raise]. *)
Definition hard_failure (retrieval_required : bool) (retrieval_hits : Z)
    (comps_used : list dict) : bool :=
  retrieval_required && (0 <? retrieval_hits)
  && match comps_used with [] => true | _ => false end.

Definition clamp_confidence (confidence : F) : F :=
  Py.max Py.f_zero (Py.min Py.f_one confidence).

(** The local variables that the last part of the function works on. *)
Record locals : Type := {
  l_implied : F;
  l_lo : F;
  l_hi : F;
  l_confidence : F;
  l_risks : list string
}.

(** The block under [if not comps_used]. *)
Definition guardrail (baseline_multiple : F) (st : locals) : locals :=
  {| l_implied := baseline_multiple;
     l_lo := Py.max Py.f_zero (f_sub baseline_multiple half);
     l_hi := f_add baseline_multiple half;
     l_confidence := Py.min (l_confidence st) half;
     l_risks := if mem no_citable_evidence (l_risks st)
                then l_risks st
                else (l_risks st ++ [no_citable_evidence])%list |}.

(** [if lo > hi: lo, hi = hi, lo] *)
Definition order_range (lo hi : F) : F * F :=
  if Py.f_gtb lo hi then (hi, lo) else (lo, hi).

(** [result["conclusion"]] and [result["reasoning"]] *)
Definition conclusion_of (payload : dict) : string :=
  match Py.get payload "conclusion" with
  | Py.VNone => "undetermined"
  | conclusion => Py.str conclusion
  end.

Definition reasoning_of (payload : dict) : string :=
  match Py.get payload "reasoning" with
  | Py.VStr reasoning => reasoning
  | _ => EmptyString
  end.

(** [if not comps_used: ...] *)
Definition apply_guardrail (comps_used : list dict) (baseline_multiple : F)
    (st : locals) : locals :=
  match comps_used with
  | [] => guardrail baseline_multiple st
  | _ => st
  end.

(** The last lines: the range is ordered, numbers are rounded, the risk
    flags lose their repetitions, and [result] is filled in this order. *)
Definition emit (r_conclusion r_reasoning : string) (comps_used : list dict)
    (st : locals) : dict :=
  let (lo, hi) := order_range (l_lo st) (l_hi st) in
  [ ("conclusion", Py.VStr r_conclusion);
    ("reasoning", Py.VStr r_reasoning);
    ("range", Py.VList [Py.VFloat (_round lo); Py.VFloat (_round hi)]);
    ("implied_multiple", Py.VFloat (_round (l_implied st)));
    ("comps_used", Py.VList (map Py.VDict comps_used));
    ("risk_flags", Py.VList (map Py.VStr (fromkeys (l_risks st))));
    ("confidence", Py.VFloat (l_confidence st)) ].

Definition sanitize_analysis_payload (payload : dict) (baseline_multiple : F)
    (retrieval_required : bool) (retrieval_hits : Z) : result dict :=
  let r_conclusion := conclusion_of payload in
  implied <- _as_float (Py.get payload "implied_multiple") baseline_multiple ;;
  ' (lo, hi) <- parse_range (Py.get payload "range") implied ;;
  let r_reasoning := reasoning_of payload in
  let comps_used := surviving_comps payload in
  if hard_failure retrieval_required retrieval_hits comps_used
  then Raise (ValueError "retrieval_hits_without_citations")
  else
    let risks := collect_risks payload in
    confidence <- _as_float (Py.get payload "confidence") default_confidence ;;
    let confidence := clamp_confidence confidence in
    let st :=
      apply_guardrail comps_used baseline_multiple
        {| l_implied := implied; l_lo := lo; l_hi := hi;
           l_confidence := confidence; l_risks := risks |} in
    Ok (emit r_conclusion r_reasoning comps_used st).

(** An [int] too large for a float is the one value on which [float()]
    raises an exception that [_as_float] lets through. *)
Definition fits (v : value) : bool :=
  match v with
  | Py.VInt z => match f_of_Z z with Some _ => true | None => false end
  | _ => true
  end.

(** No value that the sanitizer converts with [_as_float] is such an
    [int]. *)
Definition numbers_fit (payload : dict) : bool :=
  fits (Py.get payload "implied_multiple")
  && match Py.get payload "range" with
     | Py.VList [a; b] | Py.VTuple [a; b] => fits a && fits b
     | _ => true
     end
  && fits (Py.get payload "confidence").

(** The shape of an [AnalysisPayload]: the seven keys with a string
    conclusion and reasoning, float [implied_multiple] and [confidence], a
    two-element float [range], a list of citations whose [source_id] is a
    string starting with [chunk:], and a list of strings as risk flags. *)
Definition is_str (v : value) : bool :=
  match v with Py.VStr _ => true | _ => false end.

Definition is_citation (v : value) : bool :=
  match v with
  | Py.VDict d =>
      match Py.lookup d "source_id" with
      | Some (Py.VStr s) => prefix "chunk:" s
      | _ => false
      end
  | _ => false
  end.

Definition structurally_valid (r : dict) : bool :=
  match Py.lookup r "conclusion", Py.lookup r "implied_multiple",
        Py.lookup r "range", Py.lookup r "reasoning",
        Py.lookup r "comps_used", Py.lookup r "risk_flags",
        Py.lookup r "confidence" with
  | Some (Py.VStr _), Some (Py.VFloat _),
    Some (Py.VList [Py.VFloat _; Py.VFloat _]), Some (Py.VStr _),
    Some (Py.VList comps), Some (Py.VList flags), Some (Py.VFloat _) =>
      forallb is_citation comps && forallb is_str flags
  | _, _, _, _, _, _, _ => false
  end.

End Sanitizer.
End Validation.

(** ** [app/schemas.py] *)

Module Schemas.
Section Models.

Context {F : Type} {fops : PyFloat F}.

Local Abbreviation value := (Py.value F).
Local Abbreviation dict := (Py.dict F).

(** [CompCitation]: [name] and [ticker] are [None] unless assigned. *)
Record CompCitation : Type := {
  source_id : string;
  name : value;
  ticker : value
}.

(** [citation.model_dump()] *)
Definition model_dump (c : CompCitation) : value :=
  Py.VDict [ ("source_id", Py.VStr (source_id c));
             ("name", name c);
             ("ticker", ticker c) ].

Record AnalysisV1 : Type := {
  conclusion : string;
  implied_multiple : F;
  range : F * F;
  reasoning : string;
  comps_used : list CompCitation;
  risk_flags : list string;
  confidence : option F
}.

End Models.

Arguments CompCitation F : clear implicits.
Arguments AnalysisV1 F : clear implicits.

End Schemas.

(** ** [app/services/enforce.py] *)

Module Enforce.
Section Rule.

Context {F : Type} {fops : PyFloat F}.

Definition enforce_evidence_rule (analysis : Schemas.AnalysisV1 F)
    (retrieval_hits : Z) : result (Schemas.AnalysisV1 F) :=
  if (0 <? retrieval_hits)
     && (List.length (Schemas.comps_used analysis) =? 0)%nat
  then Raise (ValueError "evidence_required: retrieval_hits>0 but comps_used is empty")
  else Ok analysis.

End Rule.
End Enforce.

(** ** [app/services/analyzer.py] *)

Module Analyzer.
Section Core.

Context {F : Type} {fops : PyFloat F}.

Local Abbreviation value := (Py.value F).
Local Abbreviation dict := (Py.dict F).

Definition _RETRIEVAL_HARD_TERMS : list string :=
  [ "comp"; "compare"; "fx"; "eur"; "portfolio"; "multi-year"; "multi year";
    "2025"; "2026"; "2027"; "scenario"; "sensitivity" ].

Definition _should_require_retrieval (question : option string) : bool :=
  match question with
  | None => false
  | Some EmptyString => false
  | Some q =>
      let text := lower q in
      existsb (fun term => contains term text) _RETRIEVAL_HARD_TERMS
  end.

(** [comp.get("source") or comp.get("meta", {}).get("section")]: the
    second operand is evaluated only when the first is falsy, and [.get]
    on a [meta] that is no dictionary is an [AttributeError]. *)
Definition source_name_of (comp : dict) : result value :=
  if Py.truthy (Py.get comp "source") then Ok (Py.get comp "source")
  else
    match Py.get_or comp "meta" (Py.VDict []) with
    | Py.VDict meta => Ok (Py.get meta "section")
    | _ => Raise AttributeError
    end.

(** The loop of [_fallback_citations], with [citations] the list built so
    far. *)
Fixpoint fallback_loop (comps : list dict) (limit : nat)
    (citations : list (Schemas.CompCitation F))
    : result (list (Schemas.CompCitation F)) :=
  match comps with
  | [] => Ok citations
  | comp :: rest =>
      let chunk_id := Py.or_else (Py.get comp "chunk_id") (Py.get comp "id") in
      if negb (Py.truthy chunk_id) then fallback_loop rest limit citations
      else
        let citation :=
          {| Schemas.source_id := "chunk:" ++ Py.str chunk_id;
             Schemas.name := Py.VNone;
             Schemas.ticker := Py.VNone |} in
        source_name <- source_name_of comp ;;
        let citation :=
          if Py.truthy source_name
          then {| Schemas.source_id := Schemas.source_id citation;
                  Schemas.name := source_name;
                  Schemas.ticker := Schemas.ticker citation |}
          else citation in
        let citations := (citations ++ [citation])%list in
        if (limit <=? List.length citations)%nat then Ok citations
        else fallback_loop rest limit citations
  end.

Definition _fallback_citations (comps : list dict) (limit : nat)
    : result (list (Schemas.CompCitation F)) :=
  fallback_loop comps limit [].


Definition fallback_citations_injected : string := "fallback_citations_injected".

(** The mutation of [raw_output] in the [except ValueError] branch. *)
Definition inject_fallback (raw_output : dict)
    (fallback : list (Schemas.CompCitation F)) : result dict :=
  let raw_output :=
    Py.set raw_output "comps_used" (Py.VList (map Schemas.model_dump fallback)) in
  risk_flags <-
    Py.to_list (Py.or_else (Py.get raw_output "risk_flags") (Py.VList [])) ;;
  let risk_flags :=
    if Py.mem_str fallback_citations_injected risk_flags then risk_flags
    else (risk_flags ++ [Py.VStr fallback_citations_injected])%list in
  let raw_output := Py.set raw_output "risk_flags" (Py.VList risk_flags) in
  cap <-
    match Py.get raw_output "confidence" with
    | Py.VNone => Ok true
    | _ =>
        Py.gt_fraction
          (Py.get_or raw_output "confidence" (Py.VFloat Py.f_zero))
          (f_lit 6 (-1))
    end ;;
  Ok (if cap
      then Py.set raw_output "confidence" (Py.VFloat (f_lit 55 (-2)))
      else raw_output).

(** [retrieval_required] as [analyze_core] passes it to the sanitizer. *)
Definition retrieval_required_flag (question : option string)
    (comps : list dict) : bool :=
  let retrieval_required := _should_require_retrieval question in
  let retrieval_hits := Z.of_nat (List.length comps) in
  retrieval_required || negb (retrieval_hits =? 0).

(** [analyze_core] from the point where retrieval ([comps]) and the
    consultant ([raw_output]) have answered, up to the sanitized payload.
    [price] and [ebitda] are the floats of [deal_payload]. *)
Definition analyze_core (price ebitda : F) (question : option string)
    (comps : list dict) (raw_output : dict) : result dict :=
  let retrieval_hits := Z.of_nat (List.length comps) in
  let retrieval_required := retrieval_required_flag question comps in
  baseline_multiple <-
    (if Py.f_gtb ebitda Py.f_zero then Py.div price ebitda else Ok Py.f_zero) ;;
  match Validation.sanitize_analysis_payload raw_output baseline_multiple
          retrieval_required retrieval_hits with
  | Raise (ValueError msg) =>
      fallback <- _fallback_citations comps 3 ;;
      match fallback with
      | [] => Raise (ValueError msg)
      | _ =>
          raw_output <- inject_fallback raw_output fallback ;;
          Validation.sanitize_analysis_payload raw_output baseline_multiple
            retrieval_required retrieval_hits
      end
  | sanitized => sanitized
  end.

End Core.
End Analyzer.

(** ** [app/services/consultant.py] *)

Module Consultant.
Section Pipeline.

Context {F : Type} {fops : PyFloat F}.

Local Abbreviation value := (Py.value F).
Local Abbreviation dict := (Py.dict F).

(** [[c.get("name") for c in comps if c.get("name")]] *)
Fixpoint comp_names (comps : list dict) : list value :=
  match comps with
  | [] => []
  | c :: rest =>
      if Py.truthy (Py.get c "name")
      then Py.get c "name" :: comp_names rest
      else comp_names rest
  end.

Definition epsilon : F := f_lit 1 (-9).

(** [p / (e if e > 1e-9 else 1e-9)] *)
Definition floored (e : F) : F := if Py.f_gtb e epsilon then e else epsilon.

Definition verdict_of (multiple : F) : string :=
  if f_leb (f_lit 8 0) multiple && f_leb multiple (f_lit 12 0) then "fair"
  else if Py.f_gtb multiple (f_lit 12 0) then "rich"
  else "cheap".

Definition _heuristic_baseline (deal : dict) (comps : list dict) : result dict :=
  e <- Py.to_float (Py.or_else (Py.get deal "ebitda") (Py.VFloat Py.f_zero)) ;;
  p <- Py.to_float (Py.or_else (Py.get deal "price") (Py.VFloat Py.f_zero)) ;;
  multiple <- Py.div p (floored e) ;;
  let verdict := verdict_of multiple in
  Ok [ ("conclusion", Py.VStr verdict);
       ("implied_multiple", Py.VFloat (f_round multiple 2));
       ("range",
        Py.VTuple
          [ Py.VFloat (Py.max (f_round (f_sub multiple Py.f_one) 2) Py.f_zero);
            Py.VFloat (f_round (f_add multiple Py.f_one) 2) ]);
       ("reasoning", Py.VStr "Baseline multiple heuristic derived from price/EBITDA.");
       ("comps_used", Py.VList (comp_names comps));
       ("risk_flags", Py.VList []);
       ("confidence", Py.VFloat (f_lit 5 (-1))) ].

Definition hard_terms : list string :=
  [ "compare"; "versus"; "vs"; "portfolio"; "multi"; "scenario";
    "sensitivity"; "synergy"; "dilution"; "dcf"; "discounted cash";
    "merger"; "leveraged"; "fx"; "currency"; "hedge"; "tax"; "rag";
    "retrieval" ].

Definition question_mark : ascii := ascii_of_nat 63.

Definition _classify_request (question : option string) (deal : dict)
    (comps : list dict) : string :=
  let text := lower (match question with Some q => q | None => EmptyString end) in
  if existsb (fun term => contains term text) hard_terms then "hard"
  else if negb (Py.truthy (Py.get deal "price"))
          || negb (Py.truthy (Py.get deal "ebitda"))
          || negb (Py.truthy (Py.get deal "industry"))
  then "hard"
  else if (1 <? count_char question_mark text)%nat
          || (40 <? List.length (split text))%nat
  then "hard"
  else "easy".

(** [parsed.get(key, default)] where [parsed] is whatever [json.loads]
    returned: the attribute is looked up before the default is evaluated,
    and only a dictionary has it. *)
Definition parsed_get (parsed : value) (key : string)
    (default : result value) : result value :=
  match parsed with
  | Py.VDict d => dflt <- default ;; Ok (Py.get_or d key dflt)
  | _ => Raise AttributeError
  end.

(** [try: body except (TypeError, ValueError, IndexError): handler] *)
Definition try_conversion {A : Type} (body handler : result A) : result A :=
  match body with
  | Raise TypeError => handler
  | Raise (ValueError _) => handler
  | other => other
  end.

(** [_coerce_response(raw, baseline, comps)], with [parsed] the outcome of
    [json.loads(raw)]: [None] stands for [JSONDecodeError]. *)
Definition _coerce_response (parsed : option value) (baseline : dict)
    (comps : list dict) : result dict :=
  match parsed with
  | None => Ok baseline
  | Some parsed =>
      implied <-
        try_conversion
          (v <- parsed_get parsed "implied_multiple"
                  (Py.index baseline "implied_multiple") ;;
           f <- Py.to_float v ;;
           Ok (Py.VFloat f))
          (Py.index baseline "implied_multiple") ;;
      range_raw <- parsed_get parsed "range" (Py.index baseline "range") ;;
      computed_range <-
        try_conversion
          (' (lo, hi) <- Py.unpack2 range_raw ;;
           lo_f <- Py.to_float lo ;;
           hi_f <- Py.to_float hi ;;
           Ok (Py.VTuple [Py.VFloat lo_f; Py.VFloat hi_f]))
          (Py.index baseline "range") ;;
      confidence <-
        try_conversion
          (v <- parsed_get parsed "confidence" (Py.index baseline "confidence") ;;
           f <- Py.to_float v ;;
           Ok (Py.VFloat f))
          (Py.index baseline "confidence") ;;
      r_conclusion <- parsed_get parsed "conclusion" (Py.index baseline "conclusion") ;;
      r_reasoning <- parsed_get parsed "reasoning" (Py.index baseline "reasoning") ;;
      r_comps <- parsed_get parsed "comps_used" (Ok (Py.VList (comp_names comps))) ;;
      r_risks <- parsed_get parsed "risk_flags" (Py.index baseline "risk_flags") ;;
      Ok [ ("conclusion", r_conclusion);
           ("implied_multiple", implied);
           ("range", computed_range);
           ("reasoning", r_reasoning);
           ("comps_used", r_comps);
           ("risk_flags", r_risks);
           ("confidence", confidence) ]
  end.

End Pipeline.
End Consultant.

(** ** The laws of floats that the proofs rely on *)

(** Each law holds of IEEE 754 binary64 with Python's [round] and [repr]:
    [<] is a strict order on the numbers that are not NaN, [round(x, n)] is
    monotone and idempotent, and [repr] never yields the empty string. *)
Class PyFloatLaws (F : Type) {fops : PyFloat F} : Prop := {
  ltb_irrefl : forall x : F, f_ltb x x = false;
  ltb_asym : forall x y : F, f_ltb x y = true -> f_ltb y x = false;
  ltb_trans : forall x y z : F,
    f_ltb x y = true -> f_ltb y z = true -> f_ltb x z = true;
  ltb_leb : forall x y : F, f_ltb x y = true -> f_leb x y = true;
  ltb_neq : forall x y : F, f_ltb x y = true -> f_eqb y x = false;
  ltb_number : forall x y : F,
    f_ltb x y = true -> f_eqb x x = true /\ f_eqb y y = true;
  leb_total : forall x y : F,
    f_eqb x x = true -> f_eqb y y = true -> f_ltb y x = false -> f_leb x y = true;
  leb_not_gt : forall x y : F, f_leb x y = true -> f_ltb y x = false;
  zero_lt_epsilon : f_ltb (f_lit 0 0) (f_lit 1 (-9)) = true;
  zero_lt_half : f_ltb (f_lit 0 0) (f_lit 5 (-1)) = true;
  half_lt_one : f_ltb (f_lit 5 (-1)) (f_lit 1 0) = true;
  round_mono : forall (x y : F) (n : nat),
    f_ltb y x = false -> f_ltb (f_round y n) (f_round x n) = false;
  round_idem : forall (x : F) (n : nat), f_round (f_round x n) n = f_round x n;
  repr_nonempty : forall x : F, f_repr x <> EmptyString
}.

(** ** An executable instance of the float interface *)

(** Finite floats are exact rationals in lowest terms, next to NaN and the
    two infinities.  Arithmetic is exact (no rounding error, no overflow to
    infinity, no signed zero); the special values behave as in IEEE 754. *)
Module Exact.

Inductive xfloat : Type :=
| NaN
| NegInf
| PosInf
| Fin (q : Q).

Definition of_Q (q : Q) : xfloat := Fin (Qred q).

Definition pow10 (e : Z) : Q :=
  if 0 <=? e then inject_Z (10 ^ e) else Qinv (inject_Z (10 ^ (- e))).

Definition lit (m e : Z) : xfloat := of_Q (Qmult (inject_Z m) (pow10 e)).

(** [float(n)] raises [OverflowError] exactly when [n], rounded to nearest,
    exceeds the largest double: from [2^1024 - 2^970] on. *)
Definition of_Z (z : Z) : option xfloat :=
  if Z.abs z <? 2 ^ 1024 - 2 ^ 970 then Some (of_Q (inject_Z z)) else None.

Definition neg (x : xfloat) : xfloat :=
  match x with
  | NaN => NaN
  | NegInf => PosInf
  | PosInf => NegInf
  | Fin q => of_Q (Qopp q)
  end.

Definition add (x y : xfloat) : xfloat :=
  match x, y with
  | NaN, _ | _, NaN => NaN
  | PosInf, NegInf | NegInf, PosInf => NaN
  | PosInf, _ | _, PosInf => PosInf
  | NegInf, _ | _, NegInf => NegInf
  | Fin a, Fin b => of_Q (Qplus a b)
  end.

Definition sub (x y : xfloat) : xfloat := add x (neg y).

Definition negative (q : Q) : bool := Qnum q <? 0.

Definition div (x y : xfloat) : xfloat :=
  match x, y with
  | NaN, _ | _, NaN => NaN
  | Fin a, Fin b => if Qnum b =? 0 then NaN else of_Q (Qdiv a b)
  | Fin _, _ => of_Q 0
  | PosInf, Fin b => if negative b then NegInf else PosInf
  | NegInf, Fin b => if negative b then PosInf else NegInf
  | _, _ => NaN
  end.

(** The order, [None] when an operand is NaN. *)
Definition cmp (x y : xfloat) : option comparison :=
  match x, y with
  | NaN, _ | _, NaN => None
  | NegInf, NegInf | PosInf, PosInf => Some Eq
  | NegInf, _ | _, PosInf => Some Lt
  | PosInf, _ | _, NegInf => Some Gt
  | Fin a, Fin b => Some (Qcompare a b)
  end.

Definition ltb (x y : xfloat) : bool :=
  match cmp x y with Some Lt => true | _ => false end.

Definition leb (x y : xfloat) : bool :=
  match cmp x y with Some Lt | Some Eq => true | _ => false end.

Definition eqb (x y : xfloat) : bool :=
  match cmp x y with Some Eq => true | _ => false end.

(** Round half to even, to an integer. *)
Definition round_half_even (t : Q) : Z :=
  let f := Qfloor t in
  match Qcompare (Qminus t (inject_Z f)) (1 # 2) with
  | Lt => f
  | Gt => f + 1
  | Eq => if Z.even f then f else f + 1
  end.

Definition scale (n : nat) : Q := inject_Z (10 ^ Z.of_nat n).

Definition round (x : xfloat) (n : nat) : xfloat :=
  match x with
  | Fin q => of_Q (Qdiv (inject_Z (round_half_even (Qmult q (scale n)))) (scale n))
  | _ => x
  end.

Definition digit_char (d : Z) : ascii := ascii_of_N (48 + Z.to_N d).

Fixpoint frac_digits (fuel : nat) (r den : Z) : string :=
  match fuel with
  | O => EmptyString
  | S fuel' =>
      if r =? 0 then EmptyString
      else String (digit_char (r * 10 / den)) (frac_digits fuel' (r * 10 mod den) den)
  end.

(** [repr] in positional notation, with at most 17 fractional digits. *)
Definition repr (x : xfloat) : string :=
  match x with
  | NaN => "nan"
  | PosInf => "inf"
  | NegInf => "-inf"
  | Fin q =>
      let a := Z.abs (Qnum q) in
      let d := Zpos (Qden q) in
      let fr := frac_digits 17 (a mod d) d in
      (if negative q then "-" else EmptyString)
      ++ string_of_Z (a / d) ++ "."
      ++ match fr with EmptyString => "0" | _ => fr end
  end.

(** *** Parsing [float(s)] *)

Definition is_digit (c : ascii) : bool :=
  let n := char_code c in ((48 <=? n) && (n <=? 57))%N.

Definition digit_value (c : ascii) : Z := Z.of_N (char_code c) - 48.

(** The digits at the head of [s]: their value after [acc], how many there
    are, and the rest. *)
Fixpoint take_digits (s : list ascii) (acc : Z) (count : nat)
    : Z * nat * list ascii :=
  match s with
  | c :: s' =>
      if is_digit c then take_digits s' (acc * 10 + digit_value c) (S count)
      else (acc, count, s)
  | [] => (acc, count, [])
  end.

Fixpoint drop_spaces (s : list ascii) : list ascii :=
  match s with
  | c :: s' => if is_space c then drop_spaces s' else s
  | [] => []
  end.

Definition strip (s : list ascii) : list ascii :=
  rev (drop_spaces (rev (drop_spaces s))).

Definition take_sign (s : list ascii) : bool * list ascii :=
  match s with
  | "-"%char :: s' => (true, s')
  | "+"%char :: s' => (false, s')
  | _ => (false, s)
  end.

(** The exponent part: empty, or [e], an optional sign and digits to the
    end of the text. *)
Definition parse_exponent (s : list ascii) : option Z :=
  match s with
  | [] => Some 0
  | "e"%char :: s' =>
      let (negexp, s1) := take_sign s' in
      match take_digits s1 0 0 with
      | (_, O, _) => None
      | (e, _, []) => Some (if negexp then - e else e)
      | _ => None
      end
  | _ => None
  end.

(** Digits, an optional point with digits, an optional exponent; at least
    one digit before the exponent. *)
Definition parse_number (s : list ascii) : option Q :=
  match take_digits s 0 0 with
  | (m, n1, rest) =>
      let '(m, n2, rest) :=
        match rest with
        | "."%char :: rest' => take_digits rest' m 0
        | _ => (m, O, rest)
        end in
      match (n1 + n2)%nat with
      | O => None
      | _ =>
          match parse_exponent rest with
          | Some e => Some (Qmult (inject_Z m) (pow10 (e - Z.of_nat n2)))
          | None => None
          end
      end
  end.

(** [float(s)] on ASCII text: surrounding blanks, a sign, then [inf],
    [infinity], [nan] or a decimal number, in any case.  Underscores between
    digits are not modelled. *)
Definition of_string (s : string) : option xfloat :=
  let (negative, body) := take_sign (strip (list_ascii_of_string (lower s))) in
  let word := string_of_list_ascii body in
  if String.eqb word "nan" then Some NaN
  else if String.eqb word "inf" || String.eqb word "infinity"
  then Some (if negative then NegInf else PosInf)
  else
    match parse_number body with
    | Some q => Some (of_Q (if negative then Qopp q else q))
    | None => None
    end.

#[export] Instance ops : PyFloat xfloat := {
  f_of_Z := of_Z;
  f_of_string := of_string;
  f_lit := lit;
  f_add := add;
  f_sub := sub;
  f_div := div;
  f_ltb := ltb;
  f_leb := leb;
  f_eqb := eqb;
  f_round := round;
  f_repr := repr
}.

End Exact.

(** ** Concrete inputs *)

Module Scenarios.
Import Py Exact.

Definition num (m e : Z) : value xfloat := VFloat (lit m e).

(** Scenario A of the specification (the first test of
    [tests/test_consultant.py]). *)
Definition scenario_A : dict xfloat :=
  [ ("conclusion", VStr "cheap");
    ("implied_multiple", num 73 (-1));
    ("range", VList [num 6 0; num 8 0]);
    ("reasoning", VStr "Sample reasoning");
    ("comps_used", VList [VStr "bad-format"; VDict [("source_id", VStr "not-a-chunk")]]);
    ("risk_flags", VList []);
    ("confidence", num 9 (-1)) ].

(** Scenario C: two valid citations. *)
Definition scenario_C : dict xfloat :=
  [ ("conclusion", VStr "fair");
    ("implied_multiple", num 64 (-1));
    ("range", VList [num 58 (-1); num 69 (-1)]);
    ("reasoning", VStr "Backed by comps");
    ("comps_used",
     VList [ VDict [("source_id", VStr "chunk:abc"); ("name", VStr "Comp A")];
             VDict [("source_id", VStr "chunk:def"); ("ticker", VStr "CMPB")] ]);
    ("risk_flags", VList [VStr "fx-risk"]);
    ("confidence", num 7 (-1)) ].

(** An [int] that [float()] cannot convert. *)
Definition oversized : dict xfloat := [ ("implied_multiple", VInt (2 ^ 1024)) ].

(** A range whose first bound reads as NaN, next to a valid citation. *)
Definition nan_range : dict xfloat :=
  [ ("range", VList [VStr "nan"; num 1 0]);
    ("comps_used", VList [VDict [("source_id", VStr "chunk:a")]]) ].

(** A valid citation next to the guardrail's own flag. *)
Definition flagged_with_citation : dict xfloat :=
  [ ("comps_used", VList [VDict [("source_id", VStr "chunk:a")]]);
    ("risk_flags", VList [VStr "no_citable_evidence"]) ].

(** One retrieved chunk, and a consultant answer that cites a name only. *)
Definition one_chunk : list (dict xfloat) :=
  [ [("chunk_id", VInt 7); ("source", VStr "10-K")] ].

Definition uncited_answer : dict xfloat :=
  [ ("conclusion", VStr "fair");
    ("comps_used", VList [VStr "Acme"]);
    ("confidence", num 58 (-2)) ].

Definition complete_deal : dict xfloat :=
  [ ("price", num 100 0); ("ebitda", num 10 0); ("industry", VStr "tech") ].

Definition small_deal : dict xfloat :=
  [ ("price", num 1 0); ("ebitda", num 2 0); ("industry", VStr "tech") ].

Definition seed : dict xfloat :=
  [ ("conclusion", VStr "fair");
    ("implied_multiple", num 10 0);
    ("range", VTuple [num 9 0; num 11 0]);
    ("reasoning", VStr "Baseline multiple heuristic derived from price/EBITDA.");
    ("comps_used", VList [VStr "SeedCo"]);
    ("risk_flags", VList []);
    ("confidence", num 5 (-1)) ].

Definition malformed_flags : dict xfloat := [ ("risk_flags", VInt 5) ].

(** A parsed answer with a confidence that is no number, a range given as
    integers and nothing else. *)
Definition partial_answer : dict xfloat :=
  [ ("confidence", VStr "high"); ("range", VList [VInt 4; VInt 6]) ].

(** What the sanitizer returns on scenarios A and C. *)
Definition sanitized_A : dict xfloat :=
  [ ("conclusion", VStr "cheap");
    ("reasoning", VStr "Sample reasoning");
    ("range", VList [num 55 (-1); num 65 (-1)]);
    ("implied_multiple", num 6 0);
    ("comps_used", VList []);
    ("risk_flags", VList [VStr "no_citable_evidence"]);
    ("confidence", num 5 (-1)) ].

Definition sanitized_C : dict xfloat :=
  [ ("conclusion", VStr "fair");
    ("reasoning", VStr "Backed by comps");
    ("range", VList [num 58 (-1); num 69 (-1)]);
    ("implied_multiple", num 64 (-1));
    ("comps_used",
     VList [ VDict [("source_id", VStr "chunk:abc"); ("name", VStr "Comp A")];
             VDict [("source_id", VStr "chunk:def"); ("ticker", VStr "CMPB")] ]);
    ("risk_flags", VList [VStr "fx-risk"]);
    ("confidence", num 7 (-1)) ].

(** A validated analysis without citations. *)
Definition uncited_analysis : Schemas.AnalysisV1 xfloat :=
  {| Schemas.conclusion := "fair";
     Schemas.implied_multiple := lit 6 0;
     Schemas.range := (lit 55 (-1), lit 65 (-1));
     Schemas.reasoning := EmptyString;
     Schemas.comps_used := [];
     Schemas.risk_flags := [];
     Schemas.confidence := Some (lit 5 (-1)) |}.

End Scenarios.

(** ** More of the string methods *)

Module Text.

(** [s.lstrip()], [s.rstrip()] and [s.strip()] without an argument: the
    characters of [is_space] are removed from the ends. *)
Fixpoint lstrip (s : string) : string :=
  match s with
  | EmptyString => EmptyString
  | String c s' => if is_space c then lstrip s' else s
  end.

Fixpoint rstrip (s : string) : string :=
  match s with
  | EmptyString => EmptyString
  | String c s' =>
      match rstrip s' with
      | EmptyString => if is_space c then EmptyString else String c EmptyString
      | kept => String c kept
      end
  end.

Definition strip (s : string) : string := rstrip (lstrip s).

(** Every character of [s] is white space ([s] may be empty). *)
Fixpoint blank (s : string) : bool :=
  match s with
  | EmptyString => true
  | String c s' => is_space c && blank s'
  end.

Definition colon : ascii := ascii_of_nat 58.

(** [s or ""] for an optional string *)
Definition or_empty (s : option string) : string :=
  match s with
  | Some s => s
  | None => EmptyString
  end.

End Text.

Import Text.

(** ** [app/services/cache.py] *)

Module Cache.
Section TTL.

Context {F : Type} {fops : PyFloat F} {V : Type}.

(** The [OrderedDict] of the cache: the entry used least recently comes
    first.  An entry is the pair [(expires_at, value)]. *)
Definition store : Type := list (string * (F * V)).

Record TTLCache : Type := {
  maxsize : Z;
  ttl : F;
  _store : store
}.

Definition __init__ (maxsize : Z) (ttl : F) : TTLCache :=
  {| maxsize := maxsize; ttl := ttl; _store := [] |}.

Definition with_store (c : TTLCache) (s : store) : TTLCache :=
  {| maxsize := maxsize c; ttl := ttl c; _store := s |}.

(** [store.get(key)] *)
Fixpoint find (s : store) (key : string) : option (F * V) :=
  match s with
  | [] => None
  | (k, item) :: s' => if String.eqb key k then Some item else find s' key
  end.

(** [store.pop(key, None)] *)
Fixpoint pop (s : store) (key : string) : store :=
  match s with
  | [] => []
  | (k, item) :: s' =>
      if String.eqb key k then s' else (k, item) :: pop s' key
  end.

(** [store[key] = item]: an existing key keeps its place. *)
Fixpoint assign (s : store) (key : string) (item : F * V) : store :=
  match s with
  | [] => [(key, item)]
  | (k, old) :: s' =>
      if String.eqb key k then (k, item) :: s' else (k, old) :: assign s' key item
  end.

(** [store.move_to_end(key)] *)
Definition move_to_end (s : store) (key : string) : result store :=
  match find s key with
  | Some item => Ok (pop s key ++ [(key, item)])%list
  | None => Raise (KeyError key)
  end.

(** [while len(store) > maxsize: store.popitem(last=False)]; [popitem] on
    an empty dictionary is a [KeyError]. *)
Fixpoint evict (s : store) (maxsize : Z) : result store :=
  match s with
  | [] =>
      if 0 >? maxsize then Raise (KeyError "dictionary is empty") else Ok []
  | _ :: s' =>
      if Z.of_nat (List.length s) >? maxsize then evict s' maxsize else Ok s
  end.

(** [cache.get(key)] when [time.monotonic()] returns [now]: the value
    returned and the cache afterwards.  Values are immutable here, so
    [copy.deepcopy] is the identity. *)
Definition get (c : TTLCache) (now : F) (key : string)
    : result (option V * TTLCache) :=
  match find (_store c) key with
  | None => Ok (None, c)
  | Some (expires_at, value) =>
      if f_ltb expires_at now
      then Ok (None, with_store c (pop (_store c) key))
      else
        s <- move_to_end (_store c) key ;;
        Ok (Some value, with_store c s)
  end.

(** [cache.set(key, value)] when [time.monotonic()] returns [now]. *)
Definition set (c : TTLCache) (now : F) (key : string) (value : V)
    : result TTLCache :=
  let expires_at := f_add now (ttl c) in
  let s := assign (_store c) key (expires_at, value) in
  s <- move_to_end s key ;;
  s <- evict s (maxsize c) ;;
  Ok (with_store c s).

Definition keys (c : TTLCache) : list string := map fst (_store c).

(** The store after the first two statements of [set]. *)
Definition refreshed (s : store) (key : string) (item : F * V) : store :=
  (pop (assign s key item) key ++ [(key, item)])%list.

End TTL.

Arguments TTLCache F V : clear implicits.
Arguments store F V : clear implicits.

Definition make_analysis_cache_key (deal_id : Z) (question : option string)
    : string :=
  let normalized := lower (strip (or_empty question)) in
  string_of_Z deal_id ++ ":" ++ normalized.

End Cache.
(** ** [app/services/analyzer.py]: the deal payload *)

Module AnalyzerDeal.
Section Deal.

Context {F : Type} {fops : PyFloat F}.

Local Abbreviation value := (Py.value F).
Local Abbreviation dict := (Py.dict F).

(** What [analyze_core] is given as [deal]: a dictionary, or an object
    (the ORM row), of which [attrs] are the attributes;
    [getattr(deal, name, None)] is then [attrs.get(name)]. *)
Inductive deal_input : Type :=
| DealDict (data : dict)
| DealObject (attrs : dict).

(** The local function [_to_float] *)
Definition _to_float (v : value) : result F :=
  match Py.to_float v with
  | Ok f => Ok f
  | Raise TypeError => Ok Py.f_zero
  | Raise (ValueError _) => Ok Py.f_zero
  | Raise e => Raise e
  end.

Definition _coerce_deal_payload (deal : deal_input) : result dict :=
  let data :=
    match deal with
    | DealDict data => data
    | DealObject attrs =>
        [ ("id", Py.get attrs "id");
          ("price", Py.get attrs "price");
          ("ebitda", Py.get attrs "ebitda");
          ("industry", Py.get attrs "industry");
          ("name", Py.get attrs "name") ]
    end in
  price <- _to_float (Py.get data "price") ;;
  ebitda <- _to_float (Py.get data "ebitda") ;;
  Ok [ ("id", Py.get data "id");
       ("price", Py.VFloat price);
       ("ebitda", Py.VFloat ebitda);
       ("industry", Py.or_else (Py.get data "industry") (Py.VStr EmptyString));
       ("name", Py.or_else (Py.get data "name") (Py.VStr EmptyString)) ].

(** [deal_payload["price"] / deal_payload["ebitda"]
     if deal_payload["ebitda"] > 0 else 0.0], for the two floats of a
    coerced deal. *)
Definition baseline_multiple (price ebitda : F) : result F :=
  if Py.f_gtb ebitda Py.f_zero then Py.div price ebitda else Ok Py.f_zero.

End Deal.

Arguments deal_input F : clear implicits.

End AnalyzerDeal.

(** ** [app/services/triage.py] *)

Module Triage.
Section Plan.

Context {F : Type} {fops : PyFloat F}.

Local Abbreviation value := (Py.value F).
Local Abbreviation dict := (Py.dict F).

Record TriagePlan : Type := {
  objective : option string;
  required_comps : list string;
  missing_data : list string;
  queries : list string;
  risk_flags : list string;
  route_suggestion : option string;
  confidence : option F
}.

(** The parsers of the libraries: [TriagePlan.model_validate_json],
    [json.loads] and [TriagePlan.model_validate].  [None] stands for any
    exception. *)
Variable model_validate_json : string -> option TriagePlan.
Variable json_loads : string -> option value.
Variable model_validate : value -> option TriagePlan.

Definition parse_triage_plan (raw : option string) : result TriagePlan :=
  let raw_str := strip (or_empty raw) in
  if String.eqb raw_str EmptyString
  then Raise (ValueError "empty_triage_payload")
  else
    match model_validate_json raw_str with
    | Some plan => Ok plan
    | None =>
        match json_loads raw_str with
        | None => Raise (ValueError "triage_not_json")
        | Some (Py.VDict data) =>
            match Py.lookup data "triage_plan" with
            | Some inner =>
                match model_validate inner with
                | Some plan => Ok plan
                | None => Raise (ValueError "triage_plan_invalid")
                end
            | None => Raise (ValueError "triage_schema_mismatch")
            end
        | Some _ => Raise (ValueError "triage_schema_mismatch")
        end
    end.

End Plan.

Arguments TriagePlan F : clear implicits.

End Triage.

(** ** [app/services/consultant.py]: triage, escalation and synthesis *)

Module Orchestrator.

(** What rendering a prompt and awaiting a backend comes to: the text it
    answered, or an exception of any class. *)
Inductive reply (A : Type) : Type :=
| Answered (text : A)
| Failed.

Arguments Answered {A} text.
Arguments Failed {A}.

Section Flow.

Context {F : Type} {fops : PyFloat F}.

Local Abbreviation value := (Py.value F).
Local Abbreviation dict := (Py.dict F).

(** [v < c] for a float [c] with [0 < c < 1], as the code compares a
    confidence with [0.55]: an [int] compares exactly, so it is smaller
    exactly when it is at most zero. *)
Definition lt_fraction (v : value) (c : F) : result bool :=
  match v with
  | Py.VBool b => Ok (negb b)
  | Py.VInt z => Ok (z <=? 0)
  | Py.VFloat f => Ok (f_ltb f c)
  | Py.VNone | Py.VStr _ | Py.VList _ | Py.VTuple _ | Py.VDict _ =>
      Raise TypeError
  end.

Definition _should_escalate (complexity : string) (payload : option dict)
    (comps : list dict) : result bool :=
  if negb (String.eqb complexity "hard") then Ok false
  else
    match payload with
    | None => Ok true
    | Some payload =>
        let confidence := Py.get payload "confidence" in
        low <-
          match confidence with
          | Py.VNone => Ok true
          | _ => lt_fraction confidence (f_lit 55 (-2))
          end ;;
        if low then Ok true
        else if negb (Py.truthy (Py.get payload "comps_used"))
                && match comps with [] => true | _ => false end
        then Ok true
        else Ok false
    end.

(** [v[:3]].  A dictionary cannot be sliced ([TypeError]; from Python 3.12
    on a [KeyError], which the caller treats alike). *)
Definition slice3 (v : value) : result value :=
  match v with
  | Py.VList l => Ok (Py.VList (firstn 3 l))
  | Py.VTuple l => Ok (Py.VTuple (firstn 3 l))
  | Py.VStr s => Ok (Py.VStr (substring 0 3 s))
  | Py.VNone | Py.VBool _ | Py.VInt _ | Py.VFloat _ | Py.VDict _ =>
      Raise TypeError
  end.

(** The items of [sep.join(...)] have to be strings. *)
Fixpoint strings_of (items : list value) : result (list string) :=
  match items with
  | [] => Ok []
  | Py.VStr s :: rest => l <- strings_of rest ;; Ok (s :: l)
  | _ :: _ => Raise TypeError
  end.

(** [sep.join(v)] *)
Definition join_value (sep : string) (v : value) : result string :=
  items <- Py.to_list v ;;
  l <- strings_of items ;;
  Ok (join sep l).

Definition _summarize_payload (payload : dict) : result string :=
  let r_conclusion := Py.get payload "conclusion" in
  let r_confidence := Py.get payload "confidence" in
  let comps_used := Py.or_else (Py.get payload "comps_used") (Py.VList []) in
  comps_preview <-
    (if Py.truthy comps_used
     then first3 <- slice3 comps_used ;; join_value ", " first3
     else Ok "no comps cited") ;;
  Ok ("DeepSeek first-pass: conclusion=" ++ Py.str r_conclusion
      ++ ", confidence=" ++ Py.str r_confidence
      ++ ", comps=" ++ comps_preview ++ ".").

Definition preview (l : list string) : string :=
  match l with
  | [] => "none"
  | _ => join ", " (firstn 3 l)
  end.

Definition _summarize_plan (plan : Triage.TriagePlan F) : string :=
  let missing := preview (Triage.missing_data plan) in
  let comps := preview (Triage.required_comps plan) in
  "Triage Plan -> "
  ++ "route="
  ++ (match Triage.route_suggestion plan with
      | Some EmptyString | None => "unknown"
      | Some route => route
      end)
  ++ ", "
  ++ "confidence="
  ++ (match Triage.confidence plan with
      | Some c => f_repr c
      | None => "None"
      end)
  ++ ", "
  ++ "missing=" ++ missing ++ ", comps=" ++ comps.

(** An API key of the settings is used when it is a non-empty string. *)
Definition configured (key : option string) : bool :=
  match key with
  | Some k => negb (String.eqb k EmptyString)
  | None => false
  end.

(** [meta], without the wall-clock [timings]. *)
Record meta : Type := {
  path : string;
  triage_confidence : option F
}.

(** The local variables that the triage stage leaves. *)
Record triage : Type := {
  triage_summary : string;
  deepseek_payload : option dict;
  triage_plan : option (Triage.TriagePlan F)
}.

Definition not_executed : string :=
  "DeepSeek triage not executed; using baseline heuristics.".

Definition no_triage : triage :=
  {| triage_summary := not_executed;
     deepseek_payload := None;
     triage_plan := None |}.

(** The numeric fields of a consultant payload hold floats. *)
Definition typed_numbers (payload : dict) : bool :=
  match Py.lookup payload "implied_multiple", Py.lookup payload "range",
        Py.lookup payload "confidence" with
  | Some (Py.VFloat _), Some (Py.VTuple [Py.VFloat _; Py.VFloat _]),
    Some (Py.VFloat _) => true
  | _, _, _ => false
  end.

(** The four other keys of a consultant payload are present. *)
Definition labelled (payload : dict) : bool :=
  match Py.lookup payload "conclusion", Py.lookup payload "reasoning",
        Py.lookup payload "comps_used", Py.lookup payload "risk_flags" with
  | Some _, Some _, Some _, Some _ => true
  | _, _, _, _ => false
  end.

(** [deepseek_payload or baseline] *)
Definition payload_or (p : option dict) (baseline : dict) : dict :=
  match p with
  | Some (entry :: rest) => entry :: rest
  | Some [] | None => baseline
  end.

Variable model_validate_json : string -> option (Triage.TriagePlan F).
Variable json_loads : string -> option value.
Variable model_validate : value -> option (Triage.TriagePlan F).

(** The settings, and what the two backends do on this request.  The
    content of a DeepSeek message may be [None]; [_call_gpt5] returns a
    string or raises. *)
Variable deepseek_api_key : option string.
Variable openai_api_key : option string.
Variable deepseek : reply (option string).
Variable gpt5 : reply string.

(** [_coerce_response(raw, ...)] from the raw text: [json.loads(None)] is a
    [TypeError]. *)
Definition coerce_text (raw : option string) (baseline : dict)
    (comps : list dict) : result dict :=
  match raw with
  | Some text => Consultant._coerce_response (json_loads text) baseline comps
  | None => Raise TypeError
  end.

(** The statements under [if complexity == "hard" and
    settings.deepseek_api_key], with their [try] blocks. *)
Definition run_triage (baseline : dict) (comps : list dict) : triage :=
  match deepseek with
  | Failed => no_triage
  | Answered deepseek_response =>
      match Triage.parse_triage_plan model_validate_json json_loads
              model_validate deepseek_response with
      | Ok plan =>
          {| triage_summary := _summarize_plan plan;
             deepseek_payload := None;
             triage_plan := Some plan |}
      | Raise (ValueError _) =>
          match
            (payload <- coerce_text deepseek_response baseline comps ;;
             summary <- _summarize_payload payload ;;
             Ok (payload, summary))
          with
          | Ok (payload, summary) =>
              {| triage_summary := summary;
                 deepseek_payload := Some payload;
                 triage_plan := None |}
          | Raise _ => no_triage
          end
      | Raise _ => no_triage
      end
  end.

Definition triage_stage (complexity : string) (baseline : dict)
    (comps : list dict) : triage :=
  if String.eqb complexity "hard" && configured deepseek_api_key
  then run_triage baseline comps
  else if String.eqb complexity "hard"
  then {| triage_summary :=
            "DeepSeek triage unavailable; falling back to baseline heuristic.";
          deepseek_payload := None;
          triage_plan := None |}
  else no_triage.

Definition analyze_valuation (deal : dict) (comps : list dict)
    (question : option string) : result (dict * meta) :=
  baseline <- Consultant._heuristic_baseline deal comps ;;
  let complexity := Consultant._classify_request question deal comps in
  let tr := triage_stage complexity baseline comps in
  let final_payload := payload_or (deepseek_payload tr) baseline in
  escalate_to_gpt <- _should_escalate complexity (Some final_payload) comps ;;
  let should_call_gpt :=
    configured openai_api_key
    && (String.eqb complexity "easy" || escalate_to_gpt) in
  let final_payload :=
    if should_call_gpt
    then
      match gpt5 with
      | Failed => final_payload
      | Answered llm_response =>
          let seed_payload := payload_or (deepseek_payload tr) baseline in
          match Consultant._coerce_response (json_loads llm_response)
                  seed_payload comps with
          | Ok coerced => coerced
          | Raise _ => final_payload
          end
      end
    else final_payload in
  Ok (final_payload,
      {| path := complexity;
         triage_confidence :=
           match triage_plan tr with
           | Some plan => Triage.confidence plan
           | None => None
           end |}).

End Flow.

Arguments meta F : clear implicits.
Arguments triage F : clear implicits.

End Orchestrator.
(** ** [app/services/analyzer.py]: the whole of [analyze_core] *)

Module Pipeline.
Section Analysis.

Context {F : Type} {fops : PyFloat F}.

Local Abbreviation value := (Py.value F).
Local Abbreviation dict := (Py.dict F).

Variable model_validate_json : string -> option (Triage.TriagePlan F).
Variable json_loads : string -> option value.
Variable model_validate : value -> option (Triage.TriagePlan F).
Variable deepseek_api_key : option string.
Variable openai_api_key : option string.
Variable deepseek : Orchestrator.reply (option string).
Variable gpt5 : Orchestrator.reply string.

(** [analyze_core] from its first line to the sanitized payload, for the
    chunks [comps] that [get_similar_chunks] returned.  The two numbers of
    a coerced deal are floats, so the last case is never taken. *)
Definition analyze_core (deal : AnalyzerDeal.deal_input F)
    (question : option string) (comps : list dict) : result dict :=
  deal_payload <- AnalyzerDeal._coerce_deal_payload deal ;;
  ' (raw_output, consultant_meta) <-
    Orchestrator.analyze_valuation model_validate_json json_loads
      model_validate deepseek_api_key openai_api_key deepseek gpt5
      deal_payload comps question ;;
  match Py.get deal_payload "price", Py.get deal_payload "ebitda" with
  | Py.VFloat price, Py.VFloat ebitda =>
      Analyzer.analyze_core price ebitda question comps raw_output
  | _, _ => Raise TypeError
  end.

End Analysis.
End Pipeline.
(** ** [app/schemas.py]: the validator of [risk_flags] *)

Module SchemasValidators.
Section Validators.

Context {F : Type} {fops : PyFloat F}.

Local Abbreviation value := (Py.value F).

Fixpoint cleaned_flags (items : list value) : list string :=
  match items with
  | [] => []
  | Py.VNone :: rest => cleaned_flags rest
  | item :: rest => strip (Py.str item) :: cleaned_flags rest
  end.

(** [AnalysisV1._clean_risk_flags(value)], which runs before the field is
    validated. *)
Definition _clean_risk_flags (v : value) : result (list string) :=
  if negb (Py.truthy v) then Ok []
  else
    items <- Py.to_list v ;;
    Ok (cleaned_flags items).

End Validators.
End SchemasValidators.

(** ** [app/services/rerank.py] *)

Module Rerank.

(** The exceptions of this part of the code: those of the analysis core,
    the [IndexError] of a subscript, the [RerankError] of a failed request
    and the error of a response body that is no JSON. *)
Inductive raised : Type :=
| Builtin (e : exn)
| IndexError
| RerankError (msg : string)
| JSONDecodeError.

Inductive attempt (A : Type) : Type :=
| Returned (a : A)
| Raised (e : raised).

Arguments Returned {A} a.
Arguments Raised {A} e.

Definition and_then {A B : Type} (m : attempt A) (k : A -> attempt B)
    : attempt B :=
  match m with
  | Returned a => k a
  | Raised e => Raised e
  end.

Definition lift {A : Type} (m : result A) : attempt A :=
  match m with
  | Ok a => Returned a
  | Raise e => Raised (Builtin e)
  end.

(** What a request to a reranking service comes to: an [httpx.HTTPError],
    or a response whose body is JSON or not. *)
Inductive exchange (A : Type) : Type :=
| HTTPError
| Body (json : option A).

Arguments HTTPError {A}.
Arguments Body {A} json.

Section Providers.

Context {F : Type} {fops : PyFloat F}.

Local Abbreviation value := (Py.value F).
Local Abbreviation dict := (Py.dict F).

(** [l[:k]] *)
Definition slice_to {A : Type} (k : Z) (l : list A) : list A :=
  if 0 <=? k then firstn (Z.to_nat k) l
  else firstn (List.length l - Z.to_nat (- k)) l.

Fixpoint enumerate_from {A : Type} (i : Z) (l : list A) : list (Z * A) :=
  match l with
  | [] => []
  | x :: l' => (i, x) :: enumerate_from (i + 1) l'
  end.

(** The list that stands for the original ordering. *)
Definition original_order (documents : list value) (top_k : Z) : list dict :=
  map (fun entry : Z * value =>
         [ ("index", Py.VInt (fst entry));
           ("document", snd entry);
           ("relevance_score", Py.VFloat Py.f_zero) ])
      (enumerate_from 0 (slice_to top_k documents)).

(** [idx >= n] for the length [n] of a list.  A float compares with the
    integer by value; a list is never so long that its length has no
    float. *)
Definition ge_len (idx : value) (n : nat) : attempt bool :=
  match idx with
  | Py.VBool b => Returned ((if b then 1 else 0) >=? Z.of_nat n)
  | Py.VInt z => Returned (z >=? Z.of_nat n)
  | Py.VFloat f =>
      Returned (match f_of_Z (Z.of_nat n) with
                | Some len => f_leb len f
                | None => false
                end)
  | Py.VNone | Py.VStr _ | Py.VList _ | Py.VTuple _ | Py.VDict _ =>
      Raised (Builtin TypeError)
  end.

(** [l[i]] for an integer [i]: a negative index counts from the end. *)
Definition item_at {A : Type} (l : list A) (i : Z) : attempt A :=
  let i := if i <? 0 then i + Z.of_nat (List.length l) else i in
  if i <? 0 then Raised IndexError
  else
    match nth_error l (Z.to_nat i) with
    | Some x => Returned x
    | None => Raised IndexError
    end.

(** [l[idx]] *)
Definition subscript {A : Type} (l : list A) (idx : value) : attempt A :=
  match idx with
  | Py.VBool b => item_at l (if b then 1 else 0)
  | Py.VInt z => item_at l z
  | Py.VNone | Py.VFloat _ | Py.VStr _ | Py.VList _ | Py.VTuple _
  | Py.VDict _ => Raised (Builtin TypeError)
  end.

(** The integers that a list of length [n] accepts as a subscript. *)
Definition in_range (n : nat) (idx : value) : bool :=
  let within (i : Z) :=
    let i := if i <? 0 then i + Z.of_nat n else i in
    (0 <=? i) && (i <? Z.of_nat n) in
  match idx with
  | Py.VBool b => within (if b then 1 else 0)
  | Py.VInt z => within z
  | _ => false
  end.

(** [idx is None or idx >= n] *)
Definition out_of_range (idx : value) (n : nat) : attempt bool :=
  match idx with
  | Py.VNone => Returned true
  | _ => ge_len idx n
  end.

(** An item of a reranked list is harmless when its index is skipped or
    is a subscript that a list of length [n] accepts. *)
Definition harmless (n : nat) (item : dict) : Prop :=
  out_of_range (Py.get item "index") n = Returned true
  \/ (out_of_range (Py.get item "index") n = Returned false
      /\ in_range n (Py.get item "index") = true).

(** The loop over [results] in [_cohere_rerank] and [_bge_rerank]; the two
    differ in how they read the score of an item. *)
Fixpoint ranked_loop (score : dict -> value) (documents : list value)
    (results : list value) (ranked : list dict) : attempt (list dict) :=
  match results with
  | [] => Returned ranked
  | Py.VDict item :: rest =>
      let idx := Py.get item "index" in
      and_then (out_of_range idx (List.length documents)) (fun skip =>
      if skip then ranked_loop score documents rest ranked
      else
        and_then (subscript documents idx) (fun document =>
        ranked_loop score documents rest
          (ranked ++ [[ ("index", idx);
                        ("document", document);
                        ("relevance_score", score item) ]])%list))
  | _ :: _ => Raised (Builtin AttributeError)
  end.

(** [data.get("results", [])], ready to be iterated. *)
Definition results_of (data : value) : attempt (list value) :=
  match data with
  | Py.VDict d => lift (Py.to_list (Py.get_or d "results" (Py.VList [])))
  | _ => Raised (Builtin AttributeError)
  end.

(** The settings, and the two exchanges as they turn out on this call. *)
Variable rerank_provider : option string.
Variable cohere_api_key : option string.
Variable bge_rerank_url : string.
Variable cohere_exchange : exchange value.
Variable bge_exchange : exchange value.

Definition _cohere_rerank (documents : list value) (top_k : Z)
    : attempt (list dict) :=
  match cohere_exchange with
  | HTTPError => Raised (RerankError "Cohere rerank request failed.")
  | Body None => Raised JSONDecodeError
  | Body (Some data) =>
      and_then (results_of data) (fun results =>
      ranked_loop
        (fun item => Py.get_or item "relevance_score" (Py.VFloat Py.f_zero))
        documents results [])
  end.

Definition _bge_rerank (documents : list value) (top_k : Z)
    : attempt (list dict) :=
  if String.eqb bge_rerank_url EmptyString
  then Returned (original_order documents top_k)
  else
    match bge_exchange with
    | HTTPError => Returned (original_order documents top_k)
    | Body None => Raised JSONDecodeError
    | Body (Some data) =>
        and_then (results_of data) (fun results =>
        and_then
          (ranked_loop
             (fun item =>
                Py.get_or item "score"
                  (Py.get_or item "relevance_score" (Py.VFloat Py.f_zero)))
             documents results [])
          (fun ranked =>
           match ranked with
           | [] => Returned (original_order documents top_k)
           | _ => Returned ranked
           end))
    end.

(** [settings.rerank_provider in {None, "", "none"}] *)
Definition provider_disabled : bool :=
  match rerank_provider with
  | None => true
  | Some provider =>
      String.eqb provider EmptyString || String.eqb provider "none"
  end.

Definition rerank_documents (documents : list value) (top_k : Z)
    : attempt (list dict) :=
  match documents with
  | [] => Returned []
  | _ =>
      if provider_disabled then Returned (original_order documents top_k)
      else if match rerank_provider with
              | Some provider => String.eqb provider "cohere"
              | None => false
              end
              && Orchestrator.configured cohere_api_key
      then _cohere_rerank documents top_k
      else _bge_rerank documents top_k
  end.

End Providers.
End Rerank.

(** ** [app/services/retrieve.py] *)

Module Retrieve.
Import Rerank.
Section Chunks.

Context {F : Type} {fops : PyFloat F}.

Local Abbreviation value := (Py.value F).
Local Abbreviation dict := (Py.dict F).

Definition _compose_query_text (deal : dict) (question : option string)
    : string :=
  let parts :=
    match question with
    | Some EmptyString | None => []
    | Some q => [q]
    end in
  let name := Py.get deal "name" in
  let industry := Py.get deal "industry" in
  let price := Py.get deal "price" in
  let ebitda := Py.get deal "ebitda" in
  let named :=
    if Py.truthy name then ["name: " ++ Py.str name] else [] in
  let sector :=
    if Py.truthy industry then ["industry: " ++ Py.str industry] else [] in
  let priced :=
    match price with Py.VNone => [] | _ => ["price: " ++ Py.str price] end in
  let earning :=
    match ebitda with Py.VNone => [] | _ => ["ebitda: " ++ Py.str ebitda] end in
  let details := List.app named (List.app sector (List.app priced earning)) in
  let parts :=
    match details with
    | [] => parts
    | _ => (parts ++ [join " | " details])%list
    end in
  match parts with
  | [] => "valuation analysis"
  | _ => join " :: " parts
  end.

(** The loop of [_maybe_rerank] that builds [ordered]. *)
Fixpoint ordered_loop (hits : list dict) (reranked : list dict)
    (ordered : list dict) : attempt (list dict) :=
  match reranked with
  | [] => Returned ordered
  | item :: rest =>
      let idx := Py.get item "index" in
      and_then (out_of_range idx (List.length hits)) (fun skip =>
      if skip then ordered_loop hits rest ordered
      else
        and_then (subscript hits idx) (fun hit =>
        let payload := Py.set hit "rerank_score" (Py.get item "relevance_score") in
        ordered_loop hits rest (ordered ++ [payload])%list))
  end.

(** A hit with a rerank score set. *)
Definition scored_from (hits : list dict) (payload : dict) : Prop :=
  exists hit score, In hit hits /\ payload = Py.set hit "rerank_score" score.

(** The part of [_maybe_rerank] after the reranker has answered, as far as
    the list of hits goes. *)
Definition reorder (hits : list dict) (reranked : list dict)
    : attempt (list dict) :=
  and_then (ordered_loop hits reranked []) (fun ordered =>
  match ordered with
  | _ :: _ =>
      if (List.length ordered =? List.length hits)%nat
      then Returned ordered
      else Returned hits
  | [] => Returned hits
  end).

Variable rerank_provider : option string.
Variable cohere_api_key : option string.
Variable bge_rerank_url : string.
Variable cohere_exchange : exchange value.
Variable bge_exchange : exchange value.

(** The list of hits that [_maybe_rerank] returns.  (The dictionary [info]
    that it returns with it is only logged by the caller.) *)
Definition _maybe_rerank (hits : list dict) (use_rerank : bool)
    : attempt (list dict) :=
  let documents := map (fun hit => Py.get_or hit "text" (Py.VStr EmptyString)) hits in
  if negb use_rerank || match documents with [] => true | _ => false end
  then Returned hits
  else
    match rerank_documents rerank_provider cohere_api_key bge_rerank_url
            cohere_exchange bge_exchange documents
            (Z.of_nat (List.length documents)) with
    | Raised _ => Returned hits
    | Returned reranked => reorder hits reranked
    end.

(** What the other awaited calls of [get_similar_chunks] come to on this
    request, and the settings it reads. *)
Variable embeddings : Orchestrator.reply (list (list F)).
Variable supabase_configured : bool.
Variable supabase_hits : Orchestrator.reply (list dict).
Variable db_given : bool.
Variable local_hits : Orchestrator.reply (list dict).

Definition get_similar_chunks (deal : dict) (question : option string)
    : attempt (list dict) :=
  match embeddings with
  | Orchestrator.Failed => Returned []
  | Orchestrator.Answered [] => Returned []
  | Orchestrator.Answered (query_vector :: _) =>
      let hits :=
        if supabase_configured
        then match supabase_hits with
             | Orchestrator.Answered found => found
             | Orchestrator.Failed => []
             end
        else [] in
      let hits :=
        match hits with
        | [] =>
            if db_given
            then match local_hits with
                 | Orchestrator.Answered found => found
                 | Orchestrator.Failed => []
                 end
            else []
        | _ => hits
        end in
      match hits with
      | [] => Returned []
      | _ => _maybe_rerank hits (negb (provider_disabled rerank_provider))
      end
  end.

End Chunks.
End Retrieve.

(** ** More concrete inputs *)

Module Cases.
Import Py Exact Scenarios.

(** A full cache of two analyses, the older one first. *)
Definition warm_cache : Cache.TTLCache xfloat Z :=
  {| Cache.maxsize := 2;
     Cache.ttl := lit 600 0;
     Cache._store := [ ("7:fair?", (lit 700 0, 1)); ("8:fair?", (lit 800 0, 2)) ] |}.

(** Parsers for a backend that answers the one text [answer], which reads
    as the JSON object [partial_answer] and is no triage plan. *)
Definition no_plan : string -> option (Triage.TriagePlan xfloat) :=
  fun _ => None.

Definition no_model : value xfloat -> option (Triage.TriagePlan xfloat) :=
  fun _ => None.

Definition read_answer (text : string) : option (value xfloat) :=
  if String.eqb text "answer" then Some (VDict partial_answer) else None.

(** The baseline of [complete_deal], and what the consultant makes of the
    answer on top of it. *)
Definition complete_baseline : dict xfloat :=
  [ ("conclusion", VStr "fair");
    ("implied_multiple", num 10 0);
    ("range", VTuple [num 9 0; num 11 0]);
    ("reasoning", VStr "Baseline multiple heuristic derived from price/EBITDA.");
    ("comps_used", VList []);
    ("risk_flags", VList []);
    ("confidence", num 5 (-1)) ].

Definition synthesized : dict xfloat :=
  [ ("conclusion", VStr "fair");
    ("implied_multiple", num 10 0);
    ("range", VTuple [num 4 0; num 6 0]);
    ("reasoning", VStr "Baseline multiple heuristic derived from price/EBITDA.");
    ("comps_used", VList []);
    ("risk_flags", VList []);
    ("confidence", num 5 (-1)) ].

Definition easy_path : Orchestrator.meta xfloat :=
  {| Orchestrator.path := "easy"; Orchestrator.triage_confidence := None |}.

(** A triage plan, read off the one text [plan]; and a confident answer
    that cites a comp, read off the one text [payload]. *)
Definition plan_A : Triage.TriagePlan xfloat :=
  {| Triage.objective := Some "compare with peers";
     Triage.required_comps := ["Acme"];
     Triage.missing_data := [];
     Triage.queries := ["Acme EV/EBITDA"];
     Triage.risk_flags := [];
     Triage.route_suggestion := Some "hard";
     Triage.confidence := Some (lit 7 (-1)) |}.

Definition read_plan (text : string) : option (Triage.TriagePlan xfloat) :=
  if String.eqb text "plan" then Some plan_A else None.




(** [complete_deal] as an ORM row, and its payload. *)
Definition deal_row : AnalyzerDeal.deal_input xfloat :=
  AnalyzerDeal.DealObject complete_deal.

Definition deal_row_payload : dict xfloat :=
  [ ("id", VNone);
    ("price", num 100 0);
    ("ebitda", num 10 0);
    ("industry", VStr "tech");
    ("name", VStr EmptyString) ].



Definition recovered_answer : dict xfloat :=
  [ ("conclusion", VStr "fair");
    ("reasoning", VStr EmptyString);
    ("range", VList [num 55 (-1); num 65 (-1)]);
    ("implied_multiple", num 6 0);
    ("comps_used",
     VList [VDict [("source_id", VStr "chunk:7"); ("name", VStr "10-K")]]);
    ("risk_flags", VList [VStr "fallback_citations_injected"]);
    ("confidence", num 58 (-2)) ].

Definition cited_analysis : Schemas.AnalysisV1 xfloat :=
  {| Schemas.conclusion := "fair";
     Schemas.implied_multiple := lit 6 0;
     Schemas.range := (lit 55 (-1), lit 65 (-1));
     Schemas.reasoning := EmptyString;
     Schemas.comps_used :=
       [ {| Schemas.source_id := "chunk:7";
            Schemas.name := VStr "10-K";
            Schemas.ticker := VNone |} ];
     Schemas.risk_flags := ["fallback_citations_injected"];
     Schemas.confidence := Some (lit 58 (-2)) |}.

(** Two hits of a vector search, and a reranker's answer that puts the
    second first (the index [-2] counts from the end). *)
Definition two_hits : list (dict xfloat) :=
  [ [("chunk_id", VInt 1); ("text", VStr "Doc 1")];
    [("chunk_id", VInt 2); ("text", VStr "Doc 2")] ].

Definition swapped : list (dict xfloat) :=
  [ [("index", VInt 1); ("relevance_score", num 95 (-2))];
    [("index", VInt (-2)); ("relevance_score", num 5 (-1))] ].

Definition reranked_hits : list (dict xfloat) :=
  [ [("chunk_id", VInt 2); ("text", VStr "Doc 2"); ("rerank_score", num 95 (-2))];
    [("chunk_id", VInt 1); ("text", VStr "Doc 1"); ("rerank_score", num 5 (-1))] ].

End Cases.

(** * Properties *)

(** ** The error monad and small facts *)

(** Looking a literal key up in a dictionary that is written out. *)
Ltac read_keys :=
  cbn [Py.get Py.lookup Py.set String.eqb Ascii.eqb Bool.eqb].

Lemma bind_ok {A B : Type} (m : result A) (k : A -> result B) (b : B) :
  bind m k = Ok b -> exists a, m = Ok a /\ k a = Ok b.
Proof.
  destruct m as [a | e]; simpl; intros H; [eauto | discriminate].
Qed.

Lemma existsb_eqb_In (x : string) (l : list string) :
  existsb (String.eqb x) l = true <-> In x l.
Proof.
  rewrite existsb_exists. split.
  - intros [y [Hy Heq]]. apply String.eqb_eq in Heq. now subst.
  - intros H. exists x. split; [assumption | apply String.eqb_refl].
Qed.

Lemma string_of_Z_nonempty (z : Z) : string_of_Z z <> EmptyString.
Proof.
  unfold string_of_Z. destruct (Z.to_int z) as [d | d]; simpl; [| discriminate].
  destruct d; simpl; discriminate.
Qed.

Module ValidationFacts.
Import Validation.

Lemma mem_In (x : string) (l : list string) : mem x l = true <-> In x l.
Proof. apply existsb_eqb_In. Qed.

Lemma fromkeys_from_In (l : list string) :
  forall seen x, In x (fromkeys_from seen l) <-> In x l /\ ~ In x seen.
Proof.
  induction l as [| y l IH]; intros seen x; simpl.
  - tauto.
  - destruct (existsb (String.eqb y) seen) eqn:E.
    + apply existsb_eqb_In in E. rewrite IH. split.
      * tauto.
      * intros [[-> | H] Hn]; tauto.
    + assert (Hy : ~ In y seen).
      { intros H. apply existsb_eqb_In in H. congruence. }
      simpl. rewrite IH. simpl. split.
      * intros [-> | [H1 H2]]; tauto.
      * intros [[-> | H] Hn]; [tauto |].
        destruct (string_dec y x); [tauto | right; tauto].
Qed.

Lemma fromkeys_from_NoDup (l : list string) :
  forall seen, NoDup (fromkeys_from seen l).
Proof.
  induction l as [| y l IH]; intros seen; simpl.
  - constructor.
  - destruct (existsb (String.eqb y) seen) eqn:E; [apply IH |].
    constructor; [| apply IH].
    rewrite fromkeys_from_In. simpl. tauto.
Qed.

Lemma fromkeys_from_fixed (l : list string) :
  forall seen, NoDup l -> (forall x, In x l -> ~ In x seen) ->
  fromkeys_from seen l = l.
Proof.
  induction l as [| y l IH]; intros seen Hnd Hdis; simpl; [reflexivity |].
  inversion Hnd as [| ? ? Hy Hl]; subst.
  destruct (existsb (String.eqb y) seen) eqn:E.
  - apply existsb_eqb_In in E. exfalso. apply (Hdis y); simpl; auto.
  - f_equal. apply IH; [assumption |].
    intros x Hx [-> | Hs]; [contradiction |].
    apply (Hdis x); simpl; auto.
Qed.

Lemma fromkeys_In (l : list string) (x : string) : In x (fromkeys l) <-> In x l.
Proof. unfold fromkeys. rewrite fromkeys_from_In. simpl. tauto. Qed.

Lemma fromkeys_NoDup (l : list string) : NoDup (fromkeys l).
Proof. apply fromkeys_from_NoDup. Qed.

Lemma fromkeys_idempotent (l : list string) : fromkeys (fromkeys l) = fromkeys l.
Proof.
  unfold fromkeys at 1. apply fromkeys_from_fixed; [apply fromkeys_NoDup | auto].
Qed.

Section Facts.
Context {F : Type} {fops : PyFloat F}.
Local Abbreviation value := (Py.value F).
Local Abbreviation dict := (Py.dict F).

Lemma emit_eq (c re : string) (comps : list dict) (st : locals) :
  emit c re comps st
  = [ ("conclusion", Py.VStr c);
      ("reasoning", Py.VStr re);
      ("range", Py.VList [Py.VFloat (_round (fst (order_range (l_lo st) (l_hi st))));
                          Py.VFloat (_round (snd (order_range (l_lo st) (l_hi st))))]);
      ("implied_multiple", Py.VFloat (_round (l_implied st)));
      ("comps_used", Py.VList (map Py.VDict comps));
      ("risk_flags", Py.VList (map Py.VStr (fromkeys (l_risks st))));
      ("confidence", Py.VFloat (l_confidence st)) ].
Proof. unfold emit. destruct (order_range _ _). reflexivity. Qed.

(** What a returning call has computed. *)
Lemma sanitize_inv (payload : dict) (b : F) (retrieval_required : bool)
    (retrieval_hits : Z) (r : dict) :
  sanitize_analysis_payload payload b retrieval_required retrieval_hits = Ok r ->
  exists implied lo hi conf,
    _as_float (Py.get payload "implied_multiple") b = Ok implied
    /\ parse_range (Py.get payload "range") implied = Ok (lo, hi)
    /\ hard_failure retrieval_required retrieval_hits (surviving_comps payload) = false
    /\ _as_float (Py.get payload "confidence") default_confidence = Ok conf
    /\ r = emit (conclusion_of payload) (reasoning_of payload)
             (surviving_comps payload)
             (apply_guardrail (surviving_comps payload) b
                {| l_implied := implied; l_lo := lo; l_hi := hi;
                   l_confidence := clamp_confidence conf;
                   l_risks := collect_risks payload |}).
Proof.
  unfold sanitize_analysis_payload. intros H.
  apply bind_ok in H as [implied [Hi H]].
  apply bind_ok in H as [[lo hi] [Hr H]].
  destruct (hard_failure retrieval_required retrieval_hits (surviving_comps payload))
    eqn:Hh; [discriminate |].
  apply bind_ok in H as [conf [Hc H]].
  injection H as <-.
  exists implied, lo, hi, conf. repeat split; assumption.
Qed.

Lemma sanitize_intro (payload : dict) (b : F) (retrieval_required : bool)
    (retrieval_hits : Z) (implied lo hi conf : F) :
  _as_float (Py.get payload "implied_multiple") b = Ok implied ->
  parse_range (Py.get payload "range") implied = Ok (lo, hi) ->
  hard_failure retrieval_required retrieval_hits (surviving_comps payload) = false ->
  _as_float (Py.get payload "confidence") default_confidence = Ok conf ->
  sanitize_analysis_payload payload b retrieval_required retrieval_hits
  = Ok (emit (conclusion_of payload) (reasoning_of payload)
             (surviving_comps payload)
             (apply_guardrail (surviving_comps payload) b
                {| l_implied := implied; l_lo := lo; l_hi := hi;
                   l_confidence := clamp_confidence conf;
                   l_risks := collect_risks payload |})).
Proof.
  intros Hi Hr Hh Hc. unfold sanitize_analysis_payload.
  rewrite Hi. simpl. rewrite Hr. simpl. rewrite Hh, Hc. reflexivity.
Qed.

End Facts.
End ValidationFacts.

Module FloatFacts.
Import Validation.
Section Laws.
Context {F : Type} {fops : PyFloat F} {laws : PyFloatLaws F}.

Lemma zero_lt_one : f_ltb (Py.f_zero (F:=F)) Py.f_one = true.
Proof. exact (ltb_trans _ _ _ zero_lt_half half_lt_one). Qed.

Lemma number_zero : f_eqb (Py.f_zero (F:=F)) Py.f_zero = true.
Proof. exact (proj1 (ltb_number _ _ zero_lt_half)). Qed.

Lemma number_half : f_eqb (half (F:=F)) half = true.
Proof. exact (proj2 (ltb_number _ _ zero_lt_half)). Qed.

Lemma number_one : f_eqb (Py.f_one (F:=F)) Py.f_one = true.
Proof. exact (proj2 (ltb_number _ _ half_lt_one)). Qed.

Lemma leb_refl (x : F) : f_eqb x x = true -> f_leb x x = true.
Proof. intros H. apply leb_total; auto using ltb_irrefl. Qed.

(** The three outcomes of [max(0.0, min(1.0, c))]. *)
Lemma clamp_cases (c : F) :
  (clamp_confidence c = c /\ f_ltb c Py.f_one = true /\ f_ltb Py.f_zero c = true)
  \/ clamp_confidence c = Py.f_zero
  \/ clamp_confidence c = Py.f_one.
Proof.
  unfold clamp_confidence, Py.max, Py.min.
  destruct (f_ltb c Py.f_one) eqn:H1.
  - destruct (f_ltb Py.f_zero c) eqn:H0; auto.
  - rewrite zero_lt_one. auto.
Qed.

Lemma clamp_zero : clamp_confidence (Py.f_zero (F:=F)) = Py.f_zero.
Proof.
  unfold clamp_confidence, Py.max, Py.min.
  now rewrite zero_lt_one, ltb_irrefl.
Qed.

Lemma clamp_one : clamp_confidence (Py.f_one (F:=F)) = Py.f_one.
Proof.
  unfold clamp_confidence, Py.max, Py.min.
  now rewrite ltb_irrefl, zero_lt_one.
Qed.

Lemma clamp_inside (c : F) :
  f_ltb c Py.f_one = true -> f_ltb Py.f_zero c = true -> clamp_confidence c = c.
Proof.
  intros H1 H0. unfold clamp_confidence, Py.max, Py.min. now rewrite H1, H0.
Qed.

Lemma clamp_idempotent (c : F) :
  clamp_confidence (clamp_confidence c) = clamp_confidence c.
Proof.
  destruct (clamp_cases c) as [[E [H1 H0]] | [E | E]]; rewrite E.
  - now apply clamp_inside.
  - apply clamp_zero.
  - apply clamp_one.
Qed.

Lemma clamp_bounds (c : F) :
  f_leb Py.f_zero (clamp_confidence c) = true
  /\ f_leb (clamp_confidence c) Py.f_one = true.
Proof.
  destruct (clamp_cases c) as [[E [H1 H0]] | [E | E]]; rewrite E.
  - split; now apply ltb_leb.
  - split; [apply leb_refl, number_zero | apply ltb_leb, zero_lt_one].
  - split; [apply ltb_leb, zero_lt_one | apply leb_refl, number_one].
Qed.

Lemma clamp_number (c : F) :
  f_eqb (clamp_confidence c) (clamp_confidence c) = true.
Proof.
  destruct (clamp_cases c) as [[E [H1 H0]] | [E | E]]; rewrite E.
  - exact (proj1 (ltb_number _ _ H1)).
  - apply number_zero.
  - apply number_one.
Qed.

Lemma clamp_half : clamp_confidence (half (F:=F)) = half.
Proof. apply clamp_inside; [apply half_lt_one | apply zero_lt_half]. Qed.

(** [min(confidence, 0.5)] after the clamp. *)
Lemma capped_bounds (c : F) :
  let y := Py.min (clamp_confidence c) half in
  f_leb Py.f_zero y = true /\ f_leb y Py.f_one = true /\ f_leb y half = true.
Proof.
  unfold Py.min. destruct (f_ltb half (clamp_confidence c)) eqn:H; simpl.
  - repeat split.
    + apply ltb_leb, zero_lt_half.
    + apply ltb_leb, half_lt_one.
    + apply leb_refl, number_half.
  - destruct (clamp_bounds c) as [H0 H1]. repeat split; try assumption.
    apply leb_total; [apply clamp_number | apply number_half | assumption].
Qed.

Lemma capped_idempotent (c : F) :
  let y := Py.min (clamp_confidence c) half in
  Py.min (clamp_confidence y) half = y.
Proof.
  unfold Py.min. destruct (f_ltb half (clamp_confidence c)) eqn:H; simpl.
  - rewrite clamp_half. now rewrite ltb_irrefl.
  - rewrite clamp_idempotent. now rewrite H.
Qed.

Lemma order_range_sorted (lo hi : F) :
  Py.f_gtb (fst (order_range lo hi)) (snd (order_range lo hi)) = false.
Proof.
  unfold order_range, Py.f_gtb. destruct (f_ltb hi lo) eqn:H; simpl.
  - now apply ltb_asym.
  - assumption.
Qed.

Lemma order_range_fixed (lo hi : F) :
  Py.f_gtb lo hi = false -> order_range lo hi = (lo, hi).
Proof. unfold order_range. now intros ->. Qed.

Lemma order_range_rounded (lo hi : F) :
  let o := order_range lo hi in
  order_range (_round (fst o)) (_round (snd o)) = (_round (fst o), _round (snd o)).
Proof.
  simpl. apply order_range_fixed. unfold Py.f_gtb, _round.
  apply round_mono. apply order_range_sorted.
Qed.

End Laws.
End FloatFacts.

Module SanitizerFacts.
Import Validation ValidationFacts FloatFacts.
Section Generic.
Context {F : Type} {fops : PyFloat F}.
Local Abbreviation value := (Py.value F).
Local Abbreviation dict := (Py.dict F).

Lemma as_float_fits (v : value) (d : F) :
  fits v = true -> exists f, _as_float v d = Ok f.
Proof.
  unfold _as_float, fits. destruct v; simpl; eauto.
  - destruct (f_of_Z z); [eauto | discriminate].
  - destruct (f_of_string s); eauto.
Qed.

Lemma as_float_raise (v : value) (d : F) (e : exn) :
  _as_float v d = Raise e -> e = OverflowError /\ fits v = false.
Proof.
  unfold _as_float, fits. destruct v; simpl; try discriminate.
  - destruct (f_of_Z z); [discriminate |]. intros H. injection H as <-. auto.
  - destruct (f_of_string s); discriminate.
Qed.

Lemma parse_range_fits (raw : value) (implied : F) :
  match raw with
  | Py.VList [a; b] | Py.VTuple [a; b] => fits a && fits b
  | _ => true
  end = true ->
  exists lo hi, parse_range raw implied = Ok (lo, hi).
Proof.
  unfold parse_range.
  destruct raw as [| | | | | [| a [| b [|]]] | [| a [| b [|]]] |]; eauto;
    intros H; apply andb_true_iff in H as [Ha Hb];
    destruct (as_float_fits a (f_sub implied half) Ha) as [lo ->];
    destruct (as_float_fits b (f_add implied half) Hb) as [hi ->];
    simpl; eauto.
Qed.

Lemma clean_citation_is_citation (item : value) (c : dict) :
  clean_citation item = Some c -> is_citation (Py.VDict c) = true.
Proof.
  unfold clean_citation. destruct item; try discriminate.
  destruct (Py.get entries "source_id"); try discriminate.
  destruct (prefix "chunk:" s) eqn:Hp; [| discriminate].
  intros H. injection H as <-.
  destruct (Py.truthy (Py.get entries "name")), (Py.truthy (Py.get entries "ticker"));
    simpl; exact Hp.
Qed.

Lemma clean_citations_valid (items : list value) :
  forallb is_citation (map Py.VDict (clean_citations items)) = true.
Proof.
  induction items as [| item rest IH]; simpl; [reflexivity |].
  destruct (clean_citation item) eqn:E; [| exact IH].
  cbn [map forallb]. rewrite (clean_citation_is_citation _ _ E). exact IH.
Qed.

Lemma surviving_comps_valid (payload : dict) :
  forallb is_citation (map Py.VDict (surviving_comps payload)) = true.
Proof.
  unfold surviving_comps.
  destruct (Py.or_else _ _); try reflexivity. apply clean_citations_valid.
Qed.

Lemma flags_are_strings (l : list string) :
  forallb is_str (map (Py.VStr (F:=F)) l) = true.
Proof. induction l; simpl; auto. Qed.

Lemma emit_valid (c re : string) (payload : dict) (st : locals) :
  structurally_valid (emit c re (surviving_comps payload) st) = true.
Proof.
  rewrite emit_eq. unfold structurally_valid. simpl.
  now rewrite surviving_comps_valid, flags_are_strings.
Qed.

(** With convertible numbers the only exception is the deliberate one. *)
Lemma sanitize_outcome (payload : dict) (b : F) (retrieval_required : bool)
    (retrieval_hits : Z) :
  numbers_fit payload = true ->
  (hard_failure retrieval_required retrieval_hits (surviving_comps payload) = true
   /\ sanitize_analysis_payload payload b retrieval_required retrieval_hits
      = Raise (ValueError "retrieval_hits_without_citations"))
  \/ (hard_failure retrieval_required retrieval_hits (surviving_comps payload) = false
      /\ exists r, sanitize_analysis_payload payload b retrieval_required retrieval_hits = Ok r
                   /\ structurally_valid r = true).
Proof.
  unfold numbers_fit. intros H.
  apply andb_true_iff in H as [H Hc]. apply andb_true_iff in H as [Hi Hr].
  destruct (as_float_fits _ b Hi) as [implied Ei].
  destruct (parse_range_fits _ implied Hr) as [lo [hi Er]].
  destruct (as_float_fits _ default_confidence Hc) as [conf Ec].
  destruct (hard_failure retrieval_required retrieval_hits (surviving_comps payload)) eqn:Hh.
  - left. split; [reflexivity |].
    unfold sanitize_analysis_payload. rewrite Ei. simpl. rewrite Er. simpl.
    now rewrite Hh.
  - right. split; [reflexivity |].
    eexists. split.
    + apply (sanitize_intro payload b retrieval_required retrieval_hits implied lo hi conf);
        assumption.
    + apply emit_valid.
Qed.

End Generic.
End SanitizerFacts.

Module SanitizerTheorems.
Import Validation ValidationFacts FloatFacts SanitizerFacts.

Section NoLaws.
Context {F : Type} {fops : PyFloat F}.
Local Abbreviation value := (Py.value F).
Local Abbreviation dict := (Py.dict F).

Lemma guardrail_flag (b : F) (st : locals) :
  In no_citable_evidence (l_risks (guardrail b st)).
Proof.
  unfold guardrail. simpl.
  destruct (mem no_citable_evidence (l_risks st)) eqn:E.
  - now apply mem_In.
  - apply in_or_app. right. simpl. auto.
Qed.

(** C4, as amended.  On every returning call: an empty [comps_used] comes
    with the flag [no_citable_evidence]; the flag comes with an empty
    [comps_used] or was already among the payload's own risk flags; and a
    flag that is present occurs exactly once.  (The sanitizer never removes
    a flag the payload brings, so the converse of the first part fails.) *)
Theorem sanitize_flag_iff (payload : dict) (b : F) (retrieval_required : bool)
    (retrieval_hits : Z) (r : dict) :
  sanitize_analysis_payload payload b retrieval_required retrieval_hits = Ok r ->
  exists (comps : list dict) (flags : list string),
    Py.get r "comps_used" = Py.VList (map Py.VDict comps)
    /\ Py.get r "risk_flags" = Py.VList (map Py.VStr flags)
    /\ (comps = [] -> In no_citable_evidence flags)
    /\ (In no_citable_evidence flags ->
        comps = [] \/ In no_citable_evidence (collect_risks payload))
    /\ (In no_citable_evidence flags ->
        count_occ string_dec flags no_citable_evidence = 1%nat).
Proof.
  intros H. apply sanitize_inv in H as (implied & lo & hi & conf & _ & _ & _ & _ & ->).
  rewrite emit_eq.
  eexists _, _. split; [reflexivity |]. split; [reflexivity |].
  repeat split.
  - intros ->. apply (proj2 (fromkeys_In _ _)). apply guardrail_flag.
  - intros Hin. apply (proj1 (fromkeys_In _ _)) in Hin.
    destruct (surviving_comps payload); [now left | right; exact Hin].
  - intros Hin. apply NoDup_count_occ'; [apply fromkeys_NoDup | assumption].
Qed.

End NoLaws.

Section WithLaws.
Context {F : Type} {fops : PyFloat F} {laws : PyFloatLaws F}.
Local Abbreviation value := (Py.value F).
Local Abbreviation dict := (Py.dict F).

Lemma final_confidence_bounds (comps : list dict) (b : F) (st : locals) (c : F) :
  l_confidence st = clamp_confidence c ->
  f_leb Py.f_zero (l_confidence (apply_guardrail comps b st)) = true
  /\ f_leb (l_confidence (apply_guardrail comps b st)) Py.f_one = true.
Proof.
  intros E. destruct comps; simpl; rewrite E.
  - destruct (capped_bounds c) as (H0 & H1 & _). auto.
  - apply clamp_bounds.
Qed.

(** C3, as amended.  On every returning call the confidence lies in
    [[0, 1]], and the two bounds of [range] are in ascending order unless
    one of them is a NaN. *)
Theorem sanitize_bounds (payload : dict) (b : F) (retrieval_required : bool)
    (retrieval_hits : Z) (r : dict) :
  sanitize_analysis_payload payload b retrieval_required retrieval_hits = Ok r ->
  exists lo hi c : F,
    Py.get r "range" = Py.VList [Py.VFloat lo; Py.VFloat hi]
    /\ Py.get r "confidence" = Py.VFloat c
    /\ f_leb Py.f_zero c = true
    /\ f_leb c Py.f_one = true
    /\ (Py.is_nan lo = false -> Py.is_nan hi = false -> f_leb lo hi = true).
Proof.
  intros H. apply sanitize_inv in H as (implied & lo & hi & conf & _ & _ & _ & _ & ->).
  rewrite emit_eq.
  eexists _, _, _. split; [reflexivity |]. split; [reflexivity |].
  match goal with
  | |- context [apply_guardrail ?cs b ?st] =>
      destruct (final_confidence_bounds cs b st conf eq_refl) as [H0 H1]
  end.
  repeat split; try assumption.
  unfold Py.is_nan. intros Hlo Hhi.
  apply negb_false_iff in Hlo, Hhi.
  apply leb_total; try assumption.
  unfold _round. apply round_mono. apply order_range_sorted.
Qed.


(** Reading an emitted payload back. *)
Lemma str_nonempty (v : value) : Py.truthy v = true -> Py.str v <> EmptyString.
Proof.
  destruct v; simpl; try discriminate.
  - destruct b; [discriminate | congruence].
  - intros _. apply string_of_Z_nonempty.
  - intros _. apply repr_nonempty.
  - destruct s; [discriminate | intros _; discriminate].
  - destruct items as [| x [|]]; simpl; discriminate.
Qed.

Lemma truthy_str (v : value) :
  Py.truthy v = true -> Py.truthy (Py.VStr (Py.str v)) = true.
Proof.
  intros H. apply str_nonempty in H. simpl.
  destruct (Py.str v); [congruence | reflexivity].
Qed.

Lemma clean_citation_fixed (item : value) (c : dict) :
  clean_citation item = Some c -> clean_citation (Py.VDict c) = Some c.
Proof.
  unfold clean_citation at 1. destruct item; try discriminate.
  destruct (Py.get entries "source_id"); try discriminate.
  destruct (prefix "chunk:" s) eqn:Hp; [| discriminate].
  intros H. injection H as <-.
  destruct (Py.truthy (Py.get entries "name")) eqn:Hn,
           (Py.truthy (Py.get entries "ticker")) eqn:Ht;
    unfold clean_citation; read_keys; rewrite Hp; read_keys;
    rewrite ?(truthy_str _ Hn), ?(truthy_str _ Ht); reflexivity.
Qed.

Lemma clean_citations_fixed (items : list value) :
  clean_citations (map Py.VDict (clean_citations items)) = clean_citations items.
Proof.
  induction items as [| item rest IH]; [reflexivity |].
  cbn [clean_citations]. destruct (clean_citation item) eqn:E; [| exact IH].
  cbn [map clean_citations]. rewrite (clean_citation_fixed _ _ E). now rewrite IH.
Qed.

Lemma risk_entries_strings (l : list string) :
  risk_entries (map (Py.VStr (F:=F)) l) = l.
Proof. induction l as [| x l IH]; simpl; [reflexivity | now rewrite IH]. Qed.

Lemma reread_comps (c re : string) (payload : dict) (st : locals) :
  surviving_comps (emit c re (surviving_comps payload) st) = surviving_comps payload.
Proof.
  rewrite emit_eq. unfold surviving_comps at 1. read_keys.
  unfold Py.or_else. cbn [Py.truthy].
  unfold surviving_comps.
  destruct (Py.or_else (Py.get payload "comps_used") (Py.VList [])) as [| | | | | items | |];
    try reflexivity.
  pose proof (clean_citations_fixed items) as G.
  destruct (clean_citations items); [reflexivity | exact G].
Qed.

Lemma reread_risks (c re : string) (comps : list dict) (st : locals) :
  collect_risks (emit c re comps st) = fromkeys (l_risks st).
Proof.
  rewrite emit_eq. unfold collect_risks. read_keys.
  unfold Py.or_else. cbn [Py.truthy].
  pose proof (risk_entries_strings (fromkeys (l_risks st))) as G.
  destruct (fromkeys (l_risks st)); [reflexivity | exact G].
Qed.

Lemma reread_conclusion (c re : string) (comps : list dict) (st : locals) :
  conclusion_of (emit c re comps st) = c.
Proof. rewrite emit_eq. reflexivity. Qed.

Lemma reread_reasoning (c re : string) (comps : list dict) (st : locals) :
  reasoning_of (emit c re comps st) = re.
Proof. rewrite emit_eq. reflexivity. Qed.

Lemma guardrail_flag_mem (b : F) (st : locals) :
  mem no_citable_evidence (fromkeys (l_risks (guardrail b st))) = true.
Proof. apply mem_In. apply (proj2 (fromkeys_In _ _)). apply guardrail_flag. Qed.

(** C5.  The sanitizer is idempotent: a payload it has returned is
    returned unchanged when sanitized again with the same
    [baseline_multiple], [retrieval_required] and [retrieval_hits].  The
    two results are the same value, field by field; a NaN field is a NaN
    again. *)
Theorem sanitize_idempotent (payload : dict) (b : F) (retrieval_required : bool)
    (retrieval_hits : Z) (r : dict) :
  sanitize_analysis_payload payload b retrieval_required retrieval_hits = Ok r ->
  sanitize_analysis_payload r b retrieval_required retrieval_hits = Ok r.
Proof.
  intros H. apply sanitize_inv in H as (implied & lo & hi & conf & _ & _ & Hh & _ & ->).
  match goal with |- context [apply_guardrail _ b ?s] => set (st0 := s) end.
  set (comps := surviving_comps payload) in *.
  set (st := apply_guardrail comps b st0).
  set (r := emit (conclusion_of payload) (reasoning_of payload) comps st).
  assert (Hc : surviving_comps r = comps) by apply reread_comps.
  rewrite (sanitize_intro r b retrieval_required retrieval_hits
             (_round (l_implied st))
             (_round (fst (order_range (l_lo st) (l_hi st))))
             (_round (snd (order_range (l_lo st) (l_hi st))))
             (l_confidence st)).
  - f_equal. rewrite Hc.
    unfold r at 1 2. rewrite reread_conclusion, reread_reasoning.
    unfold r at 1. rewrite reread_risks.
    unfold r. rewrite !emit_eq.
    destruct comps as [| c0 cs] eqn:Ec.
    + (* the guardrail ran both times *)
      subst st. cbn [apply_guardrail]. clear Hc. subst r.
      set (st := guardrail b st0).
      assert (Hm : mem no_citable_evidence (fromkeys (l_risks st)) = true)
        by apply guardrail_flag_mem.
      assert (Hcf : Py.min (clamp_confidence (l_confidence st)) half = l_confidence st)
        by apply (capped_idempotent conf).
      assert (Hlo : l_lo st = Py.max Py.f_zero (f_sub b half)) by reflexivity.
      assert (Hhi : l_hi st = f_add b half) by reflexivity.
      assert (Him : l_implied st = b) by reflexivity.
      clearbody st.
      cbn [guardrail l_lo l_hi l_implied l_confidence l_risks].
      rewrite Hm, Hcf, Hlo, Hhi, Him.
      now rewrite fromkeys_idempotent.
    + (* the payload's own numbers, already ordered and rounded *)
      subst st. cbn [apply_guardrail l_lo l_hi l_implied l_confidence l_risks].
      rewrite order_range_rounded. cbn [fst snd].
      unfold _round. rewrite !round_idem.
      change (l_confidence st0) with (clamp_confidence conf).
      rewrite clamp_idempotent.
      now rewrite fromkeys_idempotent.
  - unfold r. rewrite emit_eq. reflexivity.
  - unfold r. rewrite emit_eq. reflexivity.
  - rewrite Hc. exact Hh.
  - unfold r. rewrite emit_eq. reflexivity.
Qed.

(** C2, as amended.  When no citation survives, the hard-failure condition
    does not hold and every converted number fits a float, the sanitizer
    returns: the baseline rounded to 6 places as [implied_multiple]; the
    pair [max(0, b - 0.5)], [b + 0.5] in ascending order and rounded to 6
    places as [range]; a confidence of at most 0.5; no citations; and risk
    flags that contain [no_citable_evidence]. *)
Theorem guardrail_values (payload : dict) (b : F) (retrieval_required : bool)
    (retrieval_hits : Z) :
  surviving_comps payload = [] ->
  retrieval_required = false \/ retrieval_hits <= 0 ->
  numbers_fit payload = true ->
  exists (r : dict) (c : F) (flags : list string),
    sanitize_analysis_payload payload b retrieval_required retrieval_hits = Ok r
    /\ Py.get r "implied_multiple" = Py.VFloat (_round b)
    /\ Py.get r "range"
       = (let (lo, hi) :=
            order_range (Py.max Py.f_zero (f_sub b half)) (f_add b half) in
          Py.VList [Py.VFloat (_round lo); Py.VFloat (_round hi)])
    /\ Py.get r "confidence" = Py.VFloat c
    /\ f_leb c half = true
    /\ Py.get r "comps_used" = Py.VList []
    /\ Py.get r "risk_flags" = Py.VList (map Py.VStr flags)
    /\ In no_citable_evidence flags.
Proof.
  intros Hs Hcond Hfit.
  destruct (sanitize_outcome payload b retrieval_required retrieval_hits Hfit)
    as [[Hh _] | [_ [r [Hr _]]]].
  - exfalso. unfold hard_failure in Hh. rewrite Hs in Hh.
    destruct Hcond as [-> | Hle]; [discriminate |].
    destruct retrieval_required; [| discriminate].
    simpl in Hh. rewrite andb_true_r in Hh. apply Z.ltb_lt in Hh. lia.
  - pose proof Hr as Hinv.
    apply sanitize_inv in Hinv as (implied & lo & hi & conf & _ & _ & _ & _ & E).
    rewrite Hs in E. cbn [apply_guardrail] in E.
    exists r. eexists. eexists. split; [exact Hr |].
    subst r. unfold emit.
    cbn [guardrail l_lo l_hi l_implied l_confidence l_risks].
    destruct (order_range _ _) as [lo' hi'].
    repeat split.
    + exact (proj2 (proj2 (capped_bounds conf))).
    + apply (proj2 (fromkeys_In _ _)).
      apply (guardrail_flag b {| l_implied := implied; l_lo := lo; l_hi := hi;
                                 l_confidence := clamp_confidence conf;
                                 l_risks := collect_risks payload |}).
Qed.

End WithLaws.
End SanitizerTheorems.

(** ** The consultant and the analyzer *)

Lemma prefix_spec (t s : string) :
  prefix t s = true <-> exists rest, s = t ++ rest.
Proof.
  revert s. induction t as [| a t IH]; intros s.
  - split; [intros _; exists s; reflexivity | destruct s; reflexivity].
  - destruct s as [| b s].
    + split; [discriminate | intros [rest H]; discriminate].
    + cbn [prefix]. destruct (ascii_dec a b) as [-> | Hne].
      * rewrite IH. split; intros [rest H]; exists rest; simpl in *; congruence.
      * split; [discriminate | intros [rest H]; simpl in H; congruence].
Qed.

Lemma contains_spec (t s : string) : contains t s = true <-> occurs_in t s.
Proof.
  unfold occurs_in. induction s as [| c s IH].
  - cbn [contains]. rewrite orb_false_r, prefix_spec. split.
    + intros [rest H]. exists EmptyString, rest. exact H.
    + intros [before [after H]]. destruct before; [eauto | discriminate].
  - cbn [contains]. rewrite orb_true_iff, prefix_spec, IH. split.
    + intros [[rest H] | [before [after H]]].
      * exists EmptyString, rest. exact H.
      * exists (String c before), after. simpl. now rewrite H.
    + intros [before [after H]]. destruct before as [| c' before].
      * left. eauto.
      * right. simpl in H. injection H as _ H. eauto.
Qed.

Module ConsultantTheorems.
Import Consultant.

Section Classifier.
Context {F : Type} {fops : PyFloat F}.
Local Abbreviation value := (Py.value F).
Local Abbreviation dict := (Py.dict F).

Lemma classify_two_labels (question : option string) (deal : dict) (comps : list dict) :
  _classify_request question deal comps = "hard"
  \/ _classify_request question deal comps = "easy".
Proof.
  unfold _classify_request.
  repeat match goal with |- context [if ?c then _ else _] => destruct c end; auto.
Qed.

(** C8, as amended.  The classifier answers [hard] exactly when the
    lower-cased question contains a term of [hard_terms], or the deal's
    price, ebitda or industry is missing or falsy, or the question has more
    than one question mark or more than 40 words; otherwise it answers
    [easy].  ([hard_terms] has no entry [comp].) *)
Theorem classify_hard_iff (question : option string) (deal : dict) (comps : list dict) :
  let text := lower (match question with Some q => q | None => EmptyString end) in
  let hard :=
    (exists term, In term hard_terms /\ occurs_in term text)
    \/ Py.truthy (Py.get deal "price") = false
    \/ Py.truthy (Py.get deal "ebitda") = false
    \/ Py.truthy (Py.get deal "industry") = false
    \/ (1 < count_char question_mark text)%nat
    \/ (40 < List.length (split text))%nat in
  (_classify_request question deal comps = "hard" <-> hard)
  /\ (_classify_request question deal comps = "easy" <-> ~ hard).
Proof.
  intros text hard.
  assert (Hterms : existsb (fun term => contains term text) hard_terms = true
                   <-> exists term, In term hard_terms /\ occurs_in term text).
  { rewrite existsb_exists. split; intros [t [Hin Ht]]; exists t;
      (split; [assumption | now apply contains_spec]). }
  assert (Hhard : _classify_request question deal comps = "hard" <-> hard).
  { unfold _classify_request, hard. fold text.
    destruct (existsb (fun term => contains term text) hard_terms) eqn:E1.
    { split; [intros _; left; now apply Hterms | reflexivity]. }
    assert (N1 : ~ exists term, In term hard_terms /\ occurs_in term text).
    { intros H. apply Hterms in H. congruence. }
    destruct (Py.truthy (Py.get deal "price")) eqn:Ep; cbn [negb orb];
      [| split; [tauto | reflexivity]].
    destruct (Py.truthy (Py.get deal "ebitda")) eqn:Ee; cbn [negb orb];
      [| split; [tauto | reflexivity]].
    destruct (Py.truthy (Py.get deal "industry")) eqn:Ei; cbn [negb orb];
      [| split; [tauto | reflexivity]].
    destruct (1 <? count_char question_mark text)%nat eqn:Eq; cbn [orb].
    { apply Nat.ltb_lt in Eq. split; [tauto | reflexivity]. }
    apply Nat.ltb_ge in Eq.
    destruct (40 <? List.length (split text))%nat eqn:Ew.
    { apply Nat.ltb_lt in Ew. split; [tauto | reflexivity]. }
    apply Nat.ltb_ge in Ew.
    split; [discriminate |].
    intros [H | [H | [H | [H | [H | H]]]]]; try discriminate; try contradiction; lia. }
  split; [exact Hhard |].
  destruct (classify_two_labels question deal comps) as [E | E]; rewrite E in *.
  - split; [discriminate | intros N; exfalso; apply N, Hhard; reflexivity].
  - split; [| reflexivity]. intros _ H. apply Hhard in H. discriminate.
Qed.

(** Scenario D: a deal without price, ebitda or industry is [hard] whatever
    the question. *)
Lemma classify_missing_field (question : option string) (deal : dict)
    (comps : list dict) :
  Py.truthy (Py.get deal "price") = false
  \/ Py.truthy (Py.get deal "ebitda") = false
  \/ Py.truthy (Py.get deal "industry") = false ->
  _classify_request question deal comps = "hard".
Proof.
  intros H. unfold _classify_request.
  destruct (existsb _ hard_terms); [reflexivity |].
  destruct H as [-> | [-> | ->]]; cbn [negb orb]; rewrite ?orb_true_r; reflexivity.
Qed.

End Classifier.

Section Baseline.
Context {F : Type} {fops : PyFloat F} {laws : PyFloatLaws F}.
Local Abbreviation value := (Py.value F).
Local Abbreviation dict := (Py.dict F).

Lemma floored_nonzero (e : F) : f_eqb (floored e) Py.f_zero = false.
Proof.
  unfold floored, Py.f_gtb, epsilon, Py.f_zero.
  destruct (f_ltb (f_lit 1 (-9)) e) eqn:H.
  - apply ltb_neq. exact (ltb_trans _ _ _ zero_lt_epsilon H).
  - apply ltb_neq. exact zero_lt_epsilon.
Qed.

Lemma verdict_fair (m : F) :
  f_leb (f_lit 8 0) m = true -> f_leb m (f_lit 12 0) = true -> verdict_of m = "fair".
Proof. unfold verdict_of. now intros -> ->. Qed.

Lemma verdict_rich (m : F) : f_ltb (f_lit 12 0) m = true -> verdict_of m = "rich".
Proof.
  intros H. unfold verdict_of, Py.f_gtb. rewrite H.
  destruct (f_leb m (f_lit 12 0)) eqn:E.
  - apply leb_not_gt in E. congruence.
  - now rewrite andb_false_r.
Qed.

Lemma verdict_cheap (m : F) :
  f_leb (f_lit 8 0) m && f_leb m (f_lit 12 0) = false ->
  f_ltb (f_lit 12 0) m = false -> verdict_of m = "cheap".
Proof. unfold verdict_of, Py.f_gtb. now intros -> ->. Qed.

(** C7, as amended.  For a deal whose ebitda and price convert to the
    floats [e] and [p], the baseline returns, with [multiple] the quotient of
    [p] by [e] floored to [1e-9]: the verdict [fair] for a multiple in
    [[8, 12]], [rich] above 12 and [cheap] otherwise; the multiple rounded to
    2 places; the range [(max(round(multiple - 1, 2), 0), round(multiple + 1, 2))],
    whose lower bound is clamped at zero; the confidence 0.5; and the comps'
    names.  The division never fails. *)
Theorem heuristic_baseline_values (deal : dict) (comps : list dict) (e p : F) :
  Py.to_float (Py.or_else (Py.get deal "ebitda") (Py.VFloat Py.f_zero)) = Ok e ->
  Py.to_float (Py.or_else (Py.get deal "price") (Py.VFloat Py.f_zero)) = Ok p ->
  let multiple := f_div p (if f_ltb (f_lit 1 (-9)) e then e else f_lit 1 (-9)) in
  exists (r : dict) (verdict : string),
    _heuristic_baseline deal comps = Ok r
    /\ Py.get r "conclusion" = Py.VStr verdict
    /\ (f_leb (f_lit 8 0) multiple = true -> f_leb multiple (f_lit 12 0) = true ->
        verdict = "fair")
    /\ (f_ltb (f_lit 12 0) multiple = true -> verdict = "rich")
    /\ (f_leb (f_lit 8 0) multiple && f_leb multiple (f_lit 12 0) = false ->
        f_ltb (f_lit 12 0) multiple = false -> verdict = "cheap")
    /\ Py.get r "implied_multiple" = Py.VFloat (f_round multiple 2)
    /\ Py.get r "range"
       = Py.VTuple
           [ Py.VFloat (Py.max (f_round (f_sub multiple (f_lit 1 0)) 2) (f_lit 0 0));
             Py.VFloat (f_round (f_add multiple (f_lit 1 0)) 2) ]
    /\ Py.get r "confidence" = Py.VFloat (f_lit 5 (-1))
    /\ Py.get r "comps_used" = Py.VList (comp_names comps).
Proof.
  intros He Hp multiple.
  unfold _heuristic_baseline. rewrite He, Hp. cbn [bind].
  unfold Py.div. rewrite floored_nonzero. cbn [bind].
  change (f_div p (floored e)) with multiple.
  eexists _, _. split; [reflexivity |].
  split; [reflexivity |].
  split; [apply verdict_fair |].
  split; [apply verdict_rich |].
  split; [apply verdict_cheap |].
  repeat split.
Qed.

End Baseline.

Section Coercion.
Context {F : Type} {fops : PyFloat F}.
Local Abbreviation value := (Py.value F).
Local Abbreviation dict := (Py.dict F).

(** [float(v)] inside [try ... except (TypeError, ValueError)], with the
    handler's value [fallback]. *)
Lemma try_float (v fallback : value) :
  Validation.fits v = true ->
  try_conversion (f <- Py.to_float v ;; Ok (Py.VFloat f)) (Ok fallback)
  = Ok (match Py.to_float v with Ok f => Py.VFloat f | Raise _ => fallback end).
Proof.
  destruct v; simpl; try reflexivity.
  - destruct (f_of_Z z); [reflexivity | discriminate].
  - destruct (f_of_string s); reflexivity.
Qed.

Lemma unpack2_exn (v : value) (e : exn) :
  Py.unpack2 v = Raise e -> e = TypeError \/ exists msg, e = ValueError msg.
Proof.
  unfold Py.unpack2.
  destruct (Py.to_list v) as [items | e'] eqn:E; simpl.
  - destruct items as [| a [| b [|]]]; intros H; try discriminate;
      injection H as <-; eauto.
  - intros H. injection H as <-. destruct v; simpl in E; try discriminate;
      injection E as <-; auto.
Qed.

Lemma try_range (range_raw fallback : value) :
  (forall lo hi, Py.unpack2 range_raw = Ok (lo, hi) ->
                 Validation.fits lo = true /\ Validation.fits hi = true) ->
  try_conversion
    (' (lo, hi) <- Py.unpack2 range_raw ;;
     lo_f <- Py.to_float lo ;;
     hi_f <- Py.to_float hi ;;
     Ok (Py.VTuple [Py.VFloat lo_f; Py.VFloat hi_f]))
    (Ok fallback)
  = Ok (match Py.unpack2 range_raw with
        | Ok (lo, hi) =>
            match Py.to_float lo, Py.to_float hi with
            | Ok lo_f, Ok hi_f => Py.VTuple [Py.VFloat lo_f; Py.VFloat hi_f]
            | _, _ => fallback
            end
        | Raise _ => fallback
        end).
Proof.
  intros Hfit.
  destruct (Py.unpack2 range_raw) as [[lo hi] | e] eqn:E; cbn [bind].
  - destruct (Hfit lo hi eq_refl) as [Hlo Hhi].
    destruct lo; simpl in *; try reflexivity;
      try (destruct (f_of_Z z); [| discriminate]);
      try (destruct (f_of_string s); [| reflexivity]);
      try (destruct b);
      cbn [bind];
      destruct hi; simpl in *; try reflexivity;
      try (destruct (f_of_Z _); [reflexivity | discriminate]);
      try (destruct (f_of_string _); reflexivity);
      try (destruct b; reflexivity); try (destruct b0; reflexivity).
  - destruct (unpack2_exn _ _ E) as [-> | [msg ->]]; reflexivity.
Qed.

Lemma index_lookup (d : dict) (k : string) (v : value) :
  Py.lookup d k = Some v -> Py.index d k = Ok v.
Proof. unfold Py.index. now intros ->. Qed.

(** C9, as amended.  Text that is no JSON gives the seed back.  For a JSON
    object [d] (the seed holding its keys, no converted value too large for
    a float): [implied_multiple] and [confidence] are the converted values,
    or the seed's when the conversion raises; [range] is the pair of
    converted bounds when the value unpacks into two convertible items, and
    the seed's otherwise; [risk_flags] is the object's own value, or the
    seed's when the key is absent; [comps_used] is the object's own value,
    or the names of the retrieved comps when the key is absent. *)
Theorem coerce_response_fields (seed : dict) (comps : list dict) :
  _coerce_response None seed comps = Ok seed
  /\ forall (d : dict)
       (s_conclusion s_implied s_range s_reasoning s_risks s_confidence : value),
       Py.lookup seed "conclusion" = Some s_conclusion ->
       Py.lookup seed "implied_multiple" = Some s_implied ->
       Py.lookup seed "range" = Some s_range ->
       Py.lookup seed "reasoning" = Some s_reasoning ->
       Py.lookup seed "risk_flags" = Some s_risks ->
       Py.lookup seed "confidence" = Some s_confidence ->
       let v_implied := Py.get_or d "implied_multiple" s_implied in
       let v_range := Py.get_or d "range" s_range in
       let v_confidence := Py.get_or d "confidence" s_confidence in
       Validation.fits v_implied = true ->
       Validation.fits v_confidence = true ->
       (forall lo hi, Py.unpack2 v_range = Ok (lo, hi) ->
                      Validation.fits lo = true /\ Validation.fits hi = true) ->
       exists r : dict,
         _coerce_response (Some (Py.VDict d)) seed comps = Ok r
         /\ (forall f, Py.to_float v_implied = Ok f ->
                       Py.get r "implied_multiple" = Py.VFloat f)
         /\ (raises (Py.to_float v_implied) -> Py.get r "implied_multiple" = s_implied)
         /\ (forall f, Py.to_float v_confidence = Ok f ->
                       Py.get r "confidence" = Py.VFloat f)
         /\ (raises (Py.to_float v_confidence) -> Py.get r "confidence" = s_confidence)
         /\ (forall lo hi lo_f hi_f,
               Py.unpack2 v_range = Ok (lo, hi) ->
               Py.to_float lo = Ok lo_f -> Py.to_float hi = Ok hi_f ->
               Py.get r "range" = Py.VTuple [Py.VFloat lo_f; Py.VFloat hi_f])
         /\ (raises (Py.unpack2 v_range) -> Py.get r "range" = s_range)
         /\ (forall lo hi,
               Py.unpack2 v_range = Ok (lo, hi) ->
               raises (Py.to_float lo) \/ raises (Py.to_float hi) ->
               Py.get r "range" = s_range)
         /\ Py.get r "comps_used" = Py.get_or d "comps_used" (Py.VList (comp_names comps))
         /\ Py.get r "risk_flags" = Py.get_or d "risk_flags" s_risks
         /\ Py.get r "conclusion" = Py.get_or d "conclusion" s_conclusion
         /\ Py.get r "reasoning" = Py.get_or d "reasoning" s_reasoning.
Proof.
  split; [reflexivity |].
  intros d sc si sr sre srk scf Hc Hi Hr Hre Hrk Hcf vi vr vc Fi Fc Fr.
  unfold _coerce_response, parsed_get.
  rewrite (index_lookup _ _ _ Hc), (index_lookup _ _ _ Hi), (index_lookup _ _ _ Hr),
    (index_lookup _ _ _ Hre), (index_lookup _ _ _ Hrk), (index_lookup _ _ _ Hcf).
  cbn [bind]. fold vi vr vc.
  rewrite (try_float vi si Fi). cbn [bind].
  rewrite (try_range vr sr Fr). cbn [bind].
  rewrite (try_float vc scf Fc). cbn [bind].
  eexists. split; [reflexivity |].
  read_keys.
  repeat split.
  - intros f ->. reflexivity.
  - intros [e ->]. reflexivity.
  - intros f ->. reflexivity.
  - intros [e ->]. reflexivity.
  - intros lo hi lo_f hi_f -> -> ->. reflexivity.
  - intros [e ->]. reflexivity.
  - intros lo hi -> [[e ->] | [e ->]]; [reflexivity |].
    destruct (Py.to_float lo); reflexivity.
Qed.

End Coercion.
End ConsultantTheorems.

Module RecoveryFacts.
Import Analyzer.

Section Recovery.
Context {F : Type} {fops : PyFloat F}.
Local Abbreviation value := (Py.value F).
Local Abbreviation dict := (Py.dict F).

Lemma lookup_set_same (d : dict) (k : string) (v : value) :
  Py.lookup (Py.set d k v) k = Some v.
Proof.
  induction d as [| [k' v'] d IH]; simpl.
  - now rewrite String.eqb_refl.
  - destruct (String.eqb k k') eqn:E; simpl.
    + now rewrite String.eqb_refl.
    + now rewrite E.
Qed.

Lemma lookup_set_other (d : dict) (k k' : string) (v : value) :
  k <> k' -> Py.lookup (Py.set d k v) k' = Py.lookup d k'.
Proof.
  intros Hne. induction d as [| [k0 v0] d IH]; simpl.
  - destruct (String.eqb k' k) eqn:E; [| reflexivity].
    apply String.eqb_eq in E. congruence.
  - destruct (String.eqb k k0) eqn:E; simpl.
    + apply String.eqb_eq in E. subst k0.
      destruct (String.eqb k' k) eqn:E'; [| reflexivity].
      apply String.eqb_eq in E'. congruence.
    + now rewrite IH.
Qed.



(** Without a usable chunk id the sanitizer's failure reaches the caller. *)
Lemma analyze_core_propagates (price ebitda b : F) (question : option string)
    (comps : list dict) (raw_output : dict) (msg : string) :
  (if Py.f_gtb ebitda Py.f_zero then Py.div price ebitda else Ok Py.f_zero) = Ok b ->
  Validation.sanitize_analysis_payload raw_output b
    (retrieval_required_flag question comps) (Z.of_nat (List.length comps))
  = Raise (ValueError msg) ->
  _fallback_citations comps 3 = Ok [] ->
  analyze_core price ebitda question comps raw_output = Raise (ValueError msg).
Proof.
  intros Hb Hs Hf. unfold analyze_core. rewrite Hb. cbn [bind].
  rewrite Hs, Hf. reflexivity.
Qed.









End Recovery.
End RecoveryFacts.

Module AnalyzerTheorems.
Import Analyzer.

Section Flag.
Context {F : Type} {fops : PyFloat F}.
Local Abbreviation value := (Py.value F).
Local Abbreviation dict := (Py.dict F).

(** C10.  With the flag and the hit count that [analyze_core] passes, the
    sanitizer's hard-failure guard is the test "hits and no surviving
    citation", the one [enforce_evidence_rule] makes: the lexicon part of
    [retrieval_required] never decides. *)
Theorem retrieval_flag_redundant (question : option string) (comps : list dict)
    (surviving : list dict) (analysis : Schemas.AnalysisV1 F) :
  let retrieval_hits := Z.of_nat (List.length comps) in
  let retrieval_required := retrieval_required_flag question comps in
  Validation.hard_failure retrieval_required retrieval_hits surviving
  = ((0 <? retrieval_hits) && match surviving with [] => true | _ => false end)
  /\ (List.length (Schemas.comps_used analysis) = List.length surviving ->
      (Validation.hard_failure retrieval_required retrieval_hits surviving = true
       <-> raises (Enforce.enforce_evidence_rule analysis retrieval_hits))).
Proof.
  intros hits required.
  assert (E : Validation.hard_failure required hits surviving
              = ((0 <? hits) && match surviving with [] => true | _ => false end)).
  { unfold Validation.hard_failure, required, retrieval_required_flag. fold hits.
    destruct (0 <? hits) eqn:H0.
    - apply Z.ltb_lt in H0.
      assert ((hits =? 0) = false) as -> by (apply Z.eqb_neq; lia).
      now rewrite orb_true_r.
    - now rewrite andb_false_r. }
  split; [exact E |].
  intros Hlen. rewrite E. unfold Enforce.enforce_evidence_rule. rewrite Hlen.
  destruct (0 <? hits); cbn [andb].
  - destruct surviving; cbn [List.length Nat.eqb].
    + split; [intros _; eexists; reflexivity | reflexivity].
    + split; [discriminate | intros [e H]; discriminate].
  - split; [discriminate | intros [e H]; discriminate].
Qed.

End Flag.
End AnalyzerTheorems.

(** ** The exact instance satisfies the laws *)

Module ExactLaws.
Import Exact.

Lemma Qcompare_refl_eq (a : Q) : Qcompare a a = Eq.
Proof. apply Qeq_alt. reflexivity. Qed.

Lemma Qcompare_flip (a b : Q) : Qcompare b a = CompOpp (Qcompare a b).
Proof. symmetry. apply Qcompare_antisym. Qed.

Lemma cmp_flip (x y : xfloat) :
  cmp y x = option_map CompOpp (cmp x y).
Proof.
  destruct x, y; simpl; try reflexivity.
  now rewrite Qcompare_flip.
Qed.

Lemma cmp_refl (x : xfloat) : x <> NaN -> cmp x x = Some Eq.
Proof.
  destruct x; simpl; intros H; try congruence.
  now rewrite Qcompare_refl_eq.
Qed.

Lemma cmp_defined_l (x y : xfloat) c : cmp x y = Some c -> x <> NaN.
Proof. destruct x, y; simpl; congruence. Qed.

Lemma cmp_defined_r (x y : xfloat) c : cmp x y = Some c -> y <> NaN.
Proof. destruct x, y; simpl; congruence. Qed.

Lemma ltb_cmp (x y : xfloat) : ltb x y = true <-> cmp x y = Some Lt.
Proof.
  unfold ltb. destruct (cmp x y) as [[]|]; split; congruence.
Qed.

Lemma eqb_self (x : xfloat) : eqb x x = true <-> x <> NaN.
Proof.
  unfold eqb. split.
  - destruct x; simpl; congruence.
  - intros H. now rewrite cmp_refl.
Qed.

Lemma cmp_lt_trans (x y z : xfloat) :
  cmp x y = Some Lt -> cmp y z = Some Lt -> cmp x z = Some Lt.
Proof.
  destruct x, y, z; simpl; try congruence.
  intros H1 H2. f_equal.
  injection H1 as H1. injection H2 as H2.
  apply Qlt_alt in H1. apply Qlt_alt in H2. apply Qlt_alt.
  eapply Qlt_trans; eassumption.
Qed.

(** Rounding to an integer is monotone and fixes the integers. *)
Lemma round_half_even_bounds (t : Q) :
  round_half_even t = Qfloor t \/ round_half_even t = Qfloor t + 1.
Proof.
  unfold round_half_even.
  destruct (Qcompare _ _); [destruct (Z.even _)| |]; auto.
Qed.

Lemma round_half_even_mono (t1 t2 : Q) :
  Qle t1 t2 -> round_half_even t1 <= round_half_even t2.
Proof.
  intros Hle.
  pose proof (Qfloor_resp_le _ _ Hle) as Hf.
  destruct (Z.eq_dec (Qfloor t1) (Qfloor t2)) as [Heq | Hne].
  - unfold round_half_even. rewrite Heq.
    destruct (Qcompare_spec (Qminus t1 (inject_Z (Qfloor t2))) (1 # 2)) as [E1|L1|G1];
    destruct (Qcompare_spec (Qminus t2 (inject_Z (Qfloor t2))) (1 # 2)) as [E2|L2|G2];
    try destruct (Z.even (Qfloor t2)); try lia; exfalso; lra.
  - destruct (round_half_even_bounds t1) as [-> | ->];
    destruct (round_half_even_bounds t2) as [-> | ->]; lia.
Qed.

Lemma round_half_even_comp (t1 t2 : Q) :
  Qeq t1 t2 -> round_half_even t1 = round_half_even t2.
Proof.
  intros H. apply Z.le_antisymm; apply round_half_even_mono; rewrite H; apply Qle_refl.
Qed.

Lemma round_half_even_Z (k : Z) : round_half_even (inject_Z k) = k.
Proof.
  unfold round_half_even. rewrite Qfloor_Z.
  destruct (Qcompare_spec (Qminus (inject_Z k) (inject_Z k)) (1 # 2)) as [E|L|G];
    try reflexivity; exfalso; lra.
Qed.

Lemma scale_pos (n : nat) : Qlt 0 (scale n).
Proof.
  unfold scale. replace 0%Q with (inject_Z 0) by reflexivity.
  rewrite <- Zlt_Qlt. apply Z.pow_pos_nonneg; lia.
Qed.


Lemma round_fin (q : Q) (n : nat) :
  round (Fin q) n
  = of_Q (Qdiv (inject_Z (round_half_even (Qmult q (scale n)))) (scale n)).
Proof. reflexivity. Qed.

Lemma round_scaled (k : Z) (n : nat) :
  round (of_Q (Qdiv (inject_Z k) (scale n))) n = of_Q (Qdiv (inject_Z k) (scale n)).
Proof.
  unfold of_Q at 1. rewrite round_fin. do 3 f_equal.
  rewrite <- (round_half_even_Z k) at 2.
  apply round_half_even_comp.
  rewrite Qred_correct. field.
  pose proof (scale_pos n). lra.
Qed.

Lemma round_idempotent (x : xfloat) (n : nat) : round (round x n) n = round x n.
Proof.
  destruct x; try reflexivity.
  rewrite round_fin. apply round_scaled.
Qed.

Lemma cmp_of_Q (a b : Q) : cmp (of_Q a) (of_Q b) = Some (Qcompare a b).
Proof.
  unfold of_Q. simpl. f_equal.
  now rewrite !Qred_correct.
Qed.

Lemma round_monotone (x y : xfloat) (n : nat) :
  ltb y x = false -> ltb (round y n) (round x n) = false.
Proof.
  destruct x as [| | |a], y as [| | |b]; try (intros; reflexivity);
    try (unfold ltb; simpl; congruence).
  intros H. unfold ltb in H. simpl in H.
  assert (Hle : Qle a b).
  { destruct (Qcompare_spec b a) as [E|L|G]; try discriminate;
      [rewrite E; apply Qle_refl | now apply Qlt_le_weak]. }
  unfold ltb. rewrite !round_fin, cmp_of_Q.
  pose proof (scale_pos n) as Hs.
  assert (Hk : round_half_even (Qmult a (scale n)) <= round_half_even (Qmult b (scale n))).
  { apply round_half_even_mono. apply Qmult_le_compat_r; [assumption | now apply Qlt_le_weak]. }
  destruct (Qcompare_spec (Qdiv (inject_Z (round_half_even (Qmult b (scale n)))) (scale n))
                          (Qdiv (inject_Z (round_half_even (Qmult a (scale n)))) (scale n)))
    as [E|L|G]; try reflexivity.
  exfalso. rewrite Zle_Qle in Hk.
  apply (Qmult_lt_r _ _ (scale n)) in L; [| assumption].
  unfold Qdiv in L.
  rewrite <- !Qmult_assoc, !(Qmult_comm (Qinv (scale n))), !Qmult_inv_r in L by lra.
  lra.
Qed.

Lemma repr_not_empty (x : xfloat) : repr x <> EmptyString.
Proof.
  destruct x; cbn [repr]; try discriminate.
  destruct (negative q); cbn [String.append]; [discriminate |].
  pose proof (string_of_Z_nonempty (Z.abs (Qnum q) / Z.pos (Qden q))) as H.
  destruct (string_of_Z _); [congruence | discriminate].
Qed.

#[export] Instance laws : PyFloatLaws xfloat.
Proof.
  constructor; cbn [f_ltb f_leb f_eqb f_lit f_round f_repr ops].
  - intros x. unfold ltb. destruct x; simpl; try reflexivity.
    now rewrite Qcompare_refl_eq.
  - intros x y H. apply ltb_cmp in H. unfold ltb.
    rewrite cmp_flip, H. reflexivity.
  - intros x y z H1 H2. apply ltb_cmp in H1, H2. apply ltb_cmp.
    eapply cmp_lt_trans; eassumption.
  - intros x y H. apply ltb_cmp in H. unfold leb. now rewrite H.
  - intros x y H. apply ltb_cmp in H. unfold eqb. rewrite cmp_flip, H. reflexivity.
  - intros x y H. apply ltb_cmp in H. split; apply eqb_self.
    + eapply cmp_defined_l; eassumption.
    + eapply cmp_defined_r; eassumption.
  - intros x y Hx Hy H. unfold ltb in H. unfold leb.
    rewrite cmp_flip in H.
    apply eqb_self in Hx. apply eqb_self in Hy.
    destruct x, y; simpl in *; try congruence.
    destruct (Qcompare q q0); simpl in *; congruence.
  - intros x y H. unfold leb in H. unfold ltb. rewrite cmp_flip.
    destruct (cmp x y) as [[]|]; simpl; congruence.
  - reflexivity.
  - reflexivity.
  - reflexivity.
  - apply round_monotone.
  - apply round_idempotent.
  - apply repr_not_empty.
Qed.

End ExactLaws.

(** ** Concrete calls: witnesses and counterexamples *)

Module Concrete.
Import Py Exact ExactLaws Scenarios.

(** Scenario B: Scenario A's payload with [retrieval_required] and two hits
    raises the deliberate failure. *)
Example scenario_B_raises :
  Validation.sanitize_analysis_payload scenario_A (lit 6 0) true 2
  = Raise (ValueError "retrieval_hits_without_citations").
Proof. reflexivity. Qed.

(** The parser of the exact floats on a few texts. *)
Example of_string_samples :
  map of_string ["nan"; "-Inf"; " 1.5 "; "+7.25E-2"; "1e"; "abc"]
  = [Some NaN; Some NegInf; Some (lit 15 (-1)); Some (lit 725 (-4)); None; None].
Proof. reflexivity. Qed.

(** C1, where the code departs from it.  The hard-failure condition does
    not hold ([retrieval_required] is false, [retrieval_hits] is 0), yet the
    call raises: [float(2**1024)] is an [OverflowError], which [_as_float]
    does not catch.  [SanitizerFacts.sanitize_outcome] is the claim for
    payloads whose numbers fit. *)
Theorem sanitize_oversized_int_raises :
  Validation.hard_failure false 0 (Validation.surviving_comps oversized) = false
  /\ Validation.sanitize_analysis_payload oversized (lit 6 0) false 0
     = Raise OverflowError.
Proof. split; vm_compute; reflexivity. Qed.

(** C2 as stated fails for a negative baseline: the clamped low bound 0 and
    the high bound -0.5 are swapped by the ordering step. *)
Lemma guardrail_negative_baseline :
  exists r : dict xfloat,
    Validation.sanitize_analysis_payload [] (lit (-1) 0) false 0 = Ok r
    /\ get r "range" = VList [num (-5) (-1); num 0 0]
    /\ get r "range"
       <> VList [ VFloat (Validation._round (max f_zero (f_sub (lit (-1) 0) Validation.half)));
                  VFloat (Validation._round (f_add (lit (-1) 0) Validation.half)) ].
Proof.
  eexists. split; [vm_compute; reflexivity |].
  split; [reflexivity |]. vm_compute. discriminate.
Qed.

(** C2 on Scenario A: [implied_multiple] 6.0, [range] [[5.5, 6.5]],
    confidence at most 0.5, no citations, the flag present. *)
Lemma guardrail_values_scenario_A :
  (Validation.surviving_comps scenario_A = []
   /\ (false = false \/ 0 <= 0)
   /\ Validation.numbers_fit scenario_A = true)
  /\ exists (r : dict xfloat) (c : xfloat) (flags : list string),
       Validation.sanitize_analysis_payload scenario_A (lit 6 0) false 0 = Ok r
       /\ get r "implied_multiple" = num 6 0
       /\ get r "range" = VList [num 55 (-1); num 65 (-1)]
       /\ get r "confidence" = VFloat c
       /\ f_leb c (lit 5 (-1)) = true
       /\ get r "comps_used" = VList []
       /\ get r "risk_flags" = VList (map VStr flags)
       /\ In Validation.no_citable_evidence flags.
Proof.
  split; [repeat split; lia || reflexivity |].
  exact (SanitizerTheorems.guardrail_values (F:=xfloat) scenario_A (lit 6 0) false 0
           eq_refl (or_introl eq_refl) eq_refl).
Defined.


(** C3 as stated fails when a range bound reads as NaN. *)
Lemma range_nan_not_ordered :
  exists (r : dict xfloat) (lo hi : xfloat),
    Validation.sanitize_analysis_payload nan_range (lit 6 0) true 1 = Ok r
    /\ get r "range" = VList [VFloat lo; VFloat hi]
    /\ f_leb lo hi = false.
Proof.
  eexists _, _, _. split; [vm_compute; reflexivity |].
  split; reflexivity.
Qed.

(** C3 on Scenario C. *)
Lemma sanitize_bounds_scenario_C :
  Validation.sanitize_analysis_payload scenario_C (lit 6 0) true 2 = Ok sanitized_C
  /\ exists lo hi c : xfloat,
       get sanitized_C "range" = VList [VFloat lo; VFloat hi]
       /\ get sanitized_C "confidence" = VFloat c
       /\ f_leb f_zero c = true
       /\ f_leb c f_one = true
       /\ (is_nan lo = false -> is_nan hi = false -> f_leb lo hi = true).
Proof.
  split; [vm_compute; reflexivity |].
  exact (SanitizerTheorems.sanitize_bounds (F:=xfloat) scenario_C (lit 6 0) true 2
           sanitized_C eq_refl).
Defined.

(** C4 as stated fails when the payload brings the flag next to a valid
    citation: both are kept. *)
Lemma flag_with_citations :
  exists (r : dict xfloat) (comps : list (value xfloat)),
    Validation.sanitize_analysis_payload flagged_with_citation (lit 6 0) true 1 = Ok r
    /\ get r "comps_used" = VList comps
    /\ comps <> []
    /\ get r "risk_flags" = VList [VStr "no_citable_evidence"].
Proof.
  eexists _, _. split; [vm_compute; reflexivity |].
  split; [reflexivity |]. split; [discriminate | reflexivity].
Qed.

(** C4 on Scenario A. *)
Lemma sanitize_flag_scenario_A :
  Validation.sanitize_analysis_payload scenario_A (lit 6 0) false 0 = Ok sanitized_A
  /\ exists (comps : list (dict xfloat)) (flags : list string),
       get sanitized_A "comps_used" = VList (map VDict comps)
       /\ get sanitized_A "risk_flags" = VList (map VStr flags)
       /\ (comps = [] -> In Validation.no_citable_evidence flags)
       /\ (In Validation.no_citable_evidence flags ->
           comps = []
           \/ In Validation.no_citable_evidence (Validation.collect_risks scenario_A))
       /\ (In Validation.no_citable_evidence flags ->
           count_occ string_dec flags Validation.no_citable_evidence = 1%nat).
Proof.
  split; [vm_compute; reflexivity |].
  exact (SanitizerTheorems.sanitize_flag_iff (F:=xfloat) scenario_A (lit 6 0) false 0
           sanitized_A eq_refl).
Defined.

(** C5 on Scenario C. *)
Lemma sanitize_idempotent_scenario_C :
  Validation.sanitize_analysis_payload scenario_C (lit 6 0) true 2 = Ok sanitized_C
  /\ Validation.sanitize_analysis_payload sanitized_C (lit 6 0) true 2 = Ok sanitized_C.
Proof.
  split; [vm_compute; reflexivity |].
  exact (SanitizerTheorems.sanitize_idempotent (F:=xfloat) scenario_C (lit 6 0) true 2
           sanitized_C eq_refl).
Defined.

(** C6, where the code departs from it.  The sanitizer raises its hard
    failure, the recovery injects the citation and the flag, and the
    confidence 0.58 is left as it is: the recovery lowers a confidence only
    when it exceeds 0.6.  [RecoveryFacts] holds the parts of the claim that
    the code meets. *)
Theorem recovery_leaves_confidence_above_cap :
  Validation.sanitize_analysis_payload uncited_answer (lit 6 0) true 1
  = Raise (ValueError "retrieval_hits_without_citations")
  /\ exists r : dict xfloat,
       Analyzer.analyze_core (lit 60 0) (lit 10 0) (Some "is it ok") one_chunk uncited_answer
       = Ok r
       /\ get r "risk_flags" = VList [VStr "fallback_citations_injected"]
       /\ get r "confidence" = num 58 (-2)
       /\ f_ltb (lit 55 (-2)) (lit 58 (-2)) = true.
Proof.
  split; [vm_compute; reflexivity |].
  eexists. split; [vm_compute; reflexivity |].
  repeat split.
Qed.

(** C7 as stated fails for a multiple below 1: the lower bound is 0, not
    [multiple - 1]. *)
Lemma baseline_range_clamped :
  exists r : dict xfloat,
    Consultant._heuristic_baseline small_deal [] = Ok r
    /\ get r "implied_multiple" = num 5 (-1)
    /\ get r "range" = VTuple [num 0 0; num 15 (-1)]
    /\ get r "range"
       <> VTuple [ VFloat (f_sub (lit 5 (-1)) (lit 1 0));
                   VFloat (f_add (lit 5 (-1)) (lit 1 0)) ].
Proof.
  eexists. split; [vm_compute; reflexivity |].
  split; [reflexivity |]. split; [reflexivity |].
  vm_compute. discriminate.
Qed.

(** C7 on a deal with price 100 and ebitda 10. *)
Lemma heuristic_baseline_complete_deal :
  (to_float (or_else (get complete_deal "ebitda") (VFloat f_zero)) = Ok (lit 10 0)
   /\ to_float (or_else (get complete_deal "price") (VFloat f_zero)) = Ok (lit 100 0))
  /\ exists (r : dict xfloat) (verdict : string),
       Consultant._heuristic_baseline complete_deal [] = Ok r
       /\ get r "conclusion" = VStr verdict
       /\ (f_leb (lit 8 0) (lit 10 0) = true -> f_leb (lit 10 0) (lit 12 0) = true ->
           verdict = "fair")
       /\ (f_ltb (lit 12 0) (lit 10 0) = true -> verdict = "rich")
       /\ (f_leb (lit 8 0) (lit 10 0) && f_leb (lit 10 0) (lit 12 0) = false ->
           f_ltb (lit 12 0) (lit 10 0) = false -> verdict = "cheap")
       /\ get r "implied_multiple" = num 10 0
       /\ get r "range" = VTuple [num 9 0; num 11 0]
       /\ get r "confidence" = num 5 (-1)
       /\ get r "comps_used" = VList [].
Proof.
  split; [split; reflexivity |].
  exact (ConsultantTheorems.heuristic_baseline_values (F:=xfloat) complete_deal []
           (lit 10 0) (lit 100 0) eq_refl eq_refl).
Defined.

(** C8 as stated fails for the term [comp]: a complete deal with the
    question "comp" is [easy]. *)
Lemma classify_comp_is_easy :
  occurs_in "comp" (lower "comp")
  /\ Consultant._classify_request (Some "comp") complete_deal [] = "easy"
  /\ Consultant._classify_request (Some "comp") complete_deal [] <> "hard".
Proof.
  split; [exists EmptyString, EmptyString; reflexivity |].
  split; [reflexivity | vm_compute; discriminate].
Qed.

(** C9 as stated fails twice: a [risk_flags] that is no list is passed
    through, and an absent [comps_used] becomes the names of the retrieved
    comps (none here), not the seed's [comps_used]. *)
Lemma coerce_keeps_malformed_flags :
  exists r : dict xfloat,
    Consultant._coerce_response (Some (VDict malformed_flags)) seed [] = Ok r
    /\ get r "risk_flags" = VInt 5
    /\ get r "risk_flags" <> get seed "risk_flags"
    /\ get r "comps_used" = VList []
    /\ get r "comps_used" <> get seed "comps_used".
Proof.
  eexists. split; [vm_compute; reflexivity |].
  repeat split; try discriminate.
Qed.

(** C9 on an answer whose confidence is no number and whose range is a
    pair of integers. *)
Lemma coerce_partial_answer :
  (lookup seed "conclusion" = Some (VStr "fair")
   /\ lookup seed "implied_multiple" = Some (num 10 0)
   /\ lookup seed "range" = Some (VTuple [num 9 0; num 11 0])
   /\ lookup seed "reasoning"
      = Some (VStr "Baseline multiple heuristic derived from price/EBITDA.")
   /\ lookup seed "risk_flags" = Some (VList [])
   /\ lookup seed "confidence" = Some (num 5 (-1)))
  /\ exists r : dict xfloat,
       Consultant._coerce_response (Some (VDict partial_answer)) seed [] = Ok r
       /\ get r "implied_multiple" = num 10 0
       /\ get r "confidence" = num 5 (-1)
       /\ get r "range" = VTuple [num 4 0; num 6 0]
       /\ get r "risk_flags" = VList [].
Proof.
  split; [repeat split |].
  destruct (proj2 (ConsultantTheorems.coerce_response_fields (F:=xfloat) seed [])
              partial_answer _ _ _ _ _ _
              eq_refl eq_refl eq_refl eq_refl eq_refl eq_refl eq_refl eq_refl)
    as (r & Hr & Hi & _ & _ & Hc & Hrange & _ & _ & _ & Hflags & _).
  { intros lo hi H. vm_compute in H. injection H as <- <-. split; reflexivity. }
  exists r. split; [exact Hr |].
  split; [exact (Hi (lit 10 0) eq_refl) |].
  split; [apply Hc; eexists; reflexivity |].
  split; [exact (Hrange (VInt 4) (VInt 6) (lit 4 0) (lit 6 0) eq_refl eq_refl eq_refl) |].
  exact Hflags.
Defined.

(** C10 on one retrieved chunk and no surviving citation. *)
Lemma retrieval_flag_one_chunk :
  List.length (Schemas.comps_used uncited_analysis) = List.length (@nil (dict xfloat))
  /\ (Validation.hard_failure
        (Analyzer.retrieval_required_flag (Some "is it ok") one_chunk) 1
        (@nil (dict xfloat)) = true
      <-> raises (Enforce.enforce_evidence_rule uncited_analysis 1)).
Proof.
  split; [reflexivity |].
  exact (proj2 (AnalyzerTheorems.retrieval_flag_redundant (F:=xfloat) (Some "is it ok")
                  one_chunk [] uncited_analysis) eq_refl).
Defined.

End Concrete.

(** * Further properties *)

(** ** Strings *)

Module StringFacts.

Lemma append_empty_r (s : string) : s ++ EmptyString = s.
Proof. induction s as [| c s IH]; simpl; [reflexivity | now rewrite IH]. Qed.

Lemma lower_app (s t : string) : lower (s ++ t) = lower s ++ lower t.
Proof. induction s as [| c s IH]; simpl; [reflexivity | now rewrite IH]. Qed.

Lemma append_assoc (s t u : string) : (s ++ t) ++ u = s ++ (t ++ u).
Proof. induction s as [| c s IH]; simpl; [reflexivity | now rewrite IH]. Qed.

Lemma occurs_in_padded (term s before after : string) :
  occurs_in term s -> occurs_in term (before ++ s ++ after).
Proof.
  intros [x [y ->]]. exists (before ++ x), (y ++ after).
  now rewrite !append_assoc.
Qed.

Lemma is_space_lower (c : ascii) : is_space (lower_char c) = is_space c.
Proof. destruct c as [[] [] [] [] [] [] [] []]; reflexivity. Qed.

Lemma lower_char_idempotent (c : ascii) :
  lower_char (lower_char c) = lower_char c.
Proof. destruct c as [[] [] [] [] [] [] [] []]; reflexivity. Qed.

Lemma lower_idempotent (s : string) : lower (lower s) = lower s.
Proof.
  induction s as [| c s IH]; simpl; [reflexivity |].
  now rewrite lower_char_idempotent, IH.
Qed.

Lemma lstrip_lower (s : string) : lstrip (lower s) = lower (lstrip s).
Proof.
  induction s as [| c s IH]; simpl; [reflexivity |].
  rewrite is_space_lower. destruct (is_space c); [exact IH | reflexivity].
Qed.

Lemma rstrip_lower (s : string) : rstrip (lower s) = lower (rstrip s).
Proof.
  induction s as [| c s IH]; simpl; [reflexivity |].
  rewrite IH, is_space_lower.
  destruct (rstrip s); simpl; [destruct (is_space c) |]; reflexivity.
Qed.

Lemma strip_lower (s : string) : strip (lower s) = lower (strip s).
Proof. unfold strip. now rewrite lstrip_lower, rstrip_lower. Qed.

Lemma lstrip_blank (a s : string) : blank a = true -> lstrip (a ++ s) = lstrip s.
Proof.
  induction a as [| c a IH]; simpl; [reflexivity |].
  intros H. apply andb_true_iff in H as [Hc Ha]. rewrite Hc. auto.
Qed.

Lemma rstrip_blank (b : string) : blank b = true -> rstrip b = EmptyString.
Proof.
  induction b as [| c b IH]; simpl; [reflexivity |].
  intros H. apply andb_true_iff in H as [Hc Hb]. now rewrite (IH Hb), Hc.
Qed.

Lemma rstrip_app_blank (s b : string) :
  blank b = true -> rstrip (s ++ b) = rstrip s.
Proof.
  intros Hb. induction s as [| c s IH]; simpl.
  - now apply rstrip_blank.
  - now rewrite IH.
Qed.

Lemma lstrip_all_blank (b : string) : blank b = true -> lstrip b = EmptyString.
Proof.
  induction b as [| c b IH]; simpl; [reflexivity |].
  intros H. apply andb_true_iff in H as [Hc Hb]. rewrite Hc. auto.
Qed.

Lemma strip_app_blank (s b : string) :
  blank b = true -> strip (s ++ b) = strip s.
Proof.
  intros Hb. unfold strip. induction s as [| c s IH]; simpl.
  - now rewrite (lstrip_all_blank b Hb).
  - destruct (is_space c); [exact IH |].
    exact (rstrip_app_blank (String c s) b Hb).
Qed.

Lemma strip_padded (a s b : string) :
  blank a = true -> blank b = true -> strip (a ++ s ++ b) = strip s.
Proof.
  intros Ha Hb. unfold strip. rewrite (lstrip_blank a _ Ha).
  exact (strip_app_blank s b Hb).
Qed.

Lemma lstrip_idempotent (s : string) : lstrip (lstrip s) = lstrip s.
Proof.
  induction s as [| c s IH]; [reflexivity |].
  cbn [lstrip]. destruct (is_space c) eqn:E; [exact IH |].
  cbn [lstrip]. now rewrite E.
Qed.

Lemma rstrip_idempotent (s : string) : rstrip (rstrip s) = rstrip s.
Proof.
  induction s as [| c s IH]; [reflexivity |].
  cbn [rstrip]. destruct (rstrip s) as [| c' r] eqn:E.
  - destruct (is_space c) eqn:Ec; [reflexivity |].
    cbn [rstrip]. now rewrite Ec.
  - cbn [rstrip]. cbn [rstrip] in IH. now rewrite IH.
Qed.

(** Stripping on the right keeps a first character that is no space. *)
Lemma lstrip_rstrip (s : string) :
  lstrip s = s -> lstrip (rstrip s) = rstrip s.
Proof.
  destruct s as [| c s]; [reflexivity |].
  cbn [lstrip]. destruct (is_space c) eqn:Ec.
  - intros H. exfalso.
    assert (Hlen : forall t, (String.length (lstrip t) <= String.length t)%nat).
    { induction t as [| d t IHt]; simpl; [lia |].
      destruct (is_space d); simpl; lia. }
    pose proof (Hlen s) as Hl. rewrite H in Hl. simpl in Hl. lia.
  - intros _. cbn [rstrip]. destruct (rstrip s); rewrite ?Ec; cbn [lstrip];
      now rewrite Ec.
Qed.

Lemma strip_idempotent (s : string) : strip (strip s) = strip s.
Proof.
  unfold strip.
  rewrite (lstrip_rstrip (lstrip s) (lstrip_idempotent s)).
  apply rstrip_idempotent.
Qed.

Lemma strip_blank (s : string) : blank s = true -> strip s = EmptyString.
Proof. intros H. unfold strip. now rewrite (lstrip_all_blank s H). Qed.

End StringFacts.

(** ** More on the sanitizer *)

Module SanitizerCoverage.
Import Validation ValidationFacts SanitizerFacts.
Section Generic.
Context {F : Type} {fops : PyFloat F}.
Local Abbreviation value := (Py.value F).
Local Abbreviation dict := (Py.dict F).

(** X1.  When no number of the payload is an [int] too large for a float,
    [sanitize_analysis_payload] raises exactly under the hard-failure
    condition (retrieval required, hits found, no citation left), and then
    the [ValueError] [retrieval_hits_without_citations]; in every other case
    it returns a payload of the shape of [AnalysisV1]. *)
Theorem sanitize_raises_only_hard_failure (payload : dict) (b : F)
    (retrieval_required : bool) (retrieval_hits : Z) :
  numbers_fit payload = true ->
  (hard_failure retrieval_required retrieval_hits (surviving_comps payload) = true
   /\ sanitize_analysis_payload payload b retrieval_required retrieval_hits
      = Raise (ValueError "retrieval_hits_without_citations"))
  \/ (hard_failure retrieval_required retrieval_hits (surviving_comps payload) = false
      /\ exists r,
           sanitize_analysis_payload payload b retrieval_required retrieval_hits = Ok r
           /\ structurally_valid r = true).
Proof.
  intros Hfit. pose proof Hfit as H. unfold numbers_fit in H.
  apply andb_true_iff in H as [H Hc]. apply andb_true_iff in H as [Hi Hr].
  destruct (as_float_fits _ b Hi) as [implied Ei].
  destruct (parse_range_fits _ implied Hr) as [lo [hi Er]].
  destruct (as_float_fits _ default_confidence Hc) as [conf Ec].
  pose proof (sanitize_intro payload b retrieval_required retrieval_hits
                implied lo hi conf Ei Er) as Hok.
  destruct (hard_failure retrieval_required retrieval_hits (surviving_comps payload))
    eqn:Hh.
  - left. split; [reflexivity |].
    unfold sanitize_analysis_payload. rewrite Ei. cbn [bind]. rewrite Er.
    cbn [bind]. now rewrite Hh.
  - right. split; [reflexivity |]. eexists. split.
    + exact (Hok eq_refl Ec).
    + apply emit_valid.
Qed.

(** X2.  With at least one valid citation the guardrail stays out: the
    returned numbers are the payload's own (converted, with the defaults of
    [_as_float]), the range put in order, range and multiple rounded, the
    confidence clamped to [[0, 1]] but not rounded, and the risk flags are
    the payload's without repetition. *)
Theorem cited_payload_keeps_its_numbers (payload : dict) (b : F)
    (retrieval_required : bool) (retrieval_hits : Z) (r : dict) :
  sanitize_analysis_payload payload b retrieval_required retrieval_hits = Ok r ->
  surviving_comps payload <> [] ->
  exists implied lo hi conf : F,
    _as_float (Py.get payload "implied_multiple") b = Ok implied
    /\ parse_range (Py.get payload "range") implied = Ok (lo, hi)
    /\ _as_float (Py.get payload "confidence") default_confidence = Ok conf
    /\ Py.get r "implied_multiple" = Py.VFloat (_round implied)
    /\ Py.get r "range"
       = Py.VList [ Py.VFloat (_round (if Py.f_gtb lo hi then hi else lo));
                    Py.VFloat (_round (if Py.f_gtb lo hi then lo else hi)) ]
    /\ Py.get r "confidence" = Py.VFloat (clamp_confidence conf)
    /\ Py.get r "comps_used" = Py.VList (map Py.VDict (surviving_comps payload))
    /\ Py.get r "risk_flags"
       = Py.VList (map Py.VStr (fromkeys (collect_risks payload))).
Proof.
  intros H Hne.
  apply sanitize_inv in H as (implied & lo & hi & conf & Hi & Hr & _ & Hc & ->).
  exists implied, lo, hi, conf. rewrite emit_eq.
  destruct (surviving_comps payload) as [| c cs]; [congruence |].
  cbn [apply_guardrail l_implied l_lo l_hi l_confidence l_risks].
  unfold order_range. destruct (Py.f_gtb lo hi); repeat split; assumption.
Qed.

(** X3.  The returned [risk_flags] hold no string twice, and hold exactly
    the payload's own flags (as strings, [None] entries dropped) together
    with [no_citable_evidence] when no citation survived. *)
Theorem sanitized_risk_flags (payload : dict) (b : F)
    (retrieval_required : bool) (retrieval_hits : Z) (r : dict) :
  sanitize_analysis_payload payload b retrieval_required retrieval_hits = Ok r ->
  exists flags : list string,
    Py.get r "risk_flags" = Py.VList (map Py.VStr flags)
    /\ NoDup flags
    /\ forall flag,
         In flag flags
         <-> In flag (collect_risks payload)
             \/ (flag = no_citable_evidence /\ surviving_comps payload = []).
Proof.
  intros H.
  apply sanitize_inv in H as (implied & lo & hi & conf & _ & _ & _ & _ & ->).
  rewrite emit_eq. eexists. split; [reflexivity |].
  split; [apply fromkeys_NoDup |].
  intros flag. rewrite fromkeys_In.
  destruct (surviving_comps payload) as [| c cs];
    cbn [apply_guardrail guardrail l_risks].
  - destruct (mem no_citable_evidence (collect_risks payload)) eqn:E.
    + apply mem_In in E. split; [auto |]. intros [H | [-> _]]; assumption.
    + rewrite in_app_iff. simpl. split.
      * intros [H | [<- | []]]; auto.
      * intros [H | [-> _]]; auto.
  - split; [auto |]. intros [H | [_ H]]; [assumption | discriminate].
Qed.

Lemma set_fresh_keys (d : dict) (k : string) (v : value) (k' : string) (v' : value) :
  Py.lookup (Py.set d k v) k' = Some v' ->
  (k' = k /\ v' = v) \/ Py.lookup d k' = Some v'.
Proof.
  destruct (string_dec k k') as [<- | Hne].
  - rewrite RecoveryFacts.lookup_set_same. intros H. injection H as <-. auto.
  - rewrite (RecoveryFacts.lookup_set_other d k k' v Hne). auto.
Qed.

Lemma clean_citation_schema (item : value) (c : dict) :
  clean_citation item = Some c ->
  is_citation item = true
  /\ (exists d, item = Py.VDict d /\ Py.get c "source_id" = Py.get d "source_id")
  /\ forall k v, Py.lookup c k = Some v ->
       (k = "source_id" \/ k = "name" \/ k = "ticker") /\ is_str v = true.
Proof.
  unfold clean_citation, is_citation. destruct item; try discriminate.
  unfold Py.get at 1. destruct (Py.lookup (F:=F) entries "source_id") as [[]|] eqn:E;
    try discriminate.
  destruct (prefix "chunk:" s) eqn:Hp; [| discriminate].
  intros H. injection H as <-. split; [reflexivity |]. split.
  - exists entries. split; [reflexivity |].
    assert (Hs : Py.get entries "source_id" = Py.VStr s).
    { unfold Py.get. now rewrite E. }
    rewrite Hs.
    destruct (Py.truthy (Py.get entries "name")),
             (Py.truthy (Py.get entries "ticker")); reflexivity.
  - intros k v H.
    destruct (Py.truthy (Py.get entries "name")),
             (Py.truthy (Py.get entries "ticker"));
      cbn [Py.set Py.lookup String.eqb Ascii.eqb Bool.eqb] in H;
      repeat match type of H with
        | (if String.eqb k ?key then _ else _) = _ =>
            let E0 := fresh "E" in
            destruct (String.eqb k key) eqn:E0;
            [apply String.eqb_eq in E0; injection H as <-; subst k; auto |]
        end; discriminate.
Qed.

Lemma is_citation_cleaned (item : value) :
  is_citation item = true -> exists c, clean_citation item = Some c.
Proof.
  unfold clean_citation, is_citation. destruct item; try discriminate.
  unfold Py.get at 1. destruct (Py.lookup (F:=F) entries "source_id") as [[]|];
    try discriminate.
  intros ->. eauto.
Qed.

(** X4.  The citation filter keeps exactly the items that are dictionaries
    with a string [source_id] starting with [chunk:], in their order and
    under their own [source_id]; and a citation it returns has no key but
    [source_id], [name] and [ticker], each with a string as value. *)
Theorem citation_filter_exact (items : list value) :
  map (fun c => Py.get c "source_id") (clean_citations items)
  = map (fun item => match item with
                     | Py.VDict d => Py.get d "source_id"
                     | _ => Py.VNone
                     end)
        (filter is_citation items)
  /\ forall c, In c (clean_citations items) ->
       forall k v, Py.lookup c k = Some v ->
         (k = "source_id" \/ k = "name" \/ k = "ticker") /\ is_str v = true.
Proof.
  induction items as [| item rest [IH1 IH2]]; [split; [reflexivity | intros c []] |].
  cbn [clean_citations filter].
  destruct (clean_citation item) as [c |] eqn:E.
  - destruct (clean_citation_schema item c E) as (Hc & (d & -> & Hs) & Hk).
    rewrite Hc. cbn [map]. split.
    + now rewrite Hs, IH1.
    + intros c' [<- | Hin]; [exact Hk | now apply IH2].
  - destruct (is_citation item) eqn:Hc.
    + destruct (is_citation_cleaned item Hc) as [c Ec]. congruence.
    + split; assumption.
Qed.

End Generic.
End SanitizerCoverage.

(** ** The validator of [risk_flags] *)

Module ValidatorTheorems.
Import Validation ValidationFacts SchemasValidators StringFacts.
Section Flags.
Context {F : Type} {fops : PyFloat F}.
Local Abbreviation value := (Py.value F).
Local Abbreviation dict := (Py.dict F).

Lemma cleaned_strings (l : list string) :
  cleaned_flags (map (Py.VStr (F:=F)) l) = map strip l.
Proof. induction l as [| s l IH]; simpl; [reflexivity | now rewrite IH]. Qed.

Lemma clean_strings (l : list string) :
  _clean_risk_flags (Py.VList (map Py.VStr l)) = Ok (map strip l).
Proof.
  unfold _clean_risk_flags. destruct l as [| s l]; [reflexivity |].
  cbn [map Py.truthy negb Py.to_list bind].
  now rewrite <- cleaned_strings.
Qed.

(** X5.  On the [risk_flags] of a sanitized payload the validator of
    [AnalysisV1] never raises, and all it does is strip the white space
    around each flag; applied once more to its own result it changes
    nothing. *)
Theorem clean_risk_flags_after_sanitizer (payload : dict) (b : F)
    (retrieval_required : bool) (retrieval_hits : Z) (r : dict) :
  sanitize_analysis_payload payload b retrieval_required retrieval_hits = Ok r ->
  exists flags : list string,
    Py.get r "risk_flags" = Py.VList (map Py.VStr flags)
    /\ _clean_risk_flags (Py.get r "risk_flags") = Ok (map strip flags)
    /\ _clean_risk_flags (Py.VList (map Py.VStr (map strip flags)))
       = Ok (map strip flags).
Proof.
  intros H.
  apply sanitize_inv in H as (implied & lo & hi & conf & _ & _ & _ & _ & ->).
  rewrite emit_eq. eexists. split; [reflexivity |].
  read_keys. split; [apply clean_strings |].
  rewrite clean_strings, map_map. f_equal.
  apply map_ext. intros s. apply strip_idempotent.
Qed.

End Flags.
End ValidatorTheorems.

(** ** The retrieval lexicon *)

Module LexiconTheorems.
Import Analyzer StringFacts.

Lemma require_nonempty (c : ascii) (q : string) :
  _should_require_retrieval (Some (String c q))
  = existsb (fun term => contains term (lower (String c q)))
      _RETRIEVAL_HARD_TERMS.
Proof. reflexivity. Qed.

(** X6.  [_should_require_retrieval] ignores the case of the question, and
    text added around a question that requires retrieval never takes the
    requirement away. *)
Theorem retrieval_requirement_stable (q before after : string) :
  _should_require_retrieval (Some (lower q)) = _should_require_retrieval (Some q)
  /\ (_should_require_retrieval (Some q) = true ->
      _should_require_retrieval (Some (before ++ q ++ after)) = true).
Proof.
  split.
  - destruct q as [| c q]; [reflexivity |].
    change (lower (String c q)) with (String (lower_char c) (lower q)).
    rewrite !require_nonempty.
    change (String (lower_char c) (lower q)) with (lower (String c q)).
    now rewrite lower_idempotent.
  - destruct q as [| c q]; [discriminate |].
    unfold _should_require_retrieval at 1. intros H.
    apply existsb_exists in H as [term [Hin Hc]].
    apply contains_spec in Hc.
    assert (G : existsb (fun term => contains term (lower (before ++ String c q ++ after)))
                  _RETRIEVAL_HARD_TERMS = true).
    { apply existsb_exists. exists term. split; [assumption |].
      apply contains_spec. rewrite !lower_app. now apply occurs_in_padded. }
    unfold _should_require_retrieval.
    destruct (before ++ String c q ++ after) eqn:E; [| exact G].
    destruct before; discriminate.
Qed.

End LexiconTheorems.

(** ** Triage, escalation and synthesis *)

Module OrchestratorFacts.
Import Consultant Orchestrator.
Section Typed.
Context {F : Type} {fops : PyFloat F}.
Local Abbreviation value := (Py.value F).
Local Abbreviation dict := (Py.dict F).

Lemma typed_inv (p : dict) :
  typed_numbers p = true ->
  exists implied lo hi conf,
    Py.lookup p "implied_multiple" = Some (Py.VFloat implied)
    /\ Py.lookup p "range" = Some (Py.VTuple [Py.VFloat lo; Py.VFloat hi])
    /\ Py.lookup p "confidence" = Some (Py.VFloat conf).
Proof.
  unfold typed_numbers.
  destruct (Py.lookup p "implied_multiple") as [[]|]; try discriminate.
  destruct (Py.lookup p "range") as [[| | | | | | [| [] [| [] [|]]] |]|];
    try discriminate.
  destruct (Py.lookup p "confidence") as [[]|]; try discriminate.
  intros _. eexists _, _, _, _. repeat split.
Qed.

Lemma typed_fits (p : dict) :
  typed_numbers p = true -> Validation.numbers_fit p = true.
Proof.
  intros H. destruct (typed_inv p H) as (i & lo & hi & c & Hi & Hr & Hc).
  unfold Validation.numbers_fit, Py.get. now rewrite Hi, Hr, Hc.
Qed.

Lemma try_conversion_ok {A : Type} (body handler : result A) (a : A) :
  try_conversion body handler = Ok a -> body = Ok a \/ handler = Ok a.
Proof. destruct body as [x | []]; simpl; auto; discriminate. Qed.

Lemma index_ok (d : dict) (k : string) (v : value) :
  Py.index d k = Ok v -> Py.lookup d k = Some v.
Proof.
  unfold Py.index. destruct (Py.lookup d k); [| discriminate].
  intros H. now injection H as ->.
Qed.

(** The baseline holds floats wherever a number is expected. *)
Lemma baseline_typed (deal : dict) (comps : list dict) (b : dict) :
  _heuristic_baseline deal comps = Ok b ->
  typed_numbers b = true /\ labelled b = true
  /\ Py.get b "confidence" = Py.VFloat (f_lit 5 (-1))
  /\ b <> [].
Proof.
  unfold _heuristic_baseline. intros H.
  apply bind_ok in H as [e [_ H]]. apply bind_ok in H as [p [_ H]].
  apply bind_ok in H as [m [_ H]]. injection H as <-.
  repeat split. discriminate.
Qed.

(** [_coerce_response] keeps them so, whatever the backend answered. *)
Lemma coerce_typed (parsed : option value) (seed : dict) (comps : list dict)
    (r : dict) :
  typed_numbers seed = true -> labelled seed = true -> seed <> [] ->
  _coerce_response parsed seed comps = Ok r ->
  typed_numbers r = true /\ labelled r = true /\ r <> [].
Proof.
  intros Ht Hl Hne. destruct parsed as [parsed |]; simpl.
  2:{ intros H. injection H as <-. auto. }
  destruct (typed_inv seed Ht) as (i & lo & hi & c & Hi & Hr & Hc).
  intros H.
  apply bind_ok in H as [implied [E1 H]].
  apply bind_ok in H as [range_raw [_ H]].
  apply bind_ok in H as [computed [E2 H]].
  apply bind_ok in H as [conf [E3 H]].
  apply bind_ok in H as [r1 [_ H]]. apply bind_ok in H as [r2 [_ H]].
  apply bind_ok in H as [r3 [_ H]]. apply bind_ok in H as [r4 [_ H]].
  injection H as <-.
  assert (Hf1 : exists f, implied = Py.VFloat f).
  { apply try_conversion_ok in E1 as [E | E].
    - apply bind_ok in E as [v [_ E]]. apply bind_ok in E as [f [_ E]].
      injection E as <-. eauto.
    - apply index_ok in E. rewrite Hi in E. injection E as <-. eauto. }
  assert (Hf2 : exists a b, computed = Py.VTuple [Py.VFloat a; Py.VFloat b]).
  { apply try_conversion_ok in E2 as [E | E].
    - apply bind_ok in E as [[x y] [_ E]]. apply bind_ok in E as [a [_ E]].
      apply bind_ok in E as [b [_ E]]. injection E as <-. eauto.
    - apply index_ok in E. rewrite Hr in E. injection E as <-. eauto. }
  assert (Hf3 : exists f, conf = Py.VFloat f).
  { apply try_conversion_ok in E3 as [E | E].
    - apply bind_ok in E as [v [_ E]]. apply bind_ok in E as [f [_ E]].
      injection E as <-. eauto.
    - apply index_ok in E. rewrite Hc in E. injection E as <-. eauto. }
  destruct Hf1 as [f1 ->]. destruct Hf2 as (a & b & ->). destruct Hf3 as [f3 ->].
  repeat split. discriminate.
Qed.

(** On such a payload the comparison of [_should_escalate] cannot raise. *)
Lemma escalate_typed (complexity : string) (p : dict) (comps : list dict) :
  typed_numbers p = true ->
  exists b, _should_escalate complexity (Some p) comps = Ok b.
Proof.
  intros H. destruct (typed_inv p H) as (i & lo & hi & c & Hi & Hr & Hc).
  unfold _should_escalate, Py.get. rewrite Hc. cbn [lt_fraction bind].
  destruct (negb (String.eqb complexity "hard")); [eauto |].
  destruct (f_ltb c (f_lit 55 (-2))); [eauto |].
  destruct (_ && _); eauto.
Qed.

Lemma payload_or_typed (p : option dict) (b : dict) :
  (forall d, p = Some d -> typed_numbers d = true /\ labelled d = true /\ d <> []) ->
  typed_numbers b = true -> labelled b = true -> b <> [] ->
  typed_numbers (payload_or p b) = true /\ labelled (payload_or p b) = true
  /\ payload_or p b <> [].
Proof.
  intros Hp Hb Hl Hne. destruct p as [[| entry rest] |]; simpl; auto.
Qed.

End Typed.

Section Stage.
Context {F : Type} {fops : PyFloat F}.
Local Abbreviation value := (Py.value F).
Local Abbreviation dict := (Py.dict F).

Variable model_validate_json : string -> option (Triage.TriagePlan F).
Variable json_loads : string -> option value.
Variable model_validate : value -> option (Triage.TriagePlan F).
Variable deepseek_api_key : option string.
Variable deepseek : reply (option string).

Local Abbreviation triage_stage :=
  (triage_stage model_validate_json json_loads model_validate
     deepseek_api_key deepseek).

(** A payload that the triage stage leaves came out of [_coerce_response]. *)
Lemma triage_payload_typed (complexity : string) (b : dict) (comps : list dict)
    (d : dict) :
  typed_numbers b = true -> labelled b = true -> b <> [] ->
  deepseek_payload (triage_stage complexity b comps) = Some d ->
  typed_numbers d = true /\ labelled d = true /\ d <> [].
Proof.
  intros Ht Hl Hne. unfold Orchestrator.triage_stage.
  destruct (String.eqb complexity "hard" && configured deepseek_api_key).
  2:{ destruct (String.eqb complexity "hard"); discriminate. }
  unfold run_triage. destruct deepseek as [response |]; [| discriminate].
  destruct (Triage.parse_triage_plan _ _ _ response) as [plan | []];
    try discriminate.
  destruct (coerce_text json_loads response b comps) as [payload | e] eqn:E;
    cbn [bind]; [| discriminate].
  destruct (_summarize_payload payload); cbn [bind]; [| discriminate].
  cbn [deepseek_payload]. intros H. injection H as <-.
  unfold coerce_text in E. destruct response as [text |]; [| discriminate].
  exact (coerce_typed _ _ _ _ Ht Hl Hne E).
Qed.

Lemma triage_stage_easy (complexity : string) (b : dict) (comps : list dict) :
  String.eqb complexity "hard" = false ->
  triage_stage complexity b comps = no_triage.
Proof. intros H. unfold Orchestrator.triage_stage. now rewrite H. Qed.

End Stage.
End OrchestratorFacts.

Module OrchestratorTheorems.
Import Consultant Orchestrator OrchestratorFacts.
Section Flow.
Context {F : Type} {fops : PyFloat F}.
Local Abbreviation value := (Py.value F).
Local Abbreviation dict := (Py.dict F).

Variable model_validate_json : string -> option (Triage.TriagePlan F).
Variable json_loads : string -> option value.
Variable model_validate : value -> option (Triage.TriagePlan F).

Local Abbreviation analyze_valuation :=
  (analyze_valuation model_validate_json json_loads model_validate).

(** What [analyze_valuation] returns, in terms of its stages. *)
Lemma analyze_valuation_typed (dkey okey : option string)
    (deepseek : reply (option string)) (gpt5 : reply string)
    (deal : dict) (comps : list dict) (question : option string) (b : dict) :
  _heuristic_baseline deal comps = Ok b ->
  exists (r : dict) (m : meta F),
    analyze_valuation dkey okey deepseek gpt5 deal comps question = Ok (r, m)
    /\ path m = _classify_request question deal comps
    /\ typed_numbers r = true /\ labelled r = true.
Proof.
  intros Hb. unfold Orchestrator.analyze_valuation. rewrite Hb. cbn [bind].
  destruct (baseline_typed _ _ _ Hb) as (Ht & Hl & _ & Hne).
  set (complexity := _classify_request question deal comps).
  set (tr := Orchestrator.triage_stage _ _ _ _ _ complexity b comps).
  assert (Hp : typed_numbers (payload_or (deepseek_payload tr) b) = true
               /\ labelled (payload_or (deepseek_payload tr) b) = true
               /\ payload_or (deepseek_payload tr) b <> []).
  { apply payload_or_typed; try assumption.
    intros d Hd. exact (triage_payload_typed _ _ _ _ _ _ _ _ _ Ht Hl Hne Hd). }
  destruct Hp as (Hpt & Hpl & Hpne).
  destruct (escalate_typed complexity _ comps Hpt) as [esc ->]. cbn [bind].
  eexists _, _. split; [reflexivity |]. split; [reflexivity |].
  destruct (configured okey && (String.eqb complexity "easy" || esc)); [| auto].
  destruct gpt5 as [llm_response |]; [| auto].
  destruct (_coerce_response (json_loads llm_response) _ comps) as [r | e] eqn:E;
    [| auto].
  destruct (coerce_typed _ _ _ _ Hpt Hpl Hpne E) as (H1 & H2 & _). auto.
Qed.

(** X7.  [analyze_valuation] never fails once the baseline is computed:
    whatever the two backends answer, and whether they answer at all, it
    returns a payload whose [implied_multiple] and [confidence] are floats
    and whose [range] is a pair of floats, and reports the classifier's
    verdict as [path]. *)
Theorem analyze_valuation_total (dkey okey : option string)
    (deepseek : reply (option string)) (gpt5 : reply string)
    (deal : dict) (comps : list dict) (question : option string) (b : dict) :
  _heuristic_baseline deal comps = Ok b ->
  exists (r : dict) (m : meta F) (implied lo hi conf : F),
    analyze_valuation dkey okey deepseek gpt5 deal comps question = Ok (r, m)
    /\ path m = _classify_request question deal comps
    /\ Py.get r "implied_multiple" = Py.VFloat implied
    /\ Py.get r "range" = Py.VTuple [Py.VFloat lo; Py.VFloat hi]
    /\ Py.get r "confidence" = Py.VFloat conf.
Proof.
  intros Hb.
  destruct (analyze_valuation_typed dkey okey deepseek gpt5 deal comps question b Hb)
    as (r & m & Hr & Hpath & Ht & _).
  destruct (typed_inv r Ht) as (i & lo & hi & c & Hi & Hrg & Hc).
  exists r, m, i, lo, hi, c. unfold Py.get. rewrite Hi, Hrg, Hc. auto.
Qed.

(** X8.  The sanitizer applied to what [analyze_valuation] returns raises
    nothing but its deliberate [ValueError]: a number too large for a float
    never reaches it, because [_coerce_response] fails on such a number and
    the consultant then keeps its previous payload.  The call raises exactly
    under the hard-failure condition and otherwise returns a structurally
    valid payload. *)
Theorem consultant_output_sanitizes (dkey okey : option string)
    (deepseek : reply (option string)) (gpt5 : reply string)
    (deal : dict) (comps : list dict) (question : option string)
    (r : dict) (m : meta F)
    (baseline_multiple : F) (retrieval_required : bool) (retrieval_hits : Z) :
  analyze_valuation dkey okey deepseek gpt5 deal comps question = Ok (r, m) ->
  (Validation.hard_failure retrieval_required retrieval_hits
     (Validation.surviving_comps r) = true
   /\ Validation.sanitize_analysis_payload r baseline_multiple
        retrieval_required retrieval_hits
      = Raise (ValueError "retrieval_hits_without_citations"))
  \/ (Validation.hard_failure retrieval_required retrieval_hits
        (Validation.surviving_comps r) = false
      /\ exists s,
           Validation.sanitize_analysis_payload r baseline_multiple
             retrieval_required retrieval_hits = Ok s
           /\ Validation.structurally_valid s = true).
Proof.
  intros H. apply SanitizerFacts.sanitize_outcome. apply typed_fits.
  destruct (_heuristic_baseline deal comps) as [b | e] eqn:Hb.
  - destruct (analyze_valuation_typed dkey okey deepseek gpt5 deal comps question b Hb)
      as (r' & m' & Hr & _ & Ht & _).
    rewrite Hr in H. now injection H as <- _.
  - unfold Orchestrator.analyze_valuation in H. rewrite Hb in H. discriminate.
Qed.

(** X9.  A request classified [easy] never involves the triage backend: the
    result is the same whatever DeepSeek would answer and whether or not
    its key is configured. *)
Theorem easy_request_skips_triage (dkey dkey' okey : option string)
    (deepseek deepseek' : reply (option string)) (gpt5 : reply string)
    (deal : dict) (comps : list dict) (question : option string) :
  _classify_request question deal comps = "easy" ->
  analyze_valuation dkey okey deepseek gpt5 deal comps question
  = analyze_valuation dkey' okey deepseek' gpt5 deal comps question.
Proof.
  intros He. unfold Orchestrator.analyze_valuation.
  destruct (_heuristic_baseline deal comps) as [b | e]; [| reflexivity].
  cbn [bind]. rewrite He.
  now rewrite !triage_stage_easy by reflexivity.
Qed.

(** X10.  A synthesis call that fails changes nothing: with a failing GPT-5
    backend the result is the one obtained without an OpenAI key, that is,
    the triage payload if the triage stage left one and the baseline
    otherwise. *)
Theorem failed_synthesis_keeps_candidate (dkey okey : option string)
    (deepseek : reply (option string)) (gpt5 : reply string)
    (deal : dict) (comps : list dict) (question : option string) :
  analyze_valuation dkey okey deepseek Failed deal comps question
  = analyze_valuation dkey None deepseek gpt5 deal comps question.
Proof.
  unfold Orchestrator.analyze_valuation.
  destruct (_heuristic_baseline deal comps) as [b | e]; [| reflexivity].
  cbn [bind].
  destruct (_should_escalate _ _ comps) as [esc | e]; [| reflexivity].
  cbn [bind configured andb].
  destruct (configured okey && _); reflexivity.
Qed.

End Flow.

Section Escalation.
Context {F : Type} {fops : PyFloat F}.
Local Abbreviation value := (Py.value F).
Local Abbreviation dict := (Py.dict F).

(** X11.  A [hard] request whose candidate is the bare baseline always
    escalates: the baseline's confidence is the constant 0.5, which is
    below the threshold 0.55 of [_should_escalate]. *)
Theorem baseline_always_escalates (deal : dict) (comps comps' : list dict)
    (b : dict) :
  f_ltb (f_lit 5 (-1)) (f_lit 55 (-2)) = true ->
  _heuristic_baseline deal comps = Ok b ->
  _should_escalate "hard" (Some b) comps' = Ok true.
Proof.
  intros Hlit Hb. destruct (baseline_typed _ _ _ Hb) as (_ & _ & Hc & _).
  unfold _should_escalate. rewrite Hc. cbn [String.eqb Ascii.eqb Bool.eqb negb].
  cbn [lt_fraction bind]. now rewrite Hlit.
Qed.

End Escalation.
End OrchestratorTheorems.

(** ** The two ways through a hard request *)

Module HardPathTheorems.
Import Consultant Orchestrator OrchestratorFacts.
Section Hard.
Context {F : Type} {fops : PyFloat F}.
Local Abbreviation value := (Py.value F).
Local Abbreviation dict := (Py.dict F).

Variable model_validate_json : string -> option (Triage.TriagePlan F).
Variable json_loads : string -> option value.
Variable model_validate : value -> option (Triage.TriagePlan F).

Local Abbreviation analyze_valuation :=
  (analyze_valuation model_validate_json json_loads model_validate).
Local Abbreviation parse_triage_plan :=
  (Triage.parse_triage_plan model_validate_json json_loads model_validate).

(** X12.  A triage plan never ends the analysis.  On a [hard] request for
    which DeepSeek answers with a plan that [parse_triage_plan] accepts, the
    candidate stays the baseline, whose confidence 0.5 forces the
    escalation: with an OpenAI key the result is GPT-5's answer coerced over
    the baseline (the baseline itself if the call or the coercion fails),
    without a key it is the baseline; [triage_confidence] reports the
    plan's confidence. *)
Theorem triage_plan_forces_synthesis (dkey okey : option string)
    (raw : option string) (gpt5 : reply string)
    (deal : dict) (comps : list dict) (question : option string)
    (b : dict) (plan : Triage.TriagePlan F) :
  f_ltb (f_lit 5 (-1)) (f_lit 55 (-2)) = true ->
  _heuristic_baseline deal comps = Ok b ->
  _classify_request question deal comps = "hard" ->
  configured dkey = true ->
  parse_triage_plan raw = Ok plan ->
  analyze_valuation dkey okey (Answered raw) gpt5 deal comps question
  = Ok (if configured okey
        then match gpt5 with
             | Answered llm_response =>
                 match _coerce_response (json_loads llm_response) b comps with
                 | Ok coerced => coerced
                 | Raise _ => b
                 end
             | Failed => b
             end
        else b,
        {| path := "hard"; triage_confidence := Triage.confidence plan |}).
Proof.
  intros Hlit Hb Hhard Hkey Hplan.
  destruct (baseline_typed _ _ _ Hb) as (_ & _ & Hc & Hne).
  unfold Orchestrator.analyze_valuation. rewrite Hb. cbn [bind]. rewrite Hhard.
  unfold triage_stage. rewrite Hkey.
  cbn [String.eqb Ascii.eqb Bool.eqb andb]. unfold run_triage. rewrite Hplan.
  cbn [deepseek_payload triage_plan payload_or].
  assert (He : _should_escalate "hard" (Some b) comps = Ok true).
  { unfold _should_escalate. rewrite Hc.
    cbn [String.eqb Ascii.eqb Bool.eqb negb lt_fraction bind]. now rewrite Hlit. }
  rewrite He. cbn [bind orb]. rewrite andb_true_r.
  destruct (configured okey); reflexivity.
Qed.


End Hard.
End HardPathTheorems.

(** ** The triage parser *)

Module TriageTheorems.
Import Triage StringFacts.
Section Parser.
Context {F : Type} {fops : PyFloat F}.
Local Abbreviation value := (Py.value F).

Variable model_validate_json : string -> option (TriagePlan F).
Variable json_loads : string -> option value.
Variable model_validate : value -> option (TriagePlan F).

(** X14.  [parse_triage_plan] raises nothing but a [ValueError] carrying one
    of its four messages, whatever the parsers of the libraries do; and a
    reply that is missing or holds white space only is rejected as
    [empty_triage_payload] without being parsed. *)
Theorem triage_parser_failures (raw : option string) :
  (blank (or_empty raw) = true ->
   parse_triage_plan model_validate_json json_loads model_validate raw
   = Raise (ValueError "empty_triage_payload"))
  /\ ((exists plan,
         parse_triage_plan model_validate_json json_loads model_validate raw
         = Ok plan)
      \/ exists msg,
           parse_triage_plan model_validate_json json_loads model_validate raw
           = Raise (ValueError msg)
           /\ In msg [ "empty_triage_payload"; "triage_not_json";
                       "triage_plan_invalid"; "triage_schema_mismatch" ]).
Proof.
  unfold parse_triage_plan. split.
  - intros H. now rewrite (strip_blank _ H).
  - destruct (String.eqb (strip (or_empty raw)) EmptyString).
    { right. eexists. split; [reflexivity |]. simpl. auto. }
    destruct (model_validate_json _); [eauto |].
    destruct (json_loads _) as [data |].
    2:{ right. eexists. split; [reflexivity |]. simpl. auto. }
    destruct data; try (right; eexists; split; [reflexivity |]; simpl; now auto 6).
    destruct (Py.lookup entries "triage_plan") as [inner |].
    2:{ right. eexists. split; [reflexivity |]. simpl. auto 6. }
    destruct (model_validate inner); [eauto |].
    right. eexists. split; [reflexivity |]. simpl. auto 6.
Qed.

End Parser.
End TriageTheorems.

(** ** The analysis from the deal to the sanitized payload *)

Module PipelineFacts.
Import AnalyzerDeal.
Section Deal.
Context {F : Type} {fops : PyFloat F}.
Local Abbreviation value := (Py.value F).
Local Abbreviation dict := (Py.dict F).

Lemma to_float_total (v : value) :
  (exists f, _to_float v = Ok f) \/ _to_float v = Raise OverflowError.
Proof.
  unfold _to_float. destruct v; simpl; eauto.
  - destruct (f_of_Z z); eauto.
  - destruct (f_of_string s); eauto.
Qed.

(** The shape of a coerced deal. *)
Lemma coerce_deal_inv (deal : deal_input F) (dp : dict) :
  _coerce_deal_payload deal = Ok dp ->
  exists (id industry name : value) (price ebitda : F),
    dp = [ ("id", id); ("price", Py.VFloat price); ("ebitda", Py.VFloat ebitda);
           ("industry", industry); ("name", name) ].
Proof.
  unfold _coerce_deal_payload. intros H.
  apply bind_ok in H as [price [_ H]]. apply bind_ok in H as [ebitda [_ H]].
  injection H as <-. eexists _, _, _, _, _. reflexivity.
Qed.

Lemma coerce_deal_raise (deal : deal_input F) (e : exn) :
  _coerce_deal_payload deal = Raise e -> e = OverflowError.
Proof.
  unfold _coerce_deal_payload.
  match goal with
  | |- context [_to_float ?v] => destruct (to_float_total v) as [[p ->] | ->]
  end; cbn [bind]; [| intros H; now injection H as <-].
  match goal with
  | |- context [_to_float ?v] => destruct (to_float_total v) as [[q ->] | ->]
  end; cbn [bind]; [discriminate | intros H; now injection H as <-].
Qed.

End Deal.

Section Laws.
Context {F : Type} {fops : PyFloat F} {laws : PyFloatLaws F}.
Local Abbreviation value := (Py.value F).
Local Abbreviation dict := (Py.dict F).

Lemma baseline_multiple_total (price ebitda : F) :
  exists m, baseline_multiple price ebitda = Ok m.
Proof.
  unfold baseline_multiple, Py.f_gtb, Py.div.
  destruct (f_ltb Py.f_zero ebitda) eqn:E; [| eauto].
  rewrite (ltb_neq _ _ E). eauto.
Qed.

Lemma float_or_zero (x : F) :
  exists y, Py.to_float (Py.or_else (Py.VFloat x) (Py.VFloat Py.f_zero)) = Ok y.
Proof. unfold Py.or_else. destruct (Py.truthy (Py.VFloat x)); simpl; eauto. Qed.

Lemma heuristic_baseline_total (dp : dict) (comps : list dict) (price ebitda : F) :
  Py.get dp "price" = Py.VFloat price ->
  Py.get dp "ebitda" = Py.VFloat ebitda ->
  exists b, Consultant._heuristic_baseline dp comps = Ok b.
Proof.
  intros Hp He. unfold Consultant._heuristic_baseline. rewrite Hp, He.
  destruct (float_or_zero ebitda) as [e ->].
  destruct (float_or_zero price) as [p ->]. cbn [bind].
  unfold Py.div. rewrite ConsultantTheorems.floored_nonzero. cbn [bind]. eauto.
Qed.

End Laws.

Section Core.
Context {F : Type} {fops : PyFloat F}.
Local Abbreviation value := (Py.value F).
Local Abbreviation dict := (Py.dict F).

(** A payload that [analyze_core] returns came out of the sanitizer, run
    with the flag and the hit count of the retrieval. *)
Lemma analyze_core_sanitized (price ebitda : F) (question : option string)
    (comps : list dict) (raw_output r : dict) :
  Analyzer.analyze_core price ebitda question comps raw_output = Ok r ->
  exists raw b,
    Validation.sanitize_analysis_payload raw b
      (Analyzer.retrieval_required_flag question comps)
      (Z.of_nat (List.length comps)) = Ok r.
Proof.
  unfold Analyzer.analyze_core. intros H.
  apply bind_ok in H as [b [_ H]].
  destruct (Validation.sanitize_analysis_payload raw_output b _ _)
    as [s | e] eqn:E.
  - injection H as <-. eauto.
  - destruct e; try discriminate.
    apply bind_ok in H as [fallback [_ H]].
    destruct fallback as [| c cs]; [discriminate |].
    apply bind_ok in H as [raw' [_ H]]. eauto.
Qed.


End Core.
End PipelineFacts.

Module PipelineTheorems.
Import AnalyzerDeal PipelineFacts.

Section Laws.
Context {F : Type} {fops : PyFloat F} {laws : PyFloatLaws F}.
Local Abbreviation value := (Py.value F).
Local Abbreviation dict := (Py.dict F).

(** X15.  [_coerce_deal_payload] raises nothing but the [OverflowError] of an
    [int] too large for a float.  On the deal payload it returns, price and
    ebitda are floats, and neither baseline can fail: the quotient
    [price / ebitda] of [analyze_core] is guarded against a zero, negative
    or NaN ebitda, and [_heuristic_baseline] returns for every list of
    comps. *)
Theorem coerced_deal_baselines (deal : deal_input F) :
  match _coerce_deal_payload deal with
  | Ok deal_payload =>
      exists price ebitda : F,
        Py.get deal_payload "price" = Py.VFloat price
        /\ Py.get deal_payload "ebitda" = Py.VFloat ebitda
        /\ (exists m, baseline_multiple price ebitda = Ok m)
        /\ (f_ltb Py.f_zero ebitda = false ->
            baseline_multiple price ebitda = Ok Py.f_zero)
        /\ forall comps, exists b,
             Consultant._heuristic_baseline deal_payload comps = Ok b
  | Raise e => e = OverflowError
  end.
Proof.
  destruct (_coerce_deal_payload deal) as [dp | e] eqn:E.
  - destruct (coerce_deal_inv deal dp E) as (id & ind & name & p & e & ->).
    exists p, e. split; [reflexivity |]. split; [reflexivity |].
    split; [apply baseline_multiple_total |]. split.
    + intros H. unfold baseline_multiple, Py.f_gtb. now rewrite H.
    + intros comps. now apply (heuristic_baseline_total _ comps p e).
  - exact (coerce_deal_raise deal e E).
Qed.

Variable model_validate_json : string -> option (Triage.TriagePlan F).
Variable json_loads : string -> option value.
Variable model_validate : value -> option (Triage.TriagePlan F).

(** X16.  When the retrieval returns no chunk, the analysis cannot fail
    between the coercion of the deal and the validation of the model:
    whatever the backends answer, [analyze_core] comes to
    [AnalysisV1.model_validate] with a structurally valid sanitized
    payload. *)
Theorem analysis_without_chunks_succeeds (dkey okey : option string)
    (deepseek : Orchestrator.reply (option string))
    (gpt5 : Orchestrator.reply string)
    (deal : deal_input F) (question : option string) (deal_payload : dict) :
  _coerce_deal_payload deal = Ok deal_payload ->
  exists r,
    Pipeline.analyze_core model_validate_json json_loads model_validate
      dkey okey deepseek gpt5 deal question [] = Ok r
    /\ Validation.structurally_valid r = true.
Proof.
  intros Hd. unfold Pipeline.analyze_core. rewrite Hd. cbn [bind].
  destruct (coerce_deal_inv deal _ Hd) as (id & ind & name & p & e & ->).
  destruct (heuristic_baseline_total
              [("id", id); ("price", Py.VFloat p); ("ebitda", Py.VFloat e);
               ("industry", ind); ("name", name)] [] p e eq_refl eq_refl)
    as [b Hb].
  destruct (OrchestratorTheorems.analyze_valuation_typed
              model_validate_json json_loads model_validate
              dkey okey deepseek gpt5 _ [] question b Hb)
    as (raw & m & Hr & _ & Ht & _).
  rewrite Hr. cbn [bind]. read_keys.
  unfold Analyzer.analyze_core.
  destruct (baseline_multiple_total p e) as [bm Hbm].
  unfold baseline_multiple in Hbm. rewrite Hbm. cbn [bind].
  destruct (SanitizerFacts.sanitize_outcome raw bm
              (Analyzer.retrieval_required_flag question (@nil dict))
              (Z.of_nat (List.length (@nil dict)))
              (OrchestratorFacts.typed_fits raw Ht))
    as [[Hh _] | [_ [r [Hs Hv]]]].
  - unfold Validation.hard_failure in Hh. simpl in Hh.
    rewrite andb_false_r in Hh. discriminate.
  - rewrite Hs. eauto.
Qed.

End Laws.

Section Core.
Context {F : Type} {fops : PyFloat F}.
Local Abbreviation value := (Py.value F).
Local Abbreviation dict := (Py.dict F).

(** X17.  The sanitized payload from which [analyze_core] builds its
    [AnalysisV1] always passes [enforce_evidence_rule]: if chunks were
    retrieved it cites at least one, so the rule that the routes apply
    afterwards never raises on a model with as many citations. *)
Theorem evidence_rule_never_fires (price ebitda : F) (question : option string)
    (comps : list dict) (raw_output r : dict) (analysis : Schemas.AnalysisV1 F) :
  Analyzer.analyze_core price ebitda question comps raw_output = Ok r ->
  exists cited : list dict,
    Py.get r "comps_used" = Py.VList (map Py.VDict cited)
    /\ (comps <> [] -> cited <> [])
    /\ (List.length (Schemas.comps_used analysis) = List.length cited ->
        Enforce.enforce_evidence_rule analysis (Z.of_nat (List.length comps))
        = Ok analysis).
Proof.
  intros H. destruct (analyze_core_sanitized _ _ _ _ _ _ H) as (raw & b & Hs).
  apply ValidationFacts.sanitize_inv in Hs
    as (implied & lo & hi & conf & _ & _ & Hh & _ & ->).
  rewrite ValidationFacts.emit_eq.
  exists (Validation.surviving_comps raw). split; [reflexivity |].
  assert (Hne : comps <> [] -> Validation.surviving_comps raw <> []).
  { intros Hc Hnil. rewrite Hnil in Hh.
    unfold Validation.hard_failure, Analyzer.retrieval_required_flag in Hh.
    destruct comps as [| c comps]; [congruence |].
    simpl in Hh. rewrite orb_true_r in Hh. discriminate. }
  split; [exact Hne |].
  intros Hlen. unfold Enforce.enforce_evidence_rule. rewrite Hlen.
  destruct comps as [| c comps]; [reflexivity |].
  destruct (Validation.surviving_comps raw) as [| s ss] eqn:Es.
  - exfalso. apply Hne; [discriminate | reflexivity].
  - cbn [List.length Nat.eqb]. now rewrite andb_false_r.
Qed.


End Core.
End PipelineTheorems.

(** ** Retrieval and reranking *)

Module RetrieveFacts.
Import Rerank Retrieve.
Section Subscripts.
Context {F : Type} {fops : PyFloat F}.
Local Abbreviation value := (Py.value F).
Local Abbreviation dict := (Py.dict F).

Lemma and_then_returned {A B : Type} (m : attempt A) (k : A -> attempt B) (b : B) :
  and_then m k = Returned b -> exists a, m = Returned a /\ k a = Returned b.
Proof. destruct m as [a | e]; simpl; intros H; [eauto | discriminate]. Qed.

Lemma item_at_in_range {A : Type} (l : list A) (i : Z) (x : A) :
  item_at l i = Returned x ->
  let j := if i <? 0 then i + Z.of_nat (List.length l) else i in
  (0 <=? j) && (j <? Z.of_nat (List.length l)) = true.
Proof.
  unfold item_at. cbv zeta.
  set (j := if i <? 0 then i + Z.of_nat (List.length l) else i).
  destruct (Z.ltb_spec j 0) as [Hneg | Hpos]; [discriminate |].
  destruct (nth_error l (Z.to_nat j)) eqn:E; [| discriminate].
  intros _. assert (Hlt : (Z.to_nat j < List.length l)%nat).
  { apply nth_error_Some. congruence. }
  apply andb_true_iff. split; [apply Z.leb_le | apply Z.ltb_lt]; lia.
Qed.

Lemma in_range_item_at {A : Type} (l : list A) (i : Z) :
  (let j := if i <? 0 then i + Z.of_nat (List.length l) else i in
   (0 <=? j) && (j <? Z.of_nat (List.length l)) = true) ->
  exists x, item_at l i = Returned x.
Proof.
  unfold item_at. cbv zeta.
  set (j := if i <? 0 then i + Z.of_nat (List.length l) else i).
  intros H. apply andb_true_iff in H as [H0 H1].
  apply Z.leb_le in H0. apply Z.ltb_lt in H1.
  destruct (Z.ltb_spec j 0) as [Hneg | Hpos]; [lia |].
  destruct (nth_error l (Z.to_nat j)) eqn:E; [eauto |].
  apply nth_error_None in E. lia.
Qed.

Lemma subscript_in_range {A : Type} (l : list A) (idx : value) (x : A) :
  subscript l idx = Returned x -> in_range (List.length l) idx = true.
Proof.
  destruct idx; simpl; try discriminate; apply item_at_in_range.
Qed.

Lemma in_range_subscript {A : Type} (l : list A) (idx : value) :
  in_range (List.length l) idx = true -> exists x, subscript l idx = Returned x.
Proof.
  destruct idx; simpl; try discriminate; apply in_range_item_at.
Qed.

Lemma subscript_In {A : Type} (l : list A) (idx : value) (x : A) :
  subscript l idx = Returned x -> In x l.
Proof.
  assert (H : forall i, item_at l i = Returned x -> In x l).
  { intros i. unfold item_at.
    destruct (_ <? 0); [discriminate |].
    destruct (nth_error l _) eqn:E; [| discriminate].
    intros H. injection H as <-. eapply nth_error_In. exact E. }
  destruct idx; simpl; try discriminate; apply H.
Qed.

Lemma ranked_loop_harmless (score : dict -> value) (documents : list value)
    (results : list value) :
  forall ranked out,
    Forall (harmless (List.length documents)) ranked ->
    ranked_loop score documents results ranked = Returned out ->
    Forall (harmless (List.length documents)) out.
Proof.
  induction results as [| item rest IH]; intros ranked out Hr H; simpl in H.
  - now injection H as <-.
  - destruct item as [| | | | | | | item]; try discriminate.
    apply and_then_returned in H as [skip [Hskip H]].
    destruct skip; [eauto |].
    apply and_then_returned in H as [document [Hdoc H]].
    eapply IH; [| exact H].
    apply Forall_app. split; [assumption |]. constructor; [| constructor].
    right. unfold harmless. read_keys. split; [exact Hskip |].
    exact (subscript_in_range _ _ _ Hdoc).
Qed.

Lemma enumerate_harmless (n : nat) (l : list value) :
  forall i : Z,
    0 <= i -> i + Z.of_nat (List.length l) <= Z.of_nat n ->
    Forall (harmless n)
      (map (fun entry : Z * value =>
              [ ("index", Py.VInt (fst entry));
                ("document", snd entry);
                ("relevance_score", Py.VFloat Py.f_zero) ])
           (enumerate_from i l)).
Proof.
  induction l as [| x l IH]; intros i H0 Hn; simpl; constructor.
  - right. unfold harmless. read_keys. cbn [fst out_of_range ge_len in_range].
    simpl List.length in Hn.
    destruct (Z.geb_spec i (Z.of_nat n)) as [Hge | Hlt]; [lia |].
    split; [reflexivity |].
    destruct (Z.ltb_spec i 0); [lia |].
    apply andb_true_iff. split; [apply Z.leb_le | apply Z.ltb_lt]; lia.
  - apply IH; [lia |]. simpl List.length in Hn. lia.
Qed.

Lemma slice_to_length {A : Type} (k : Z) (l : list A) :
  (List.length (slice_to k l) <= List.length l)%nat.
Proof. unfold slice_to. destruct (0 <=? k); rewrite length_firstn; lia. Qed.

Lemma original_order_harmless (documents : list value) (top_k : Z) :
  Forall (harmless (List.length documents)) (original_order documents top_k).
Proof.
  unfold original_order. apply enumerate_harmless; [lia |].
  pose proof (slice_to_length top_k documents). lia.
Qed.

Section Providers.
Variable rerank_provider : option string.
Variable cohere_api_key : option string.
Variable bge_rerank_url : string.
Variable cohere_exchange : exchange value.
Variable bge_exchange : exchange value.

(** Whatever the services answer, what [rerank_documents] returns holds
    harmless items only. *)
Lemma rerank_documents_harmless (documents : list value) (top_k : Z)
    (reranked : list dict) :
  rerank_documents rerank_provider cohere_api_key bge_rerank_url
    cohere_exchange bge_exchange documents top_k = Returned reranked ->
  Forall (harmless (List.length documents)) reranked.
Proof.
  unfold rerank_documents.
  destruct documents as [| d ds] eqn:Ed.
  { intros H. injection H as <-. constructor. }
  rewrite <- Ed. clear Ed.
  destruct (provider_disabled rerank_provider).
  { intros H. injection H as <-. apply original_order_harmless. }
  destruct (_ && _).
  - unfold _cohere_rerank. destruct cohere_exchange as [| [data |]];
      try discriminate.
    intros H. apply and_then_returned in H as [results [_ H]].
    eapply ranked_loop_harmless; [constructor | exact H].
  - unfold _bge_rerank. destruct (String.eqb bge_rerank_url EmptyString).
    { intros H. injection H as <-. apply original_order_harmless. }
    destruct bge_exchange as [| [data |]]; try discriminate.
    { intros H. injection H as <-. apply original_order_harmless. }
    intros H. apply and_then_returned in H as [results [_ H]].
    apply and_then_returned in H as [ranked [Hl H]].
    destruct ranked as [| r rs].
    + injection H as <-. apply original_order_harmless.
    + injection H as <-. eapply ranked_loop_harmless; [constructor | exact Hl].
Qed.

End Providers.

Lemma ordered_loop_scored (hits : list dict) (reranked : list dict) :
  forall ordered out,
    Forall (scored_from hits) ordered ->
    ordered_loop hits reranked ordered = Returned out ->
    Forall (scored_from hits) out.
Proof.
  induction reranked as [| item rest IH]; intros ordered out Ho H; simpl in H.
  - now injection H as <-.
  - apply and_then_returned in H as [skip [_ H]].
    destruct skip; [eauto |].
    apply and_then_returned in H as [hit [Hhit H]].
    eapply IH; [| exact H].
    apply Forall_app. split; [assumption |]. constructor; [| constructor].
    exists hit, (Py.get item "relevance_score").
    split; [exact (subscript_In _ _ _ Hhit) | reflexivity].
Qed.

Lemma ordered_loop_total (hits : list dict) (reranked : list dict) :
  Forall (harmless (List.length hits)) reranked ->
  forall ordered, exists out, ordered_loop hits reranked ordered = Returned out.
Proof.
  induction 1 as [| item rest Hitem _ IH]; intros ordered; simpl; [eauto |].
  destruct Hitem as [-> | [-> Hin]]; cbn [and_then]; [apply IH |].
  destruct (in_range_subscript hits _ Hin) as [hit ->]. cbn [and_then].
  apply IH.
Qed.

Lemma reorder_length (hits reranked out : list dict) :
  reorder hits reranked = Returned out ->
  List.length out = List.length hits
  /\ (out = hits \/ Forall (scored_from hits) out).
Proof.
  unfold reorder. intros H.
  apply and_then_returned in H as [ordered [Hl H]].
  destruct ordered as [| o os].
  - injection H as <-. auto.
  - destruct (Nat.eqb_spec (List.length (o :: os)) (List.length hits)) as [E | E];
      injection H as <-; [| auto].
    split; [exact E |]. right.
    eapply ordered_loop_scored; [constructor | exact Hl].
Qed.

Lemma reorder_total (hits reranked : list dict) :
  Forall (harmless (List.length hits)) reranked ->
  exists out, reorder hits reranked = Returned out.
Proof.
  intros H. unfold reorder.
  destruct (ordered_loop_total hits reranked H []) as [ordered ->].
  cbn [and_then]. destruct ordered; [eauto |].
  destruct (_ =? _)%nat; eauto.
Qed.

End Subscripts.
End RetrieveFacts.

Module RetrieveTheorems.
Import Rerank Retrieve RetrieveFacts StringFacts.
Section Chunks.
Context {F : Type} {fops : PyFloat F}.
Local Abbreviation value := (Py.value F).
Local Abbreviation dict := (Py.dict F).

(** X19.  Reranking never changes the number of hits: when the loop of
    [_maybe_rerank] over the reranker's answer returns, the result has as
    many entries as [hits], and it is either [hits] itself or a list of
    hits with their [rerank_score] set (the original order is kept unless
    every position is filled). *)
Theorem reorder_keeps_count (hits reranked out : list dict) :
  reorder hits reranked = Returned out ->
  List.length out = List.length hits
  /\ (out = hits
      \/ Forall (fun payload =>
                   exists hit score,
                     In hit hits /\ payload = Py.set hit "rerank_score" score)
                out).
Proof.
  unfold reorder. intros H.
  apply and_then_returned in H as [ordered [Hloop H]].
  assert (Hscored : Forall (scored_from hits) ordered).
  { eapply ordered_loop_scored; [constructor | exact Hloop]. }
  destruct ordered as [| first others].
  - injection H as <-. auto.
  - destruct (Nat.eqb_spec (List.length (first :: others)) (List.length hits))
      as [Hlen | Hlen]; injection H as <-; auto.
Qed.

Variable rerank_provider : option string.
Variable cohere_api_key : option string.
Variable bge_rerank_url : string.
Variable cohere_exchange : exchange value.
Variable bge_exchange : exchange value.

Lemma maybe_rerank_total (hits : list dict) (use_rerank : bool) :
  exists out,
    _maybe_rerank rerank_provider cohere_api_key bge_rerank_url
      cohere_exchange bge_exchange hits use_rerank = Returned out
    /\ List.length out = List.length hits.
Proof.
  unfold _maybe_rerank.
  destruct (negb use_rerank || _); [eauto |].
  destruct (rerank_documents _ _ _ _ _ _ _) as [reranked | e] eqn:E; [| eauto].
  apply rerank_documents_harmless in E. rewrite length_map in E.
  destruct (reorder_total hits reranked E) as [out Hout].
  exists out. split; [exact Hout |]. exact (proj1 (reorder_length _ _ _ Hout)).
Qed.

(** X20.  [get_similar_chunks] never raises, whatever the embedding service,
    the two vector searches and the reranking services do: a malformed
    index in a reranker's answer is either skipped or makes
    [rerank_documents] fail, which [_maybe_rerank] catches.  The result is
    empty when the embedding fails or is empty, and otherwise has as many
    chunks as the vector search that supplied them. *)
Theorem retrieval_never_fails
    (embeddings : Orchestrator.reply (list (list F)))
    (supabase_configured : bool)
    (supabase_hits : Orchestrator.reply (list dict))
    (db_given : bool) (local_hits : Orchestrator.reply (list dict))
    (deal : dict) (question : option string) :
  exists chunks,
    get_similar_chunks rerank_provider cohere_api_key bge_rerank_url
      cohere_exchange bge_exchange embeddings supabase_configured
      supabase_hits db_given local_hits deal question = Returned chunks
    /\ (embeddings = Orchestrator.Failed \/ embeddings = Orchestrator.Answered []
        -> chunks = [])
    /\ (chunks = []
        \/ (supabase_configured = true
            /\ exists found, supabase_hits = Orchestrator.Answered found
                 /\ List.length chunks = List.length found)
        \/ (db_given = true
            /\ exists found, local_hits = Orchestrator.Answered found
                 /\ List.length chunks = List.length found)).
Proof.
  unfold get_similar_chunks.
  destruct embeddings as [[| query_vector vectors] |];
    [exists (@nil dict); auto | | exists (@nil dict); auto].
  assert (Hno : Orchestrator.Answered (query_vector :: vectors) = Orchestrator.Failed
                \/ Orchestrator.Answered (query_vector :: vectors)
                   = Orchestrator.Answered [] -> forall l : list dict, l = []).
  { intros [H | H]; discriminate. }
  destruct supabase_configured.
  - destruct supabase_hits as [[| h found] |].
    + destruct db_given; [| exists (@nil dict); auto].
      destruct local_hits as [[| h found] |]; try solve [exists (@nil dict); auto].
      destruct (maybe_rerank_total (h :: found)
                  (negb (provider_disabled rerank_provider))) as [out [Ho Hl]].
      exists out. split; [exact Ho |]. split; [intros H; exact (Hno H out) |].
      right. right. split; [reflexivity |]. eauto.
    + destruct (maybe_rerank_total (h :: found)
                  (negb (provider_disabled rerank_provider))) as [out [Ho Hl]].
      exists out. split; [exact Ho |]. split; [intros H; exact (Hno H out) |].
      right. left. split; [reflexivity |]. eauto.
    + destruct db_given; [| exists (@nil dict); auto].
      destruct local_hits as [[| h found] |]; try solve [exists (@nil dict); auto].
      destruct (maybe_rerank_total (h :: found)
                  (negb (provider_disabled rerank_provider))) as [out [Ho Hl]].
      exists out. split; [exact Ho |]. split; [intros H; exact (Hno H out) |].
      right. right. split; [reflexivity |]. eauto.
  - destruct db_given; [| exists (@nil dict); auto].
    destruct local_hits as [[| h found] |]; try solve [exists (@nil dict); auto].
    destruct (maybe_rerank_total (h :: found)
                (negb (provider_disabled rerank_provider))) as [out [Ho Hl]].
    exists out. split; [exact Ho |]. split; [intros H; exact (Hno H out) |].
    right. right. split; [reflexivity |]. eauto.
Qed.

(** X21.  The text sent to the embedding service is never empty: with no
    question and no detail of the deal it is the fixed text
    [valuation analysis], and a question that is given comes first. *)
Theorem query_text_nonempty (deal : dict) (question : option string) :
  _compose_query_text deal question <> EmptyString
  /\ (forall q, question = Some q -> q <> EmptyString ->
      prefix q (_compose_query_text deal question) = true).
Proof.
  assert (Hjoin : forall (sep x : string) (l : list string),
            x <> EmptyString -> join sep (x :: l) <> EmptyString).
  { intros sep x l Hx. destruct x as [| c x]; [congruence |].
    destruct l; simpl; discriminate. }
  assert (Hpre : forall (sep x : string) (l : list string),
            prefix x (join sep (x :: l)) = true).
  { intros sep x l. destruct l as [| y l].
    - simpl. apply prefix_spec. exists EmptyString.
      now rewrite append_empty_r.
    - cbn [join]. apply prefix_spec. eauto. }
  unfold _compose_query_text.
  set (details := List.app _ _).
  assert (Hd : match details with
               | [] => True
               | _ => join " | " details <> EmptyString
               end).
  { subst details.
    destruct (Py.truthy (Py.get deal "name")); cbn [List.app];
      [apply Hjoin; discriminate |].
    destruct (Py.truthy (Py.get deal "industry")); cbn [List.app];
      [apply Hjoin; discriminate |].
    destruct (Py.get deal "price"); cbn [List.app];
      try (apply Hjoin; discriminate);
      destruct (Py.get deal "ebitda"); cbn [List.app];
      try (apply Hjoin; discriminate); exact I. }
  split.
  - destruct question as [[| c q] |]; cbn [List.app].
    + destruct details; [discriminate |]. cbn [app]. apply Hjoin. exact Hd.
    + destruct details; cbn [app]; apply Hjoin; discriminate.
    + destruct details; [discriminate |]. cbn [app]. apply Hjoin. exact Hd.
  - intros q -> Hq. destruct q as [| c q]; [congruence |].
    destruct details; cbn [app]; apply Hpre.
Qed.

End Chunks.
End RetrieveTheorems.

(** ** The fallback of the reranker *)

Module FallbackTheorems.
Import Rerank Retrieve RetrieveFacts.
Section Fallback.
Context {F : Type} {fops : PyFloat F}.
Local Abbreviation value := (Py.value F).
Local Abbreviation dict := (Py.dict F).

(** A hit with the score of the original ordering. *)
Local Abbreviation unscored :=
  (fun hit : dict => Py.set hit "rerank_score" (Py.VFloat Py.f_zero)).

Lemma item_at_middle {A : Type} (before : list A) (x : A) (after : list A) :
  item_at (before ++ x :: after)%list (Z.of_nat (List.length before)) = Returned x.
Proof.
  unfold item_at.
  destruct (Z.ltb_spec (Z.of_nat (List.length before)) 0) as [H | H]; [lia |].
  destruct (Z.ltb_spec (Z.of_nat (List.length before)) 0) as [H' | H']; [lia |].
  rewrite Nat2Z.id, nth_error_app2 by lia.
  now rewrite Nat.sub_diag.
Qed.

Lemma ordered_loop_original (documents : list value) :
  forall (before after ordered : list dict),
    List.length documents = List.length after ->
    ordered_loop (before ++ after)%list
      (map (fun entry : Z * value =>
              [ ("index", Py.VInt (fst entry));
                ("document", snd entry);
                ("relevance_score", Py.VFloat Py.f_zero) ])
           (enumerate_from (Z.of_nat (List.length before)) documents))
      ordered
    = Returned (ordered ++ map unscored after)%list.
Proof.
  induction documents as [| doc documents IH]; intros before after ordered Hlen.
  - destruct after; [| discriminate]. simpl. now rewrite app_nil_r.
  - destruct after as [| hit after]; [discriminate |].
    cbn [enumerate_from map ordered_loop]. read_keys. cbn [fst snd].
    cbn [out_of_range ge_len].
    assert (Hlt : (Z.of_nat (List.length before)
                   >=? Z.of_nat (List.length (before ++ hit :: after)%list)) = false).
    { rewrite length_app. simpl List.length.
      destruct (Z.geb_spec (Z.of_nat (List.length before))
                  (Z.of_nat (List.length before + S (List.length after))));
        [lia | reflexivity]. }
    rewrite Hlt. cbn [and_then subscript].
    rewrite item_at_middle. cbn [and_then].
    replace (Z.of_nat (List.length before) + 1)
      with (Z.of_nat (List.length (before ++ [hit])%list))
      by (rewrite length_app; simpl; lia).
    replace (before ++ hit :: after)%list with ((before ++ [hit]) ++ after)%list
      by (now rewrite <- app_assoc).
    rewrite IH by (simpl in Hlen; lia).
    cbn [map]. now rewrite <- app_assoc.
Qed.

Lemma reorder_original (hits : list dict) (documents : list value) :
  List.length documents = List.length hits ->
  reorder hits (original_order documents (Z.of_nat (List.length documents)))
  = Returned (map unscored hits).
Proof.
  intros Hlen. unfold reorder, original_order, slice_to.
  destruct (Z.leb_spec 0 (Z.of_nat (List.length documents))) as [_ | H]; [| lia].
  rewrite Nat2Z.id, firstn_all.
  pose proof (ordered_loop_original documents [] hits [] Hlen) as H.
  cbn [app List.length Z.of_nat] in H. rewrite H. cbn [and_then].
  destruct hits as [| hit hits]; [reflexivity |].
  cbn [map]. cbn [List.length]. rewrite length_map, Nat.eqb_refl. reflexivity.
Qed.

(** X22.  When the request to the BGE reranker fails, or no URL is set for
    it, [_maybe_rerank] gives the hits back in the order of the vector
    search, each with the [rerank_score] 0.0. *)
Theorem bge_failure_keeps_order (rerank_provider cohere_api_key : option string)
    (bge_rerank_url : string) (cohere_exchange bge_exchange : exchange value)
    (hits : list dict) :
  provider_disabled rerank_provider = false ->
  match rerank_provider with
  | Some provider => String.eqb provider "cohere"
  | None => false
  end && Orchestrator.configured cohere_api_key = false ->
  bge_rerank_url = EmptyString \/ bge_exchange = HTTPError ->
  _maybe_rerank rerank_provider cohere_api_key bge_rerank_url
    cohere_exchange bge_exchange hits true
  = Returned (map (fun hit => Py.set hit "rerank_score" (Py.VFloat Py.f_zero))
                  hits).
Proof.
  intros Hp Hc Hb. unfold _maybe_rerank. cbn [negb orb].
  destruct hits as [| hit hits]; [reflexivity |].
  cbn [map]. unfold rerank_documents. rewrite Hp, Hc.
  assert (E : forall docs k,
            _bge_rerank bge_rerank_url bge_exchange docs k
            = Returned (original_order docs k)).
  { intros docs k. unfold _bge_rerank. destruct Hb as [-> | ->]; [reflexivity |].
    destruct (String.eqb bge_rerank_url EmptyString); reflexivity. }
  rewrite E.
  change (Py.get_or hit "text" (Py.VStr EmptyString)
          :: map (fun h : dict => Py.get_or h "text" (Py.VStr EmptyString)) hits)
    with (map (fun h : dict => Py.get_or h "text" (Py.VStr EmptyString))
              (hit :: hits)).
  rewrite reorder_original by apply length_map. reflexivity.
Qed.

End Fallback.
End FallbackTheorems.

(** ** The cache *)

Module CacheFacts.
Import Cache.
Section Store.
Context {F : Type} {fops : PyFloat F} {V : Type}.

Local Abbreviation store := (Cache.store F V).

Lemma find_none_keys (s : store) (k : string) :
  find s k = None <-> ~ In k (map fst s).
Proof.
  induction s as [| [k' item] s IH]; simpl; [tauto |].
  destruct (String.eqb k k') eqn:E.
  - apply String.eqb_eq in E. subst. split; [discriminate | tauto].
  - apply String.eqb_neq in E. rewrite IH. split.
    + intros H [H' | H']; [congruence | tauto].
    + tauto.
Qed.

Lemma find_app (s s' : store) (k : string) :
  find (s ++ s')%list k
  = match find s k with Some item => Some item | None => find s' k end.
Proof.
  induction s as [| [k' item] s IH]; simpl; [reflexivity |].
  destruct (String.eqb k k'); [reflexivity | exact IH].
Qed.

Lemma find_last (s : store) (k : string) (item : F * V) :
  find s k = None -> find (s ++ [(k, item)])%list k = Some item.
Proof. intros H. rewrite find_app, H. simpl. now rewrite String.eqb_refl. Qed.

Lemma pop_absent (s : store) (k : string) : find s k = None -> pop s k = s.
Proof.
  induction s as [| [k' item] s IH]; simpl; [reflexivity |].
  destruct (String.eqb k k'); [discriminate |]. intros H. now rewrite IH.
Qed.

Lemma pop_keys (s : store) (k k' : string) :
  In k' (map fst (pop s k)) -> In k' (map fst s).
Proof.
  induction s as [| [k0 item] s IH]; simpl; [tauto |].
  destruct (String.eqb k k0); simpl; tauto.
Qed.

Lemma pop_NoDup (s : store) (k : string) :
  NoDup (map fst s) -> NoDup (map fst (pop s k)).
Proof.
  induction s as [| [k0 item] s IH]; simpl; intros H; [constructor |].
  inversion H as [| ? ? Hk Hs]; subst.
  destruct (String.eqb k k0); [assumption |].
  simpl. constructor; [| auto]. intros Hin. apply Hk. now apply pop_keys in Hin.
Qed.

Lemma find_pop_same (s : store) (k : string) :
  NoDup (map fst s) -> find (pop s k) k = None.
Proof.
  induction s as [| [k0 item] s IH]; simpl; intros H; [reflexivity |].
  inversion H as [| ? ? Hk Hs]; subst.
  destruct (String.eqb k k0) eqn:E.
  - apply String.eqb_eq in E. subst. now apply find_none_keys.
  - simpl. rewrite E. auto.
Qed.

Lemma find_pop_other (s : store) (k k' : string) :
  k' <> k -> find (pop s k) k' = find s k'.
Proof.
  intros Hne. induction s as [| [k0 item] s IH]; simpl; [reflexivity |].
  destruct (String.eqb k k0) eqn:E.
  - apply String.eqb_eq in E. subst.
    destruct (String.eqb k' k0) eqn:E'; [| reflexivity].
    apply String.eqb_eq in E'. congruence.
  - simpl. destruct (String.eqb k' k0); [reflexivity | exact IH].
Qed.

Lemma pop_length (s : store) (k : string) (item : F * V) :
  find s k = Some item -> S (List.length (pop s k)) = List.length s.
Proof.
  induction s as [| [k0 item0] s IH]; simpl; [discriminate |].
  destruct (String.eqb k k0); [reflexivity |]. intros H. simpl. now rewrite IH.
Qed.

Lemma find_assign_same (s : store) (k : string) (item : F * V) :
  find (assign s k item) k = Some item.
Proof.
  induction s as [| [k0 item0] s IH]; simpl.
  - now rewrite String.eqb_refl.
  - destruct (String.eqb k k0) eqn:E; simpl; rewrite E; [reflexivity | exact IH].
Qed.

Lemma find_assign_other (s : store) (k k' : string) (item : F * V) :
  k' <> k -> find (assign s k item) k' = find s k'.
Proof.
  intros Hne. induction s as [| [k0 item0] s IH]; simpl.
  - apply String.eqb_neq in Hne. now rewrite Hne.
  - destruct (String.eqb k k0) eqn:E; simpl.
    + apply String.eqb_eq in E. subst.
      apply String.eqb_neq in Hne. now rewrite Hne.
    + destruct (String.eqb k' k0); [reflexivity | exact IH].
Qed.

Lemma assign_keys (s : store) (k k' : string) (item : F * V) :
  In k' (map fst (assign s k item)) <-> k' = k \/ In k' (map fst s).
Proof.
  induction s as [| [k0 item0] s IH]; simpl.
  - split; [intros [H | []]; auto | intros [H | []]; auto].
  - destruct (String.eqb k k0) eqn:E; simpl.
    + apply String.eqb_eq in E. subst. split; intros [H | H]; auto.
    + rewrite IH. split; intros [H | [H | H]]; auto.
Qed.

Lemma assign_NoDup (s : store) (k : string) (item : F * V) :
  NoDup (map fst s) -> NoDup (map fst (assign s k item)).
Proof.
  induction s as [| [k0 item0] s IH]; simpl; intros H.
  - constructor; [simpl; tauto | constructor].
  - inversion H as [| ? ? Hk Hs]; subst.
    destruct (String.eqb k k0) eqn:E; simpl.
    + constructor; assumption.
    + constructor; [| auto]. rewrite assign_keys.
      apply String.eqb_neq in E. intros [H' | H']; [congruence | tauto].
Qed.

Lemma assign_absent (s : store) (k : string) (item : F * V) :
  find s k = None -> assign s k item = (s ++ [(k, item)])%list.
Proof.
  induction s as [| [k0 item0] s IH]; simpl; [reflexivity |].
  destruct (String.eqb k k0); [discriminate |]. intros H. now rewrite IH.
Qed.

Lemma move_assigned (s : store) (k : string) (item : F * V) :
  move_to_end (assign s k item) k = Ok (refreshed s k item).
Proof. unfold move_to_end. now rewrite find_assign_same. Qed.

Lemma refreshed_NoDup (s : store) (k : string) (item : F * V) :
  NoDup (map fst s) -> NoDup (map fst (refreshed s k item)).
Proof.
  intros H. unfold refreshed. rewrite map_app. simpl.
  pose proof (assign_NoDup s k item H) as Ha.
  apply NoDup_app.
  - now apply pop_NoDup.
  - constructor; [simpl; tauto | constructor].
  - intros x Hx [<- | []].
    apply (proj1 (find_none_keys (pop (assign s k item) k) k)); [| assumption].
    now apply find_pop_same.
Qed.

Lemma evict_cons (x : string * (F * V)) (s : store) (m : Z) :
  evict (x :: s) m
  = if Z.of_nat (List.length (x :: s)) >? m then evict s m else Ok (x :: s).
Proof. reflexivity. Qed.

(** What the eviction loop leaves is a final segment of the store. *)
Lemma evict_suffix (s : store) (m : Z) (s' : store) :
  evict s m = Ok s' -> exists dropped, s = (dropped ++ s')%list.
Proof.
  induction s as [| x s IH].
  - simpl. destruct (0 >? m); [discriminate |]. intros H. injection H as <-.
    now exists [].
  - rewrite evict_cons. destruct (Z.of_nat (List.length (x :: s)) >? m).
    + intros H. destruct (IH H) as [d ->]. now exists (x :: d).
    + intros H. injection H as <-. now exists [].
Qed.

Lemma evict_fits (s : store) (m : Z) (s' : store) :
  evict s m = Ok s' -> Z.of_nat (List.length s') <= m.
Proof.
  induction s as [| x s IH].
  - simpl. destruct (0 >? m) eqn:E; [discriminate |]. intros H. injection H as <-.
    simpl. lia.
  - rewrite evict_cons.
    destruct (Z.of_nat (List.length (x :: s)) >? m) eqn:E; [exact IH |].
    intros H. injection H as <-. lia.
Qed.

Lemma evict_total (s : store) (m : Z) : 0 <= m -> exists s', evict s m = Ok s'.
Proof.
  intros Hm. induction s as [| x s IH].
  - simpl. destruct (0 >? m) eqn:E; [lia | eauto].
  - rewrite evict_cons. destruct (Z.of_nat (List.length (x :: s)) >? m); eauto.
Qed.

Lemma evict_negative (s : store) (m : Z) :
  m < 0 -> evict s m = Raise (KeyError "dictionary is empty").
Proof.
  intros Hm. induction s as [| x s IH].
  - simpl. destruct (0 >? m) eqn:E; [reflexivity | lia].
  - rewrite evict_cons.
    destruct (Z.gtb_spec (Z.of_nat (List.length (x :: s))) m) as [E | E];
      [exact IH | lia].
Qed.

(** With room for one entry the loop keeps the last one. *)
Lemma evict_keeps_last (s : store) (x : string * (F * V)) (m : Z) (s' : store) :
  1 <= m -> evict (s ++ [x])%list m = Ok s' ->
  exists dropped kept, s = (dropped ++ kept)%list /\ s' = (kept ++ [x])%list.
Proof.
  intros Hm. induction s as [| y s IH].
  - cbn [app]. rewrite evict_cons.
    destruct (Z.gtb_spec (Z.of_nat (List.length [x])) m) as [E | E];
      [simpl in E; lia |].
    intros H. injection H as <-.
    now exists [], [].
  - cbn [app]. rewrite evict_cons.
    destruct (Z.of_nat (List.length (y :: (s ++ [x])%list)) >? m).
    + intros H. destruct (IH H) as (d & kept & -> & ->). now exists (y :: d), kept.
    + intros H. injection H as <-. now exists [], (y :: s).
Qed.

Lemma NoDup_suffix {A : Type} (d s : list A) : NoDup (d ++ s) -> NoDup s.
Proof. induction d; simpl; [auto |]. intros H. inversion H. auto. Qed.

End Store.
End CacheFacts.

Module CacheTheorems.
Import Cache CacheFacts.
Section Cache.
Context {F : Type} {fops : PyFloat F} {V : Type}.

Local Abbreviation TTLCache := (Cache.TTLCache F V).

(** X23.  [TTLCache.set] followed by [TTLCache.get] of the same key gives the
    value back, when the cache has room for at least one entry and the
    entry has not expired at the time of the [get], that is, unless
    [now + ttl] is smaller than the time of the [get]. *)
Theorem set_then_get (c : TTLCache) (t t' : F) (k : string) (v : V) :
  1 <= maxsize c -> NoDup (keys c) ->
  f_ltb (f_add t (ttl c)) t' = false ->
  exists c' c'', set c t k v = Ok c' /\ get c' t' k = Ok (Some v, c'').
Proof.
  intros Hm Hnd Hfresh. unfold set.
  set (item := (f_add t (ttl c), v)).
  rewrite (move_assigned (_store c) k item). cbn [bind].
  destruct (evict_total (refreshed (_store c) k item) (maxsize c)) as [s' Hs'];
    [lia |].
  rewrite Hs'. cbn [bind].
  destruct (evict_keeps_last _ _ _ _ Hm Hs') as (d & kept & Hd & ->).
  exists (with_store c (kept ++ [(k, item)])%list).
  assert (Hk : find kept k = None).
  { apply find_none_keys. intros Hin.
    assert (Hp : find (pop (assign (_store c) k item) k) k = None).
    { apply find_pop_same. now apply assign_NoDup. }
    apply find_none_keys in Hp. apply Hp. rewrite Hd, map_app.
    apply in_or_app. now right. }
  unfold get. cbn [_store with_store].
  rewrite (find_last kept k item Hk). subst item. cbn beta iota.
  rewrite Hfresh. unfold move_to_end. rewrite (find_last kept k _ Hk).
  cbn [bind].
  eexists. split; reflexivity.
Qed.

(** X24.  [TTLCache.set] raises exactly when [maxsize] is negative (the
    eviction loop then empties the store and [popitem] fails with a
    [KeyError]); otherwise the store holds at most [maxsize] entries after
    every [set], whatever it held before, and its keys stay distinct. *)
Theorem set_capacity (c : TTLCache) (t : F) (k : string) (v : V) :
  (maxsize c < 0 /\ set c t k v = Raise (KeyError "dictionary is empty"))
  \/ (0 <= maxsize c
      /\ exists c', set c t k v = Ok c'
         /\ maxsize c' = maxsize c
         /\ Z.of_nat (List.length (_store c')) <= maxsize c
         /\ (NoDup (keys c) -> NoDup (keys c'))).
Proof.
  unfold set. set (item := (f_add t (ttl c), v)).
  rewrite (move_assigned (_store c) k item). cbn [bind].
  destruct (Z.ltb_spec (maxsize c) 0) as [Hneg | Hpos].
  - left. split; [assumption |]. now rewrite evict_negative.
  - right. split; [assumption |].
    destruct (evict_total (refreshed (_store c) k item) (maxsize c) Hpos)
      as [s' Hs'].
    rewrite Hs'. cbn [bind]. eexists. split; [reflexivity |].
    cbn [maxsize _store with_store]. split; [reflexivity |].
    split; [exact (evict_fits _ _ _ Hs') |].
    intros Hnd. unfold keys. cbn [_store with_store].
    destruct (evict_suffix _ _ _ Hs') as [d Hd].
    pose proof (refreshed_NoDup (_store c) k item Hnd) as H.
    rewrite Hd, map_app in H. exact (NoDup_suffix _ _ H).
Qed.

(** X25.  Least-recently-used eviction: storing a new key in a full cache
    drops exactly the first (oldest) entry, keeps every other entry in its
    order and puts the new entry last. *)
Theorem set_evicts_least_recent (c : TTLCache) (t : F) (k : string) (v : V)
    (oldest : string * (F * V)) (others : Cache.store F V) :
  _store c = oldest :: others ->
  Z.of_nat (List.length (_store c)) = maxsize c ->
  find (_store c) k = None ->
  set c t k v
  = Ok (with_store c (others ++ [(k, (f_add t (ttl c), v))])%list).
Proof.
  intros Hs Hfull Hnew. unfold set.
  set (item := (f_add t (ttl c), v)).
  rewrite (move_assigned (_store c) k item). cbn [bind].
  unfold refreshed. rewrite (assign_absent _ _ item Hnew).
  assert (Hp : pop (_store c ++ [(k, item)])%list k = _store c).
  { clear Hs Hfull. induction (_store c) as [| [k0 i0] s IH]; simpl.
    - now rewrite String.eqb_refl.
    - simpl in Hnew. destruct (String.eqb k k0); [discriminate |].
      now rewrite IH. }
  rewrite Hp, Hs. cbn [app]. rewrite evict_cons.
  rewrite Hs in Hfull.
  assert (Hlen : List.length (oldest :: (others ++ [(k, item)])%list)
                 = S (List.length (oldest :: others))).
  { simpl. rewrite length_app. simpl. lia. }
  rewrite Hlen.
  destruct (Z.gtb_spec (Z.of_nat (S (List.length (oldest :: others)))) (maxsize c))
    as [E | E]; [| lia].
  destruct others as [| o others'].
  - simpl. simpl in Hfull.
    destruct (Z.gtb_spec 1 (maxsize c)) as [E' | E']; [lia | reflexivity].
  - cbn [app]. rewrite evict_cons.
    assert (Hlen' : List.length (o :: (others' ++ [(k, item)])%list)
                    = List.length (oldest :: o :: others')).
    { simpl. rewrite length_app. simpl. lia. }
    rewrite Hlen'.
    destruct (Z.gtb_spec (Z.of_nat (List.length (oldest :: o :: others')))
                (maxsize c)) as [E' | E']; [lia | reflexivity].
Qed.

(** X26.  A [get] of an entry that has expired returns [None] and removes the
    entry for good: every later [get] of the key misses, whatever the time,
    and no other key is affected. *)
Theorem get_expired_removes (c : TTLCache) (now : F) (k : string)
    (expires_at : F) (v : V) :
  NoDup (keys c) ->
  find (_store c) k = Some (expires_at, v) ->
  f_ltb expires_at now = true ->
  exists c', get c now k = Ok (None, c')
    /\ (forall later, get c' later k = Ok (None, c'))
    /\ (forall k', k' <> k -> find (_store c') k' = find (_store c) k').
Proof.
  intros Hnd Hfind Hexp. unfold get at 1. rewrite Hfind, Hexp.
  eexists. split; [reflexivity |]. split.
  - intros later. unfold get. cbn [_store with_store].
    now rewrite (find_pop_same _ k Hnd).
  - intros k' Hne. cbn [_store with_store]. now apply find_pop_other.
Qed.

(** X27.  [TTLCache.get] never raises; a miss leaves the cache as it is, and
    a hit only changes the order of the entries: every key maps to the
    entry it mapped to before, and the number of entries is the same. *)
Theorem get_only_reorders (c : TTLCache) (now : F) (k : string) :
  NoDup (keys c) ->
  exists (found : option V) (c' : TTLCache),
    get c now k = Ok (found, c')
    /\ (find (_store c) k = None -> found = None /\ c' = c)
    /\ (forall v, found = Some v ->
        (exists expires_at, find (_store c) k = Some (expires_at, v))
        /\ List.length (_store c') = List.length (_store c)
        /\ forall k', find (_store c') k' = find (_store c) k').
Proof.
  intros Hnd. unfold get.
  destruct (find (_store c) k) as [[expires_at v] |] eqn:Hfind.
  - destruct (f_ltb expires_at now).
    + eexists _, _. split; [reflexivity |]. split; [discriminate |].
      intros v' H. discriminate.
    + unfold move_to_end. rewrite Hfind. cbn [bind].
      eexists _, _. split; [reflexivity |]. split; [discriminate |].
      intros v' H. injection H as <-. split; [eauto |].
      cbn [_store with_store]. split.
      * rewrite length_app. simpl.
        rewrite <- (pop_length _ _ _ Hfind). lia.
      * intros k'. rewrite find_app.
        destruct (string_dec k' k) as [-> | Hne].
        -- rewrite (find_pop_same _ k Hnd). simpl.
           now rewrite String.eqb_refl.
        -- rewrite (find_pop_other _ _ _ Hne).
           destruct (find (_store c) k'); [reflexivity |].
           simpl. apply String.eqb_neq in Hne. now rewrite Hne.
  - eexists _, _. split; [reflexivity |]. split; [auto |].
    intros v H. discriminate.
Qed.

End Cache.
End CacheTheorems.
Module CacheKeyFacts.

(** The decimal digits of an [int] hold no colon. *)
Lemma digits_no_colon (d : Decimal.uint) :
  count_char colon (NilEmpty.string_of_uint d) = 0%nat.
Proof. induction d; simpl; auto. Qed.

Lemma string_of_Z_no_colon (z : Z) : count_char colon (string_of_Z z) = 0%nat.
Proof.
  unfold string_of_Z, NilZero.string_of_int, NilZero.string_of_uint.
  destruct (Z.to_int z) as [d | d]; destruct d; simpl;
    try reflexivity; apply digits_no_colon.
Qed.

Lemma string_of_Z_inj (z z' : Z) : string_of_Z z = string_of_Z z' -> z = z'.
Proof.
  unfold string_of_Z. intros H. apply DecimalZ.to_int_inj.
  assert (Hn : forall n, Z.to_int n <> Decimal.Pos Decimal.Nil
                         /\ Z.to_int n <> Decimal.Neg Decimal.Nil).
  { intros n. destruct n; simpl; split; try discriminate;
      intros E; injection E as E;
      exact (DecimalPos.Unsigned.to_uint_nonnil _ E). }
  pose proof (NilZero.isi (Z.to_int z) (proj1 (Hn z)) (proj2 (Hn z))) as E.
  pose proof (NilZero.isi (Z.to_int z') (proj1 (Hn z')) (proj2 (Hn z'))) as E'.
  rewrite H in E. congruence.
Qed.

(** The text before the first colon determines both parts. *)
Lemma split_at_colon (s s' t t' : string) :
  count_char colon s = 0%nat -> count_char colon s' = 0%nat ->
  s ++ String colon t = s' ++ String colon t' -> s = s' /\ t = t'.
Proof.
  revert s'. induction s as [| c s IH]; intros [| c' s'] H0 H0' H;
    cbn [append] in H.
  - injection H as H. auto.
  - injection H as Hc H. subst c'. cbn [count_char] in H0'.
    rewrite Ascii.eqb_refl in H0'. discriminate.
  - injection H as Hc H. subst c. cbn [count_char] in H0.
    rewrite Ascii.eqb_refl in H0. discriminate.
  - injection H as Hc H. subst c'. cbn [count_char] in H0, H0'.
    destruct (Ascii.eqb colon c); [discriminate |].
    destruct (IH s' H0 H0' H) as [-> ->]. auto.
Qed.

End CacheKeyFacts.

Module CacheKeyTheorems.
Import Cache StringFacts CacheKeyFacts.

(** X28.  The cache key ignores the case of the question and the white space
    around it: a question padded with white space on either side, in any
    mix of upper and lower case, gets the key of the plain question; a
    missing question gets the key of the empty one. *)
Theorem cache_key_normalised (deal_id : Z) (q before after : string) :
  blank before = true -> blank after = true ->
  make_analysis_cache_key deal_id (Some (before ++ lower q ++ after))
  = make_analysis_cache_key deal_id (Some q)
  /\ make_analysis_cache_key deal_id (Some (before ++ after))
     = make_analysis_cache_key deal_id None.
Proof.
  intros Ha Hb. unfold make_analysis_cache_key, or_empty. split.
  - rewrite (strip_padded before (lower q) after Ha Hb).
    now rewrite strip_lower, lower_idempotent.
  - pose proof (strip_padded before EmptyString after Ha Hb) as H.
    simpl in H. now rewrite H.
Qed.

(** X29.  Keys of different deals never collide: equal cache keys come from
    the same deal id and from questions with the same normal form. *)
Theorem cache_key_injective (d d' : Z) (q q' : option string) :
  make_analysis_cache_key d q = make_analysis_cache_key d' q' ->
  d = d' /\ lower (strip (or_empty q)) = lower (strip (or_empty q')).
Proof.
  unfold make_analysis_cache_key. intros H.
  destruct (split_at_colon _ _ _ _ (string_of_Z_no_colon d)
              (string_of_Z_no_colon d') H) as [Hd Hq].
  split; [now apply string_of_Z_inj | exact Hq].
Qed.

End CacheKeyTheorems.

(** ** The further properties on concrete inputs *)

Module ConcreteCoverage.
Import Py Exact ExactLaws Scenarios Cases.

Lemma warm_cache_keys : NoDup (Cache.keys warm_cache).
Proof.
  unfold Cache.keys. simpl. constructor; [| constructor; [| constructor]].
  - simpl. intros [H | []]. discriminate.
  - simpl. tauto.
Qed.

(** X1 on Scenario A, whose numbers are floats. *)
Lemma sanitize_outcome_scenario_A :
  Validation.numbers_fit scenario_A = true
  /\ ((Validation.hard_failure false 0 (Validation.surviving_comps scenario_A) = true
       /\ Validation.sanitize_analysis_payload scenario_A (lit 6 0) false 0
          = Raise (ValueError "retrieval_hits_without_citations"))
      \/ (Validation.hard_failure false 0 (Validation.surviving_comps scenario_A) = false
          /\ exists r,
               Validation.sanitize_analysis_payload scenario_A (lit 6 0) false 0 = Ok r
               /\ Validation.structurally_valid r = true)).
Proof.
  split; [reflexivity |].
  exact (SanitizerCoverage.sanitize_raises_only_hard_failure (F:=xfloat)
           scenario_A (lit 6 0) false 0 eq_refl).
Defined.

(** X2 on Scenario C. *)
Lemma cited_numbers_scenario_C :
  (Validation.sanitize_analysis_payload scenario_C (lit 6 0) true 2 = Ok sanitized_C
   /\ Validation.surviving_comps scenario_C <> [])
  /\ exists implied lo hi conf : xfloat,
       Validation._as_float (get scenario_C "implied_multiple") (lit 6 0) = Ok implied
       /\ Validation.parse_range (get scenario_C "range") implied = Ok (lo, hi)
       /\ Validation._as_float (get scenario_C "confidence")
            Validation.default_confidence = Ok conf
       /\ get sanitized_C "implied_multiple" = VFloat (Validation._round implied)
       /\ get sanitized_C "range"
          = VList [ VFloat (Validation._round (if f_gtb lo hi then hi else lo));
                    VFloat (Validation._round (if f_gtb lo hi then lo else hi)) ]
       /\ get sanitized_C "confidence" = VFloat (Validation.clamp_confidence conf)
       /\ get sanitized_C "comps_used"
          = VList (map VDict (Validation.surviving_comps scenario_C))
       /\ get sanitized_C "risk_flags"
          = VList (map VStr (Validation.fromkeys (Validation.collect_risks scenario_C))).
Proof.
  assert (Hne : Validation.surviving_comps scenario_C <> []).
  { vm_compute. discriminate. }
  split; [split; [vm_compute; reflexivity | exact Hne] |].
  exact (SanitizerCoverage.cited_payload_keeps_its_numbers (F:=xfloat)
           scenario_C (lit 6 0) true 2 sanitized_C eq_refl Hne).
Defined.

(** X3 on Scenario A. *)
Lemma risk_flags_scenario_A :
  Validation.sanitize_analysis_payload scenario_A (lit 6 0) false 0 = Ok sanitized_A
  /\ exists flags : list string,
       get sanitized_A "risk_flags" = VList (map VStr flags)
       /\ NoDup flags
       /\ forall flag,
            In flag flags
            <-> In flag (Validation.collect_risks scenario_A)
                \/ (flag = Validation.no_citable_evidence
                    /\ Validation.surviving_comps scenario_A = []).
Proof.
  split; [vm_compute; reflexivity |].
  exact (SanitizerCoverage.sanitized_risk_flags (F:=xfloat)
           scenario_A (lit 6 0) false 0 sanitized_A eq_refl).
Defined.

(** X5 on Scenario C. *)
Lemma clean_flags_scenario_C :
  Validation.sanitize_analysis_payload scenario_C (lit 6 0) true 2 = Ok sanitized_C
  /\ exists flags : list string,
       get sanitized_C "risk_flags" = VList (map VStr flags)
       /\ SchemasValidators._clean_risk_flags (get sanitized_C "risk_flags")
          = Ok (map Text.strip flags)
       /\ SchemasValidators._clean_risk_flags (VList (map VStr (map Text.strip flags)))
          = Ok (map Text.strip flags).
Proof.
  split; [vm_compute; reflexivity |].
  exact (ValidatorTheorems.clean_risk_flags_after_sanitizer (F:=xfloat)
           scenario_C (lit 6 0) true 2 sanitized_C eq_refl).
Defined.

(** X7 on [complete_deal]. *)
Lemma valuation_of_complete_deal :
  Consultant._heuristic_baseline complete_deal [] = Ok complete_baseline
  /\ exists (r : dict xfloat) (m : Orchestrator.meta xfloat)
            (implied lo hi conf : xfloat),
       Orchestrator.analyze_valuation no_plan read_answer no_model
         None (Some "sk") Orchestrator.Failed (Orchestrator.Answered "answer")
         complete_deal [] (Some "is it ok") = Ok (r, m)
       /\ Orchestrator.path m
          = Consultant._classify_request (Some "is it ok") complete_deal []
       /\ get r "implied_multiple" = VFloat implied
       /\ get r "range" = VTuple [VFloat lo; VFloat hi]
       /\ get r "confidence" = VFloat conf.
Proof.
  split; [vm_compute; reflexivity |].
  exact (OrchestratorTheorems.analyze_valuation_total (F:=xfloat)
           no_plan read_answer no_model None (Some "sk")
           Orchestrator.Failed (Orchestrator.Answered "answer")
           complete_deal [] (Some "is it ok") complete_baseline eq_refl).
Defined.

(** X8 on the answer synthesized for [complete_deal]. *)
Lemma synthesized_answer_sanitizes :
  Orchestrator.analyze_valuation no_plan read_answer no_model
    None (Some "sk") Orchestrator.Failed (Orchestrator.Answered "answer")
    complete_deal [] (Some "is it ok") = Ok (synthesized, easy_path)
  /\ ((Validation.hard_failure false 0 (Validation.surviving_comps synthesized) = true
       /\ Validation.sanitize_analysis_payload synthesized (lit 10 0) false 0
          = Raise (ValueError "retrieval_hits_without_citations"))
      \/ (Validation.hard_failure false 0 (Validation.surviving_comps synthesized) = false
          /\ exists s,
               Validation.sanitize_analysis_payload synthesized (lit 10 0) false 0 = Ok s
               /\ Validation.structurally_valid s = true)).
Proof.
  split; [vm_compute; reflexivity |].
  exact (OrchestratorTheorems.consultant_output_sanitizes (F:=xfloat)
           no_plan read_answer no_model None (Some "sk")
           Orchestrator.Failed (Orchestrator.Answered "answer")
           complete_deal [] (Some "is it ok") synthesized easy_path
           (lit 10 0) false 0 eq_refl).
Defined.

(** X9 on [complete_deal]: a DeepSeek answer makes no difference. *)
Lemma easy_question_skips_triage :
  Consultant._classify_request (Some "is it ok") complete_deal [] = "easy"
  /\ Orchestrator.analyze_valuation no_plan read_answer no_model
       (Some "ds") (Some "sk") (Orchestrator.Answered (Some "answer"))
       (Orchestrator.Answered "answer") complete_deal [] (Some "is it ok")
     = Orchestrator.analyze_valuation no_plan read_answer no_model
         None (Some "sk") Orchestrator.Failed
         (Orchestrator.Answered "answer") complete_deal [] (Some "is it ok").
Proof.
  split; [reflexivity |].
  exact (OrchestratorTheorems.easy_request_skips_triage (F:=xfloat)
           no_plan read_answer no_model (Some "ds") None (Some "sk")
           (Orchestrator.Answered (Some "answer")) Orchestrator.Failed
           (Orchestrator.Answered "answer") complete_deal [] (Some "is it ok")
           eq_refl).
Defined.

(** X11 on the baseline of [complete_deal]. *)
Lemma complete_baseline_escalates :
  (f_ltb (lit 5 (-1)) (lit 55 (-2)) = true
   /\ Consultant._heuristic_baseline complete_deal [] = Ok complete_baseline)
  /\ Orchestrator._should_escalate "hard" (Some complete_baseline) one_chunk
     = Ok true.
Proof.
  split; [split; [reflexivity | vm_compute; reflexivity] |].
  exact (OrchestratorTheorems.baseline_always_escalates (F:=xfloat)
           complete_deal [] one_chunk complete_baseline eq_refl eq_refl).
Defined.

(** X12 on [complete_deal] and a question that compares. *)
Lemma plan_for_complete_deal :
  (f_ltb (lit 5 (-1)) (lit 55 (-2)) = true
   /\ Consultant._heuristic_baseline complete_deal [] = Ok complete_baseline
   /\ Consultant._classify_request (Some "compare it") complete_deal [] = "hard"
   /\ Orchestrator.configured (Some "ds") = true
   /\ Triage.parse_triage_plan read_plan read_answer no_model (Some "plan")
      = Ok plan_A)
  /\ Orchestrator.analyze_valuation read_plan read_answer no_model
       (Some "ds") (Some "sk") (Orchestrator.Answered (Some "plan"))
       (Orchestrator.Answered "answer") complete_deal [] (Some "compare it")
     = Ok (synthesized,
           {| Orchestrator.path := "hard";
              Orchestrator.triage_confidence := Some (lit 7 (-1)) |}).
Proof.
  split; [repeat split; vm_compute; reflexivity |].
  exact (HardPathTheorems.triage_plan_forces_synthesis (F:=xfloat)
           read_plan read_answer no_model (Some "ds") (Some "sk") (Some "plan")
           (Orchestrator.Answered "answer") complete_deal [] (Some "compare it")
           complete_baseline plan_A eq_refl eq_refl eq_refl eq_refl eq_refl).
Defined.


(** X15 on the ORM row of [complete_deal]. *)
Lemma coerced_deal_row :
  AnalyzerDeal._coerce_deal_payload deal_row = Ok deal_row_payload
  /\ match AnalyzerDeal._coerce_deal_payload deal_row with
     | Ok deal_payload =>
         exists price ebitda : xfloat,
           get deal_payload "price" = VFloat price
           /\ get deal_payload "ebitda" = VFloat ebitda
           /\ (exists m, AnalyzerDeal.baseline_multiple price ebitda = Ok m)
           /\ (f_ltb f_zero ebitda = false ->
               AnalyzerDeal.baseline_multiple price ebitda = Ok f_zero)
           /\ forall comps, exists b,
                Consultant._heuristic_baseline deal_payload comps = Ok b
     | Raise e => e = OverflowError
     end.
Proof.
  split; [reflexivity |].
  exact (PipelineTheorems.coerced_deal_baselines (F:=xfloat) deal_row).
Defined.

(** X16 on the ORM row, with a synthesis backend that answers. *)
Lemma analysis_of_deal_row :
  AnalyzerDeal._coerce_deal_payload deal_row = Ok deal_row_payload
  /\ exists r,
       Pipeline.analyze_core no_plan read_answer no_model None (Some "sk")
         Orchestrator.Failed (Orchestrator.Answered "answer")
         deal_row (Some "is it ok") [] = Ok r
       /\ Validation.structurally_valid r = true.
Proof.
  split; [reflexivity |].
  exact (PipelineTheorems.analysis_without_chunks_succeeds (F:=xfloat)
           no_plan read_answer no_model None (Some "sk")
           Orchestrator.Failed (Orchestrator.Answered "answer")
           deal_row (Some "is it ok") deal_row_payload eq_refl).
Defined.

(** X17 on one retrieved chunk and an answer that cites a name only. *)
Lemma evidence_rule_recovered_answer :
  (Analyzer.analyze_core (lit 60 0) (lit 10 0) (Some "is it ok") one_chunk
     uncited_answer = Ok recovered_answer)
  /\ exists cited : list (dict xfloat),
       get recovered_answer "comps_used" = VList (map VDict cited)
       /\ (one_chunk <> [] -> cited <> [])
       /\ (List.length (Schemas.comps_used cited_analysis) = List.length cited ->
           Enforce.enforce_evidence_rule cited_analysis
             (Z.of_nat (List.length one_chunk)) = Ok cited_analysis).
Proof.
  split; [vm_compute; reflexivity |].
  exact (PipelineTheorems.evidence_rule_never_fires (F:=xfloat)
           (lit 60 0) (lit 10 0) (Some "is it ok") one_chunk uncited_answer
           recovered_answer cited_analysis eq_refl).
Defined.


(** X19 on two hits that the reranker swaps. *)
Lemma reorder_two_hits :
  Retrieve.reorder two_hits swapped = Rerank.Returned reranked_hits
  /\ List.length reranked_hits = List.length two_hits
  /\ (reranked_hits = two_hits
      \/ Forall (fun payload =>
                   exists hit score,
                     In hit two_hits /\ payload = set hit "rerank_score" score)
                reranked_hits).
Proof.
  split; [vm_compute; reflexivity |].
  exact (RetrieveTheorems.reorder_keeps_count (F:=xfloat) two_hits swapped
           reranked_hits eq_refl).
Defined.

(** X22 on two hits, with a BGE reranker that has no URL. *)
Lemma bge_unset_two_hits :
  (Rerank.provider_disabled (Some "bge") = false
   /\ String.eqb "bge" "cohere" && Orchestrator.configured None = false)
  /\ Retrieve._maybe_rerank (Some "bge") None EmptyString
       Rerank.HTTPError Rerank.HTTPError two_hits true
     = Rerank.Returned
         (map (fun hit : dict xfloat => set hit "rerank_score" (VFloat f_zero))
              two_hits).
Proof.
  split; [split; reflexivity |].
  exact (FallbackTheorems.bge_failure_keeps_order (F:=xfloat) (Some "bge") None
           EmptyString Rerank.HTTPError Rerank.HTTPError two_hits
           eq_refl eq_refl (or_introl eq_refl)).
Defined.

(** X23 on the full cache: a third analysis stored at time 100 is read back
    at time 650. *)
Lemma warm_cache_round_trip :
  (1 <= Cache.maxsize warm_cache
   /\ f_ltb (f_add (lit 100 0) (Cache.ttl warm_cache)) (lit 650 0) = false)
  /\ exists c' c'',
       Cache.set warm_cache (lit 100 0) "9:fair?" 3 = Ok c'
       /\ Cache.get c' (lit 650 0) "9:fair?" = Ok (Some 3, c'').
Proof.
  split; [split; [simpl; lia | reflexivity] |].
  apply (CacheTheorems.set_then_get (F:=xfloat) warm_cache (lit 100 0) (lit 650 0)
           "9:fair?" 3).
  - simpl. lia.
  - exact warm_cache_keys.
  - reflexivity.
Defined.

(** X25 on the full cache: the third analysis evicts the oldest. *)
Lemma warm_cache_eviction :
  (Z.of_nat (List.length (Cache._store warm_cache)) = Cache.maxsize warm_cache
   /\ Cache.find (Cache._store warm_cache) "9:fair?" = None)
  /\ Cache.set warm_cache (lit 100 0) "9:fair?" 3
     = Ok (Cache.with_store warm_cache
             [ ("8:fair?", (lit 800 0, 2));
               ("9:fair?", (f_add (lit 100 0) (Cache.ttl warm_cache), 3)) ]).
Proof.
  split; [split; reflexivity |].
  exact (CacheTheorems.set_evicts_least_recent (F:=xfloat) warm_cache (lit 100 0)
           "9:fair?" 3 ("7:fair?", (lit 700 0, 1)) [("8:fair?", (lit 800 0, 2))]
           eq_refl eq_refl eq_refl).
Defined.

(** X26 on the full cache, read at time 750: the older entry has expired. *)
Lemma warm_cache_expiry :
  (Cache.find (Cache._store warm_cache) "7:fair?" = Some (lit 700 0, 1)
   /\ f_ltb (lit 700 0) (lit 750 0) = true)
  /\ exists c', Cache.get warm_cache (lit 750 0) "7:fair?" = Ok (None, c')
       /\ (forall later, Cache.get c' later "7:fair?" = Ok (None, c'))
       /\ (forall k', k' <> "7:fair?" ->
           Cache.find (Cache._store c') k' = Cache.find (Cache._store warm_cache) k').
Proof.
  split; [split; reflexivity |].
  exact (CacheTheorems.get_expired_removes (F:=xfloat) warm_cache (lit 750 0)
           "7:fair?" (lit 700 0) 1 warm_cache_keys eq_refl eq_refl).
Defined.

(** X27 on the full cache, read at time 650. *)
Lemma warm_cache_hit :
  exists (found : option Z) (c' : Cache.TTLCache xfloat Z),
    Cache.get warm_cache (lit 650 0) "7:fair?" = Ok (found, c')
    /\ (Cache.find (Cache._store warm_cache) "7:fair?" = None ->
        found = None /\ c' = warm_cache)
    /\ (forall v, found = Some v ->
        (exists expires_at,
           Cache.find (Cache._store warm_cache) "7:fair?" = Some (expires_at, v))
        /\ List.length (Cache._store c') = List.length (Cache._store warm_cache)
        /\ forall k', Cache.find (Cache._store c') k'
                      = Cache.find (Cache._store warm_cache) k').
Proof.
  exact (CacheTheorems.get_only_reorders (F:=xfloat) warm_cache (lit 650 0)
           "7:fair?" warm_cache_keys).
Defined.

(** X28 on a padded question in capitals. *)
Lemma cache_key_of_padded_question :
  (blank "  " = true /\ blank " " = true)
  /\ Cache.make_analysis_cache_key 7 (Some ("  " ++ lower "Fair PRICE?" ++ " "))
     = Cache.make_analysis_cache_key 7 (Some "Fair PRICE?")
  /\ Cache.make_analysis_cache_key 7 (Some ("  " ++ " "))
     = Cache.make_analysis_cache_key 7 None.
Proof.
  split; [split; reflexivity |].
  exact (CacheKeyTheorems.cache_key_normalised 7 "Fair PRICE?" "  " " "
           eq_refl eq_refl).
Defined.

(** X29 on two spellings of one question. *)
Lemma cache_key_same_question :
  Cache.make_analysis_cache_key 7 (Some " Fair? ")
  = Cache.make_analysis_cache_key 7 (Some "fair?")
  /\ 7 = 7
  /\ lower (Text.strip (or_empty (Some " Fair? ")))
     = lower (Text.strip (or_empty (Some "fair?"))).
Proof.
  split; [reflexivity |].
  exact (CacheKeyTheorems.cache_key_injective 7 7 (Some " Fair? ") (Some "fair?")
           eq_refl).
Defined.

End ConcreteCoverage.
